(** * Smart email deletion assistant: the run store and the page controller

    A shallow embedding of [src/database.py] (class [EmailDatabase]),
    [src/gmail_client.py] (class [GmailClient]), [src/groq_analyzer.py]
    (class [GroqAnalyzer]) and [src/email_processor.py] (class
    [EmailProcessor]), followed by the properties of the pagination and
    decision workflow.

    Conventions of the embedding.
    - A Python exception is the [None] of the option monad ([py A]); a
      Python function that returns [None] as a value returns an inner
      [option].
    - The three SQLite tables are lists of rows in insertion order, with
      the AUTOINCREMENT counters of [sqlite_sequence] next to them.  Every
      method of [EmailDatabase] is one transaction: it either returns the
      new store or raises and leaves the store as it was (the connection
      context manager rolls back).  Store failures that do not depend on
      the arguments (locked or unwritable file) are outside the model.
    - Values bound to SQL parameters are recorded as the driver binds
      them ([bind]); column affinity conversions are not modelled.
    - The mail provider, the language model and [json.loads] are the
      fields of a [world]: total functions that answer or fail.
    - A character of a modelled string stands for one Python character. *)

From Stdlib Require Import ZArith String Ascii List Bool Lia.
From Stdlib Require Import Floats.PrimFloat Numbers.Cyclic.Int63.Uint63.
From stdpp Require Import base option list gmap strings fin_maps.

Set Warnings "-register-all".
#[local] Open Scope Z_scope.
#[local] Open Scope string_scope.
#[local] Open Scope list_scope.

(** ** Python values *)

(** What [json.loads] builds, and what the code passes around as
    "analysis": Python's [None], [bool], [int], [float], [str], [list] and
    [dict] with string keys. *)
Inductive json : Type :=
| JNull
| JBool (b : bool)
| JInt (z : Z)
| JFloat (f : float)
| JStr (s : string)
| JArr (l : list json)
| JObj (kv : gmap string json).

(** [py A]: a computation that returns an [A] or raises. *)
Abbreviation py A := (option A) (only parsing).
Abbreviation raise := None (only parsing).

(** [needle in hay] on two [str]. *)
Fixpoint is_substring (needle hay : string) : bool :=
  String.prefix needle hay ||
  match hay with
  | EmptyString => false
  | String _ rest => is_substring needle rest
  end.

(** [s[:n]]. *)
Fixpoint str_take (n : nat) (s : string) : string :=
  match n, s with
  | S n', String c rest => String c (str_take n' rest)
  | _, _ => EmptyString
  end.

(** [s[n:]]. *)
Fixpoint str_drop (n : nat) (s : string) : string :=
  match n, s with
  | S n', String _ rest => str_drop n' rest
  | _, _ => s
  end.

(** [s[a:-b]] for [a], [b] within or beyond the string: empty when the two
    ends cross. *)
Definition str_slice (a b : nat) (s : string) : string :=
  str_take (String.length s - b - a) (str_drop a s).

(** [str.isspace] on the characters below 256. *)
Definition is_space (c : ascii) : bool :=
  let n := nat_of_ascii c in
  ((9 <=? n) && (n <=? 13) || (28 <=? n) && (n <=? 32) ||
   (n =? 133) || (n =? 160))%nat.

Fixpoint lstrip (s : string) : string :=
  match s with
  | String c rest => if is_space c then lstrip rest else s
  | EmptyString => EmptyString
  end.

Fixpoint rstrip (s : string) : string :=
  match s with
  | EmptyString => EmptyString
  | String c rest =>
      match rstrip rest with
      | EmptyString => if is_space c then EmptyString else String c EmptyString
      | r => String c r
      end
  end.

(** [s.strip()]. *)
Definition str_strip (s : string) : string := rstrip (lstrip s).

(** Truth value of a Python object ([if x:], [not x]). *)
Definition truthy (j : json) : bool :=
  match j with
  | JNull => false
  | JBool b => b
  | JInt z => negb (Z.eqb z 0)
  | JFloat f => negb (PrimFloat.eqb f 0%float)
  | JStr s => negb (String.eqb s "")
  | JArr l => match l with [] => false | _ => true end
  | JObj kv => negb (bool_decide (kv = ∅))
  end.

(** [x == 'text'] for a string literal. *)
Definition py_eq_str (j : json) (s : string) : bool :=
  match j with
  | JStr t => String.eqb t s
  | _ => false
  end.

(** [d.get(k, default)]: [AttributeError] unless [d] is a dict. *)
Definition py_get (d : json) (k : string) (dflt : json) : py json :=
  match d with
  | JObj kv => Some (default dflt (kv !! k))
  | _ => raise
  end.

(** [d[k]] for a string key: [KeyError] when absent, [TypeError] on
    anything but a dict. *)
Definition py_getitem (d : json) (k : string) : py json :=
  match d with
  | JObj kv => kv !! k
  | _ => raise
  end.

(** ['k' in x]: key membership on a dict, element membership on a list,
    substring on a str, [TypeError] otherwise. *)
Definition py_contains (k : string) (x : json) : py bool :=
  match x with
  | JObj kv => Some (bool_decide (is_Some (kv !! k)))
  | JArr l => Some (existsb (fun e => py_eq_str e k) l)
  | JStr s => Some (is_substring k s)
  | _ => raise
  end.

(** [float(n)] for a count. *)
Definition float_of_count (n : Z) : float := PrimFloat.of_uint63 (Uint63.of_Z n).

(** [n + x] for an [int] n: defined on numbers and booleans, [TypeError]
    otherwise. *)
Definition py_add_int (n : Z) (x : json) : py json :=
  match x with
  | JInt m => Some (JInt (n + m))
  | JBool b => Some (JInt (n + Z.b2z b))
  | JFloat f => Some (JFloat (PrimFloat.add (float_of_count n) f))
  | _ => raise
  end.

(** ** The run store ([EmailDatabase]) *)

(** A value as the SQLite driver binds it. *)
Inductive sqlval : Type :=
| SNull
| SInt (z : Z)
| SReal (f : float)
| SText (s : string).

(** Binding a Python value to a [?] placeholder: [None], [int] (64 bits,
    [OverflowError] beyond), [float] (SQLite stores a NaN as [NULL]) and
    [str] are supported, [bool] is an [int]; a list or a dict is an
    unsupported type. *)
Definition bind (j : json) : py sqlval :=
  match j with
  | JNull => Some SNull
  | JBool b => Some (SInt (Z.b2z b))
  | JInt z =>
      if (Z.leb (- 2 ^ 63) z && Z.ltb z (2 ^ 63))%bool then Some (SInt z) else raise
  | JFloat f => if PrimFloat.eqb f f then Some (SReal f) else Some SNull
  | JStr s => Some (SText s)
  | JArr _ | JObj _ => raise
  end.

(** The clock as the store reads it: [datetime.now().strftime('%Y-%m-%d')]
    and SQLite's [CURRENT_TIMESTAMP]. *)
Record clock : Type := Clock {
  today : string;
  current_timestamp : Z
}.

(** An email as [GmailClient._get_email_details] returns it. *)
Record email : Type := Email {
  em_id : string;
  em_subject : string;
  em_sender : string;
  em_date : string;
  em_snippet : string;
  em_is_unread : bool;
  em_labels : list string
}.

(** [status] of a run. *)
Inductive run_status : Type := pending | completed | superseded.

Definition run_status_eqb (a b : run_status) : bool :=
  match a, b with
  | pending, pending | completed, completed | superseded, superseded => true
  | _, _ => false
  end.

(** A row of [analysis_runs], columns in schema order (0 to 9). *)
Record run_row : Type := RunRow {
  run_id : Z;
  run_date : string;
  total_emails : sqlval;
  recommended_deletions : sqlval;
  needs_review : sqlval;
  keep_emails : sqlval;
  status : run_status;
  current_page_token : option string;
  next_page_token : option string;
  created_at : Z
}.

(** A row of [email_analysis], columns in schema order (0 to 13). *)
Record email_row : Type := EmailRow {
  ea_id : Z;
  ea_run_id : Z;
  ea_email_id : string;
  ea_subject : string;
  ea_sender : string;
  ea_date : string;
  ea_snippet : string;
  ea_is_unread : bool;
  ea_recommended_action : sqlval;
  ea_category : sqlval;
  ea_confidence : sqlval;
  ea_reason : sqlval;
  ea_user_decision : option string;
  ea_processed_at : option Z
}.

(** A row of [deleted_emails]. *)
Record deleted_row : Type := DeletedRow {
  del_id : Z;
  del_email_id : string;
  del_subject : string;
  del_sender : string;
  deleted_at : Z;
  can_restore : bool
}.

(** The database file: three tables and their AUTOINCREMENT counters. *)
Record db : Type := Db {
  analysis_runs : list run_row;
  email_analysis : list email_row;
  deleted_emails : list deleted_row;
  seq_analysis_runs : Z;
  seq_email_analysis : Z;
  seq_deleted_emails : Z
}.

(** [_init_database] on a fresh file. *)
Definition empty_db : db := Db [] [] [] 0 0 0.

Definition set_status (s : run_status) (r : run_row) : run_row :=
  RunRow (run_id r) (run_date r) (total_emails r) (recommended_deletions r)
         (needs_review r) (keep_emails r) s (current_page_token r)
         (next_page_token r) (created_at r).

Definition set_decision (dec : string) (now : Z) (r : email_row) : email_row :=
  EmailRow (ea_id r) (ea_run_id r) (ea_email_id r) (ea_subject r) (ea_sender r)
           (ea_date r) (ea_snippet r) (ea_is_unread r) (ea_recommended_action r)
           (ea_category r) (ea_confidence r) (ea_reason r) (Some dec) (Some now).

(** The parameter tuple of one [INSERT INTO email_analysis], after binding. *)
Record email_params : Type := EmailParams {
  p_email : email;
  p_action : sqlval;
  p_category : sqlval;
  p_confidence : sqlval;
  p_reason : sqlval
}.

(** [email_analysis.get('action', 'review')] and its three siblings, for an
    entry [email_analysis] of the analysis map; [no_reason] is the default
    reason text of the call site. *)
Definition recommendation (email_analysis : json) (no_reason : string)
  : py (json * json * json * json) :=
  a ← py_get email_analysis "action" (JStr "review");
  c ← py_get email_analysis "category" (JStr "other");
  f ← py_get email_analysis "confidence" (JFloat 0.5%float);
  r ← py_get email_analysis "reason" (JStr no_reason);
  Some (a, c, f, r).

Definition bind_params (e : email) (t : json * json * json * json) : py email_params :=
  let '(a, c, f, r) := t in
  a' ← bind a; c' ← bind c; f' ← bind f; r' ← bind r;
  Some (EmailParams e a' c' f' r').

(** The tuple built for one email of a page: the loop body shared by
    [save_analysis_run], [save_page_analysis] and the new emails of
    [merge_reanalysis_with_new_page]. *)
Definition page_email_params (analysis : json) (e : email) : py email_params :=
  entries ← py_getitem analysis "analysis";
  email_analysis ← py_get entries (em_id e) (JObj ∅);
  t ← recommendation email_analysis "No analysis available";
  bind_params e t.

(** [executemany] of the email inserts: ids continue the counter, decision
    and timestamp take their [NULL] defaults. *)
Fixpoint insert_emails (rid : Z) (seq : Z) (ps : list email_params) : list email_row :=
  match ps with
  | [] => []
  | p :: rest =>
      let e := p_email p in
      EmailRow (seq + 1) rid (em_id e) (em_subject e) (em_sender e) (em_date e)
               (em_snippet e) (em_is_unread e) (p_action p) (p_category p)
               (p_confidence p) (p_reason p) None None
      :: insert_emails rid (seq + 1) rest
  end.

(** The four summary counters of a run header, bound. *)
Definition summary_params (summary : json) : py (sqlval * sqlval * sqlval * sqlval) :=
  t ← py_get summary "total_emails" (JInt 0);
  d ← py_get summary "recommended_deletions" (JInt 0);
  r ← py_get summary "needs_review" (JInt 0);
  k ← py_get summary "keep" (JInt 0);
  t' ← bind t; d' ← bind d; r' ← bind r; k' ← bind k;
  Some (t', d', r', k').

(** A new run with its emails, committed together. *)
Definition commit_run (c : clock) (d : db) (counts : sqlval * sqlval * sqlval * sqlval)
    (current_token next_token : option string) (ps : list email_params) : db * Z :=
  let '(t, dl, rv, kp) := counts in
  let rid := seq_analysis_runs d + 1 in
  (Db (analysis_runs d ++
         [RunRow rid (today c) t dl rv kp pending current_token next_token
                 (current_timestamp c)])
      (email_analysis d ++ insert_emails rid (seq_email_analysis d) ps)
      (deleted_emails d)
      rid
      (seq_email_analysis d + Z.of_nat (length ps))
      (seq_deleted_emails d),
   rid).

(** [save_analysis_run(emails, analysis)]: status and tokens take the
    column defaults, ['pending'] and [NULL]. *)
Definition save_analysis_run (c : clock) (d : db) (emails : list email) (analysis : json)
  : py (db * Z) :=
  summary ← py_get analysis "summary" (JObj ∅);
  counts ← summary_params summary;
  ps ← mapM (page_email_params analysis) emails;
  Some (commit_run c d counts None None ps).

(** [save_page_analysis(emails, analysis, current_token, next_token)]. *)
Definition save_page_analysis (c : clock) (d : db) (emails : list email) (analysis : json)
    (current_token next_token : option string) : py (db * Z) :=
  summary ← py_get analysis "summary" (JObj ∅);
  counts ← summary_params summary;
  ps ← mapM (page_email_params analysis) emails;
  Some (commit_run c d counts current_token next_token ps).

(** [ORDER BY created_at DESC LIMIT 1]: the row with the greatest
    [created_at]; among equal timestamps the one met first in table order. *)
Fixpoint latest (rs : list run_row) : option run_row :=
  match rs with
  | [] => None
  | r :: rest =>
      match latest rest with
      | Some r' => if Z.ltb (created_at r) (created_at r') then Some r' else Some r
      | None => Some r
      end
  end.

Definition is_pending (r : run_row) : bool := run_status_eqb (status r) pending.

Definition emails_of_run (rid : Z) (d : db) : list email_row :=
  List.filter (fun e => Z.eqb (ea_run_id e) rid) (email_analysis d).

(** [get_pending_run()]: the most recent pending run and its email rows. *)
Definition get_pending_run (d : db) : option (run_row * list email_row) :=
  match latest (List.filter is_pending (analysis_runs d)) with
  | Some run => Some (run, emails_of_run (run_id run) d)
  | None => None
  end.

(** [get_unprocessed_emails_for_run(run_id)]. *)
Definition get_unprocessed_emails_for_run (d : db) (rid : Z) : list email_row :=
  List.filter (fun e => Z.eqb (ea_run_id e) rid && negb (bool_decide (is_Some (ea_user_decision e))))
              (email_analysis d).

(** [get_processed_emails_for_run(run_id)]. *)
Definition get_processed_emails_for_run (d : db) (rid : Z) : list email_row :=
  List.filter (fun e => Z.eqb (ea_run_id e) rid && bool_decide (is_Some (ea_user_decision e)))
              (email_analysis d).

(** [get_emails_for_reanalysis(run_id)]: the undecided rows, back in the
    shape the analyzer takes (no labels are stored). *)
Definition get_emails_for_reanalysis (d : db) (rid : Z) : list email :=
  List.map (fun r => Email (ea_email_id r) (ea_subject r) (ea_sender r) (ea_date r)
                           (ea_snippet r) (ea_is_unread r) [])
           (get_unprocessed_emails_for_run d rid).

(** [get_last_page_token()]. *)
Definition get_last_page_token (d : db) : option string :=
  match latest (List.filter (fun r => is_pending r && bool_decide (is_Some (next_page_token r)))
                            (analysis_runs d)) with
  | Some r => next_page_token r
  | None => None
  end.

(** One [UPDATE email_analysis SET user_decision = ?, processed_at =
    CURRENT_TIMESTAMP WHERE run_id = ? AND email_id = ?]. *)
Definition update_decision (now : Z) (rid : Z) (rows : list email_row)
    (item : string * string) : list email_row :=
  List.map (fun r => if (Z.eqb (ea_run_id r) rid && String.eqb (ea_email_id r) item.1)%bool
                     then set_decision item.2 now r else r) rows.

(** [update_user_decisions(run_id, decisions)]: one update per item of the
    dict. *)
Definition update_user_decisions (c : clock) (d : db) (rid : Z)
    (decisions : gmap string string) : db :=
  Db (analysis_runs d)
     (fold_left (update_decision (current_timestamp c) rid) (map_to_list decisions)
                (email_analysis d))
     (deleted_emails d) (seq_analysis_runs d) (seq_email_analysis d) (seq_deleted_emails d).

Definition update_status (s : run_status) (rid : Z) (d : db) : db :=
  Db (List.map (fun r => if Z.eqb (run_id r) rid then set_status s r else r) (analysis_runs d))
     (email_analysis d) (deleted_emails d)
     (seq_analysis_runs d) (seq_email_analysis d) (seq_deleted_emails d).

(** [mark_run_completed(run_id)]. *)
Definition mark_run_completed (d : db) (rid : Z) : db := update_status completed rid d.

(** [mark_old_run_superseded(old_run_id)]. *)
Definition mark_old_run_superseded (d : db) (old_run_id : Z) : db :=
  update_status superseded old_run_id d.

Fixpoint insert_deleted (now : Z) (seq : Z) (l : list (string * string * string))
  : list deleted_row :=
  match l with
  | [] => []
  | (eid, subj, snd) :: rest =>
      DeletedRow (seq + 1) eid subj snd now true :: insert_deleted now (seq + 1) rest
  end.

(** [log_deleted_emails(deleted_emails)], a list of (id, subject, sender). *)
Definition log_deleted_emails (c : clock) (d : db) (l : list (string * string * string)) : db :=
  Db (analysis_runs d) (email_analysis d)
     (deleted_emails d ++ insert_deleted (current_timestamp c) (seq_deleted_emails d) l)
     (seq_analysis_runs d) (seq_email_analysis d)
     (seq_deleted_emails d + Z.of_nat (length l)).

(** An element of [reanalyzed_emails]: the email fields and whichever of
    ['action'], ['category'], ['confidence'], ['reason'] the dict has. *)
Record reanalyzed_email : Type := Reanalyzed {
  re_email : email;
  re_fields : gmap string json
}.

(** [sum(1 for e in reanalyzed_emails if e.get('action') == a)]. *)
Definition count_action (a : string) (l : list reanalyzed_email) : Z :=
  Z.of_nat (length (List.filter
    (fun e => py_eq_str (default JNull (re_fields e !! "action")) a) l)).

(** [merge_reanalysis_with_new_page(reanalyzed_emails, new_analysis,
    new_emails, current_token, next_token)]. *)
Definition merge_reanalysis_with_new_page (c : clock) (d : db)
    (reanalyzed_emails : list reanalyzed_email) (new_analysis : json)
    (new_emails : list email) (current_token next_token : option string) : py (db * Z) :=
  let total_count := Z.of_nat (length reanalyzed_emails) + Z.of_nat (length new_emails) in
  new_summary ← py_get new_analysis "summary" (JObj ∅);
  nd ← py_get new_summary "recommended_deletions" (JInt 0);
  dl ← py_add_int (count_action "delete" reanalyzed_emails) nd;
  nr ← py_get new_summary "needs_review" (JInt 0);
  rv ← py_add_int (count_action "review" reanalyzed_emails) nr;
  nk ← py_get new_summary "keep" (JInt 0);
  kp ← py_add_int (count_action "keep" reanalyzed_emails) nk;
  t' ← bind (JInt total_count); dl' ← bind dl; rv' ← bind rv; kp' ← bind kp;
  reanalyzed_data ← mapM (fun e =>
      t ← recommendation (JObj (re_fields e)) "Re-analyzed after crash recovery";
      bind_params (re_email e) t) reanalyzed_emails;
  new_email_data ← mapM (page_email_params new_analysis) new_emails;
  Some (commit_run c d (t', dl', rv', kp') current_token next_token
                   (reanalyzed_data ++ new_email_data)).

(** ** The outside world *)

(** A message resource of the mail API, as far as the client reads it. *)
Record message : Type := Message {
  payload_headers : list (string * string);
  msg_snippet : option string;
  labelIds : option (list string)
}.

(** [deletion_rules] of the configuration file. *)
Record deletion_rules : Type := DeletionRules {
  protected_senders : option (list string);
  auto_delete_patterns : option (list string)
}.

(** What the analyzer sends for one email. *)
Record email_summary : Type := EmailSummary {
  es_id : string;
  es_subject : string;
  es_sender : string;
  es_snippet : string;
  es_is_unread : bool;
  es_date : string
}.

(** The variable parts of the analysis prompt. *)
Record prompt : Type := Prompt {
  prompt_protected_senders : list string;
  prompt_auto_delete_patterns : list string;
  prompt_emails : list email_summary
}.

(** Outcome of the chat completion call up to reading
    [completion.choices[0].message.content]: it raised, or there is a
    content, which may be [None]. *)
Inductive chat_outcome : Type :=
| ChatRaised
| ChatContent (content : option string).

Record world : Type := World {
  (** [messages().list(userId='me', q=query, maxResults, pageToken)]: raises,
      or gives the message ids and [nextPageToken]. *)
  messages_list : option string → Z → Z → py (list string * option string);
  (** [messages().get(id, format='full')]. *)
  messages_get : string → py message;
  (** [messages().trash(id)]: [true] when the call returns. *)
  messages_trash : string → bool;
  (** [chat.completions.create(...)]. *)
  chat_completion : prompt → chat_outcome;
  (** [json.loads]: the value, or [JSONDecodeError]. *)
  json_loads : string → py json
}.

(** ** The mail client ([GmailClient]) *)

(** [next((h['value'] for h in headers if h['name'] == name), dflt)]. *)
Fixpoint header (name dflt : string) (headers : list (string * string)) : string :=
  match headers with
  | [] => dflt
  | (n, v) :: rest => if String.eqb n name then v else header name dflt rest
  end.

(** [_get_email_details(message_id)]: [None] when the call fails. *)
Definition _get_email_details (w : world) (message_id : string) : option email :=
  match messages_get w message_id with
  | Some m =>
      let labels := default [] (labelIds m) in
      Some (Email message_id
                  (header "Subject" "No Subject" (payload_headers m))
                  (header "From" "Unknown Sender" (payload_headers m))
                  (header "Date" "" (payload_headers m))
                  (default "" (msg_snippet m))
                  (existsb (String.eqb "UNREAD") labels)
                  labels)
  | None => None
  end.

Record page_result : Type := PageResult {
  page_emails : list email;
  page_next_page_token : option string;
  page_has_more : bool
}.

(** [if page_token:] — [None] and the empty string are both false. *)
Definition token_given (page_token : option string) : option string :=
  match page_token with
  | Some t => if String.eqb t "" then None else Some t
  | None => None
  end.

(** [get_email_page(page_token, page_size, days_back)]: a failed listing is
    answered with an empty page. *)
Definition get_email_page (w : world) (page_token : option string)
    (page_size days_back : Z) : page_result :=
  match messages_list w (token_given page_token) page_size days_back with
  | Some (messages, next_page_token) =>
      PageResult (omap (_get_email_details w) messages) next_page_token
                 (bool_decide (is_Some next_page_token))
  | None => PageResult [] None false
  end.

(** [delete_emails(message_ids)]: trashes one by one, [False] at the first
    call that raises. *)
Fixpoint delete_emails (w : world) (message_ids : list string) : bool :=
  match message_ids with
  | [] => true
  | msg_id :: rest => if messages_trash w msg_id then delete_emails w rest else false
  end.

(** ** The analyzer ([GroqAnalyzer]) *)

(** The clean-up at the head of [_parse_analysis_response]: strip, then
    drop a Markdown code fence ([[7:-3]] or [[3:-3]]). *)
Definition clean_response (response_text : string) : string :=
  let text := str_strip response_text in
  if String.prefix "```json" text then str_slice 7 3 text
  else if String.prefix "```" text then str_slice 3 3 text
  else text.

(** [_parse_analysis_response(response_text)]: [None] on any failure. *)
Definition _parse_analysis_response (w : world) (response_text : option string)
  : option json :=
  match response_text with
  | None => None
  | Some text =>
      match json_loads w (clean_response text) with
      | None => None
      | Some analysis =>
          match py_contains "analysis" analysis with
          | Some true =>
              match py_contains "summary" analysis with
              | Some true => Some analysis
              | _ => None
              end
          | _ => None
          end
      end
  end.

(** The entry [_create_fallback_analysis] gives every email. *)
Definition fallback_entry : json :=
  JObj (<["action" := JStr "review"]>
       (<["category" := JStr "other"]>
       (<["confidence" := JFloat 0.5%float]>
       (<["reason" := JStr "Fallback - requires manual review"]> ∅)))).

(** [_create_fallback_analysis(emails)]. *)
Definition _create_fallback_analysis (emails : list email) : json :=
  let n := JInt (Z.of_nat (length emails)) in
  JObj (<["analysis" :=
            JObj (fold_left (fun acc e => <[em_id e := fallback_entry]> acc) emails ∅)]>
       (<["summary" :=
            JObj (<["total_emails" := n]>
                 (<["recommended_deletions" := JInt 0]>
                 (<["needs_review" := n]>
                 (<["keep" := JInt 0]> ∅))))]> ∅)).

Definition summarize (e : email) : email_summary :=
  EmailSummary (em_id e) (em_subject e) (em_sender e) (str_take 150 (em_snippet e))
               (em_is_unread e) (em_date e).

(** [_create_analysis_prompt(emails, rules)]. *)
Definition _create_analysis_prompt (emails : list email_summary) (rules : deletion_rules)
  : prompt :=
  Prompt (default [] (protected_senders rules)) (default [] (auto_delete_patterns rules))
         emails.

(** [analyze_emails(emails, deletion_rules)]: the first 30 emails go into
    the prompt; a raised call is answered with the fallback analysis, a
    response that does not parse with [None]. *)
Definition analyze_emails (w : world) (emails : list email) (rules : deletion_rules)
  : option json :=
  let email_summaries := List.map summarize (firstn 30 emails) in
  match chat_completion w (_create_analysis_prompt email_summaries rules) with
  | ChatContent response_text => _parse_analysis_response w response_text
  | ChatRaised => Some (_create_fallback_analysis emails)
  end.

(** The lists of [generate_daily_summary]; the report text is left out. *)
Record daily_summary : Type := DailySummary {
  summary_delete_emails : list (email * json);
  summary_review_emails : list (email * json);
  summary_keep_emails : list (email * json)
}.

Inductive action_class : Type := to_delete | to_review | to_keep.

(** One turn of the categorising loop of [generate_daily_summary]. *)
Definition categorize (analysis : json) (e : email)
  : py (option (action_class * (email * json))) :=
  entries ← py_getitem analysis "analysis";
  email_analysis ← py_get entries (em_id e) JNull;
  if truthy email_analysis then
    action ← py_getitem email_analysis "action";
    Some (Some (if py_eq_str action "delete" then to_delete
                else if py_eq_str action "review" then to_review
                else to_keep, (e, email_analysis)))
  else Some None.

Definition of_class (k : action_class) (l : list (option (action_class * (email * json))))
  : list (email * json) :=
  omap (fun x => match x with
                 | Some (k', p) =>
                     match k, k' with
                     | to_delete, to_delete | to_review, to_review
                     | to_keep, to_keep => Some p
                     | _, _ => None
                     end
                 | None => None
                 end) l.

(** [generate_daily_summary(emails, analysis)]: raises when the analysis
    is not shaped as the report needs it. *)
Definition generate_daily_summary (emails : list email) (analysis : json)
  : py daily_summary :=
  summary ← py_get analysis "summary" (JObj ∅);
  cats ← mapM (categorize analysis) emails;
  _ ← py_get summary "total_emails" (JInt 0);
  let dels := of_class to_delete cats in
  let revs := of_class to_review cats in
  _ ← mapM (fun p => py_getitem p.2 "reason") (firstn 10 dels);
  _ ← mapM (fun p => py_getitem p.2 "reason") (firstn 5 revs);
  Some (DailySummary dels revs (of_class to_keep cats)).

(** ** The controller ([EmailProcessor]) *)

(** The configuration file, as far as the controller reads it:
    [pagination.page_size], [gmail.days_to_analyze], [deletion_rules]. *)
Record config : Type := Config {
  pagination_page_size : option Z;
  gmail_days_to_analyze : option Z;
  config_deletion_rules : option deletion_rules
}.

(** [any(protected in email['sender'] for protected in protected_senders)]. *)
Definition sender_is_protected (protected_senders : list string) (e : email) : bool :=
  existsb (fun protected => is_substring protected (em_sender e)) protected_senders.

(** [_apply_preprocessing_filters(emails)]. *)
Definition _apply_preprocessing_filters (cfg : config) (emails : list email) : list email :=
  let protected_senders :=
    default [] (protected_senders (default (DeletionRules None None)
                                           (config_deletion_rules cfg))) in
  List.filter (fun e => negb (sender_is_protected protected_senders e)) emails.

(** The dict [run_paginated_analysis] returns on success. *)
Record page_analysis : Type := PageAnalysis {
  res_run_id : Z;
  res_emails : list email;
  res_analysis : json;
  res_summary : daily_summary;
  res_has_more_pages : bool;
  res_next_page_token : option string
}.

(** [run_paginated_analysis(page_token)]: the returned value ([None] or the
    result dict) and the store afterwards. *)
Definition run_paginated_analysis (w : world) (cfg : config) (c : clock) (d : db)
    (page_token : option string) : option page_analysis * db :=
  let page_size := default 50 (pagination_page_size cfg) in
  match gmail_days_to_analyze cfg with
  | None => (None, d)
  | Some days_back =>
  let page := get_email_page w page_token page_size days_back in
  match page_emails page with
  | [] => (None, d)
  | emails =>
  let next_token := page_next_page_token page in
  let has_more := page_has_more page in
  match _apply_preprocessing_filters cfg emails with
  | [] => (None, d)
  | filtered_emails =>
  match config_deletion_rules cfg with
  | None => (None, d)
  | Some rules =>
  match analyze_emails w filtered_emails rules with
  | None => (None, d)
  | Some analysis =>
  if negb (truthy analysis) then (None, d) else
  match save_page_analysis c d filtered_emails analysis page_token next_token with
  | None => (None, d)
  | Some (d', rid) =>
  match generate_daily_summary filtered_emails analysis with
  | None => (None, d')
  | Some summary =>
      (Some (PageAnalysis rid filtered_emails analysis summary has_more next_token), d')
  end end end end end end end.

(** [continue_from_last_page()]. *)
Definition continue_from_last_page (w : world) (cfg : config) (c : clock) (d : db)
  : option page_analysis * db :=
  match token_given (get_last_page_token d) with
  | Some last_token => run_paginated_analysis w cfg c d (Some last_token)
  | None => run_paginated_analysis w cfg c d None
  end.

(** The emails of the pending run that the decisions map to ['delete']:
    (email_id, subject, sender) of each. *)
Definition deleted_email_info (decisions : gmap string string) (emails : list email_row)
  : list (string * string * string) :=
  omap (fun email_data =>
          match decisions !! ea_email_id email_data with
          | Some user_decision =>
              if String.eqb user_decision "delete"
              then Some (ea_email_id email_data, ea_subject email_data, ea_sender email_data)
              else None
          | None => None
          end) emails.

(** A call of [GmailClient.delete_emails] as the controller sees it: the
    ids sent and the boolean reported. *)
Definition delete_call : Type := (list string * bool)%type.

(** [execute_user_decisions(run_id, decisions)]: the returned boolean, the
    store afterwards and the calls made to [delete_emails]. *)
Definition execute_user_decisions (w : world) (c : clock) (d : db) (rid : Z)
    (decisions : gmap string string) : bool * db * list delete_call :=
  match get_pending_run d with
  | None => (false, d, [])
  | Some (run, emails) =>
      if negb (Z.eqb (run_id run) rid) then (false, d, []) else
      let info := deleted_email_info decisions emails in
      let emails_to_delete := List.map (fun t => t.1.1) info in
      let record d1 :=
        mark_run_completed (update_user_decisions c d1 rid decisions) rid in
      match emails_to_delete with
      | [] => (true, record d, [])
      | _ =>
          let success := delete_emails w emails_to_delete in
          if success
          then (true, record (log_deleted_emails c d info), [(emails_to_delete, true)])
          else (false, d, [(emails_to_delete, false)])
      end
  end.

(** ** Vocabulary of the properties *)

(** The batch that [run_paginated_analysis] hands to the analyzer: the
    fetched page after the protected-sender filter. *)
Definition filtered_page (w : world) (cfg : config) (page_token : option string)
    (days_back : Z) : list email :=
  _apply_preprocessing_filters cfg
    (page_emails (get_email_page w page_token (default 50 (pagination_page_size cfg))
                                 days_back)).

(** The protected-sender list the filter reads from the configuration. *)
Definition configured_protected_senders (cfg : config) : list string :=
  default [] (protected_senders (default (DeletionRules None None)
                                         (config_deletion_rules cfg))).

(** The id of the run [get_pending_run] returns, if any. *)
Definition pending_run_id (d : db) : option Z :=
  (fun p => run_id p.1) <$> get_pending_run d.

(** The batch [execute_user_decisions] would send to [delete_emails]: the
    ids of the pending run's emails that the decisions map to ['delete']. *)
Definition emails_to_delete (d : db) (decisions : gmap string string) : list string :=
  match get_pending_run d with
  | Some (_, emails) => List.map (fun t => t.1.1) (deleted_email_info decisions emails)
  | None => []
  end.

(** The status column of the run with a given id. *)
Definition status_of (d : db) (rid : Z) : list run_status :=
  List.map status (List.filter (fun r => Z.eqb (run_id r) rid) (analysis_runs d)).

(** Row [r] records email [e] under run [rid], undecided, with the
    recommendation that [analysis] yields for it. *)
Definition row_of (analysis : json) (rid : Z) (e : email) (r : email_row) : Prop :=
  ea_run_id r = rid ∧ ea_email_id r = em_id e ∧ ea_subject r = em_subject e ∧
  ea_sender r = em_sender e ∧ ea_date r = em_date e ∧ ea_snippet r = em_snippet e ∧
  ea_is_unread r = em_is_unread e ∧
  ea_user_decision r = None ∧ ea_processed_at r = None ∧
  ∃ p, page_email_params analysis e = Some p ∧
       ea_recommended_action r = p_action p ∧ ea_category r = p_category p ∧
       ea_confidence r = p_confidence p ∧ ea_reason r = p_reason p.

(** The engine's answer is malformed: there is no content, or the cleaned
    text does not parse, or the parsed value lacks one of the two top-level
    fields (or is of a type that cannot be asked for them). *)
Definition malformed_response (w : world) (content : option string) : Prop :=
  match content with
  | None => True
  | Some text =>
      match json_loads w (clean_response text) with
      | None => True
      | Some j =>
          py_contains "analysis" j ≠ Some true ∨ py_contains "summary" j ≠ Some true
      end
  end.

(** The prompt [analyze_emails] builds for a batch. *)
Definition prompt_for (emails : list email) (rules : deletion_rules) : prompt :=
  _create_analysis_prompt (List.map summarize (firstn 30 emails)) rules.

(** What [update_user_decisions] makes of one row: a row of the run whose
    email id is a key of the dict takes the dict's decision and the current
    timestamp, any other row stays. *)
Definition decided (now : Z) (rid : Z) (decisions : gmap string string) (r : email_row)
  : email_row :=
  if Z.eqb (ea_run_id r) rid then
    match decisions !! ea_email_id r with
    | Some dec => set_decision dec now r
    | None => r
    end
  else r.

(** The writes of the store other than [update_user_decisions]. *)
Inductive other_write (d : db) : db → Prop :=
| write_save_analysis_run c emails analysis d' rid :
    save_analysis_run c d emails analysis = Some (d', rid) → other_write d d'
| write_save_page_analysis c emails analysis cur nxt d' rid :
    save_page_analysis c d emails analysis cur nxt = Some (d', rid) → other_write d d'
| write_merge c reanalyzed analysis emails cur nxt d' rid :
    merge_reanalysis_with_new_page c d reanalyzed analysis emails cur nxt = Some (d', rid) →
    other_write d d'
| write_superseded rid : other_write d (mark_old_run_superseded d rid)
| write_completed rid : other_write d (mark_run_completed d rid)
| write_log c l : other_write d (log_deleted_emails c d l).

(** A prompt that shows the engine no email of a protected sender. *)
Definition prompt_unprotected (protected : list string) (p : prompt) : Prop :=
  Forall (fun s => existsb (fun x => is_substring x (es_sender s)) protected = false)
         (prompt_emails p).

(** The parameters saved for an email under the fallback analysis. *)
Definition fallback_params (e : email) : email_params :=
  EmailParams e (SText "review") (SText "other") (SReal 0.5%float)
              (SText "Fallback - requires manual review").

(** ** Sample data *)

Definition sample_clock : clock := Clock "2024-01-02" 1000.

Definition sample_config : config :=
  Config None (Some 30) (Some (DeletionRules (Some ["boss@corp.com"]) None)).

(** A complete analysis of message [b]. *)
Definition sample_entries : gmap string json :=
  <["b" := JObj (<["action" := JStr "delete"]>
                (<["category" := JStr "newsletter"]>
                (<["confidence" := JFloat 0.75%float]>
                (<["reason" := JStr "bulk mail"]> ∅))))]> ∅.

Definition sample_analysis : json :=
  JObj (<["analysis" := JObj sample_entries]>
       (<["summary" :=
            JObj (<["total_emails" := JInt 1]>
                 (<["recommended_deletions" := JInt 1]>
                 (<["needs_review" := JInt 0]>
                 (<["keep" := JInt 0]> ∅))))]> ∅)).

(** An analysis with both top-level fields whose entry for [b] has no
    action. *)
Definition partial_analysis : json :=
  JObj (<["analysis" := JObj (<["b" := JObj (<["category" := JStr "newsletter"]> ∅)]> ∅)]>
       (<["summary" := JObj ∅]> ∅)).

(** A mailbox whose every page lists [ids] and continues at [next]; message
    [p] comes from the protected sender of [sample_config], every other
    message from a newsletter; the chat outcome and the trash behaviour are
    given; [json.loads] reads the text [ok] as [sample_analysis], the text
    [partial] as [partial_analysis], and rejects any other. *)
Definition sample_world (ids : list string) (chat : chat_outcome) (trash_ok : bool) : world :=
  World (fun _ _ _ => Some (ids, Some "next"))
        (fun id => Some (Message [("From", if String.eqb id "p"
                                           then "The Boss <boss@corp.com>"
                                           else "news@list.org");
                                  ("Subject", "Weekly")]
                                 (Some "hello") (Some ["UNREAD"])))
        (fun _ => trash_ok)
        (fun _ => chat)
        (fun s => if String.eqb s "ok" then Some sample_analysis
                  else if String.eqb s "partial" then Some partial_analysis
                  else None).

(** Run 1 is pending with next-page token [abc] and one undecided email. *)
Definition one_pending_run : db :=
  Db [RunRow 1 "2024-01-01" (SInt 1) (SInt 1) (SInt 0) (SInt 0) pending None (Some "abc") 900]
     [EmailRow 1 1 "a" "Sale" "shop@example.com" "Mon" "50% off" true
               (SText "delete") (SText "promotional") (SReal 0.75%float) (SText "advert")
               None None]
     [] 1 1 0.

(** Run 1 is pending with two emails, the first already decided. *)
Definition half_decided_run : db :=
  Db [RunRow 1 "2024-01-01" (SInt 2) (SInt 1) (SInt 1) (SInt 0) pending None None 900]
     [EmailRow 1 1 "a" "Sale" "shop@example.com" "Mon" "50% off" true
               (SText "delete") (SText "promotional") (SReal 0.75%float) (SText "advert")
               (Some "delete") (Some 950);
      EmailRow 2 1 "b" "Hi" "friend@example.com" "Tue" "lunch?" false
               (SText "keep") (SText "personal") (SReal 0.25%float) (SText "personal mail")
               None None]
     [] 1 2 0.

(** Run 1 is pending with two undecided emails. *)
Definition two_undecided : db :=
  Db [RunRow 1 "2024-01-01" (SInt 2) (SInt 1) (SInt 1) (SInt 0) pending None None 900]
     [EmailRow 1 1 "a" "Sale" "shop@example.com" "Mon" "50% off" true
               (SText "delete") (SText "promotional") (SReal 0.75%float) (SText "advert")
               None None;
      EmailRow 2 1 "b" "Hi" "friend@example.com" "Tue" "lunch?" false
               (SText "keep") (SText "personal") (SReal 0.25%float) (SText "personal mail")
               None None]
     [] 1 2 0.

(** ** More of the store: progress and statistics

    The rounded percentages of these reports ([round(x, 1)] of a float) are
    left out of the records; every other field is there. *)

(** [SELECT COUNT( * ) FROM email_analysis WHERE ...]. *)
Definition count_rows (P : email_row → bool) (d : db) : Z :=
  Z.of_nat (length (List.filter P (email_analysis d))).

Definition has_decision (e : email_row) : bool := bool_decide (is_Some (ea_user_decision e)).

Definition decision_is (dec : string) (e : email_row) : bool :=
  match ea_user_decision e with
  | Some x => String.eqb x dec
  | None => false
  end.

(** The dict of [get_run_progress]. *)
Record run_progress : Type := RunProgress {
  rp_run_id : Z;
  rp_status : run_status;
  rp_total_emails : Z;
  rp_processed_count : Z;
  rp_remaining_count : Z;
  rp_delete_decisions : Z;
  rp_keep_decisions : Z;
  rp_is_complete : bool
}.

(** [get_run_progress(run_id)]: [None] when no run has this id. *)
Definition get_run_progress (d : db) (rid : Z) : option run_progress :=
  match List.find (fun r => Z.eqb (run_id r) rid) (analysis_runs d) with
  | None => None
  | Some run =>
      let total_emails := count_rows (fun e => Z.eqb (ea_run_id e) rid) d in
      let processed_count :=
        count_rows (fun e => Z.eqb (ea_run_id e) rid && has_decision e) d in
      let delete_decisions :=
        count_rows (fun e => Z.eqb (ea_run_id e) rid && decision_is "delete" e) d in
      let keep_decisions :=
        count_rows (fun e => Z.eqb (ea_run_id e) rid && decision_is "keep" e) d in
      Some (RunProgress rid (status run) total_emails processed_count
                        (total_emails - processed_count) delete_decisions keep_decisions
                        (Z.eqb processed_count total_emails))
  end.

(** The dict of [get_incomplete_run_info]. *)
Record incomplete_run_info : Type := IncompleteRunInfo {
  ir_run_id : Z;
  ir_run : run_row;
  ir_unprocessed_emails : list email_row;
  ir_current_page_token : option string;
  ir_next_page_token : option string;
  ir_total_emails_in_run : Z;
  ir_processed_count : Z;
  ir_remaining_count : Z;
  ir_needs_reanalysis : bool
}.

(** [get_incomplete_run_info()]: about the most recent pending run. *)
Definition get_incomplete_run_info (d : db) : option incomplete_run_info :=
  match latest (List.filter is_pending (analysis_runs d)) with
  | Some run =>
      let rid := run_id run in
      let unprocessed := get_unprocessed_emails_for_run d rid in
      Some (IncompleteRunInfo rid run unprocessed (current_page_token run)
              (next_page_token run)
              (count_rows (fun e => Z.eqb (ea_run_id e) rid) d)
              (count_rows (fun e => Z.eqb (ea_run_id e) rid && has_decision e) d)
              (Z.of_nat (length unprocessed))
              (Z.ltb 0 (Z.of_nat (length unprocessed))))
  | None => None
  end.

(** The dict of [get_pagination_stats]. *)
Record pagination_stats : Type := PaginationStats {
  ps_total_pages : Z;
  ps_completed_pages : Z;
  ps_pending_pages : Z;
  ps_total_emails_all_runs : Z;
  ps_total_processed_emails : Z;
  ps_emails_pending_review : Z
}.

(** [get_pagination_stats()]. *)
Definition get_pagination_stats (d : db) : pagination_stats :=
  let count_status s :=
    Z.of_nat (length (List.filter (fun r => run_status_eqb (status r) s) (analysis_runs d))) in
  let total_emails_all_runs := count_rows (fun _ => true) d in
  let total_processed_emails := count_rows has_decision d in
  PaginationStats (Z.of_nat (length (analysis_runs d))) (count_status completed)
                  (count_status pending) total_emails_all_runs total_processed_emails
                  (total_emails_all_runs - total_processed_emails).

(** ** More of the mail client *)

(** [get_emails(max_results, days_back)]: the inbox listing without a page
    token; an empty list when the listing fails. *)
Definition get_emails (w : world) (max_results days_back : Z) : list email :=
  match messages_list w None max_results days_back with
  | Some (messages, _) => omap (_get_email_details w) messages
  | None => []
  end.

(** ** More of the controller *)

(** The dict of [get_pagination_status]. *)
Record pagination_status : Type := PaginationStatus {
  pst_stats : pagination_stats;
  pst_can_continue : bool;
  pst_last_token : option string
}.

(** [get_pagination_status()]: [can_continue] is [last_token is not None]. *)
Definition get_pagination_status (d : db) : pagination_status :=
  let last_token := get_last_page_token d in
  PaginationStatus (get_pagination_stats d) (bool_decide (is_Some last_token)) last_token.

(** [get_pending_review()]. *)
Definition get_pending_review (d : db) : option (run_row * list email_row) :=
  get_pending_run d.

(** ** The web surface ([web_app.py]), as far as it drives the controller *)

(** The route [/analyze] ([start_analysis]): the controller's result and the
    store afterwards. *)
Definition start_analysis (w : world) (cfg : config) (c : clock) (d : db)
  : option page_analysis * db :=
  if pst_can_continue (get_pagination_status d)
  then continue_from_last_page w cfg c d
  else run_paginated_analysis w cfg c d None.

(** The decisions dict that [execute_deletions] builds: delete the selected
    emails of the pending run, keep the rest. *)
Definition selected_decisions (selected_emails : list string) (emails : list email_row)
  : gmap string string :=
  fold_left (fun decisions email_data =>
               <[ea_email_id email_data :=
                   if bool_decide (ea_email_id email_data ∈ selected_emails)
                   then "delete" else "keep"]> decisions)
            emails ∅.

(** What the route [/delete/<run_id>] answers. *)
Inductive deletion_response : Type :=
| no_emails_selected
| run_not_found
| successfully_deleted (n : nat)
| failed_to_delete.

(** The route [/delete/<run_id>] ([execute_deletions]) on the ids ticked in
    the form: the answer, the store afterwards and the mailbox calls. *)
Definition execute_deletions (w : world) (c : clock) (d : db) (rid : Z)
    (selected_emails : list string) : deletion_response * db * list delete_call :=
  match selected_emails with
  | [] => (no_emails_selected, d, [])
  | _ =>
      match get_pending_review d with
      | None => (run_not_found, d, [])
      | Some (run, emails) =>
          if negb (Z.eqb (run_id run) rid) then (run_not_found, d, []) else
          let decisions := selected_decisions selected_emails emails in
          match execute_user_decisions w c d rid decisions with
          | (true, d', calls) => (successfully_deleted (length selected_emails), d', calls)
          | (false, d', calls) => (failed_to_delete, d', calls)
          end
      end
  end.

(** ** More vocabulary *)

(** The ids the store has issued are in use at most once and below the
    counters, and every email row belongs to a stored run. *)
Record store_ok (d : db) : Prop := StoreOk {
  ok_counters : 0 <= seq_analysis_runs d ∧ 0 <= seq_email_analysis d ∧
                0 <= seq_deleted_emails d;
  ok_run_ids : Forall (fun r => 0 < run_id r <= seq_analysis_runs d) (analysis_runs d);
  ok_run_ids_unique : NoDup (run_id <$> analysis_runs d);
  ok_email_ids : Forall (fun e => 0 < ea_id e <= seq_email_analysis d) (email_analysis d);
  ok_email_ids_unique : NoDup (ea_id <$> email_analysis d);
  ok_email_runs : Forall (fun e => ea_run_id e ∈ run_id <$> analysis_runs d) (email_analysis d);
  ok_deleted_ids : Forall (fun x => 0 < del_id x <= seq_deleted_emails d) (deleted_emails d);
  ok_deleted_ids_unique : NoDup (del_id <$> deleted_emails d)
}.

(** Any write of the store. *)
Inductive store_write (d : db) : db → Prop :=
| write_other d' : other_write d d' → store_write d d'
| write_update c rid decisions : store_write d (update_user_decisions c d rid decisions).

(** The email a stored row gives back for re-analysis. *)
Definition email_of_row (r : email_row) : email :=
  Email (ea_email_id r) (ea_subject r) (ea_sender r) (ea_date r) (ea_snippet r)
        (ea_is_unread r) [].

(** An email as the store can hold it: without its labels. *)
Definition without_labels (e : email) : email :=
  Email (em_id e) (em_subject e) (em_sender e) (em_date e) (em_snippet e)
        (em_is_unread e) [].

(** A [json.loads] that reads every text as the list [["analysis",
    "summary"]], in the mailbox of [sample_world]. *)
Definition list_answer_world : world :=
  World (fun _ _ _ => Some (["b"], None))
        (fun _ => Some (Message [("From", "news@list.org")] None None))
        (fun _ => true)
        (fun _ => ChatContent (Some "[]"))
        (fun _ => Some (JArr [JStr "analysis"; JStr "summary"])).

(** The entry that the analysis holds for an email ([None] of Python as
    [JNull] when there is none); raises when the analysis has no map. *)
Definition entry_of (analysis : json) (e : email) : py json :=
  entries ← py_getitem analysis "analysis";
  py_get entries (em_id e) JNull.

(** * Properties *)

(** ** The store *)

Lemma insert_emails_length rid seq ps :
  length (insert_emails rid seq ps) = length ps.
Proof. revert seq; induction ps as [|p ps IH]; intros seq; simpl; [done|]. by rewrite IH. Qed.

Lemma bind_params_email e t p : bind_params e t = Some p → p_email p = e.
Proof.
  destruct t as [[[a c0] f] r]. unfold bind_params.
  intros H. simplify_option_eq. done.
Qed.

Lemma page_email_params_email analysis e p :
  page_email_params analysis e = Some p → p_email p = e.
Proof.
  unfold page_email_params. intros H. simplify_option_eq.
  eauto using bind_params_email.
Qed.

(** What a successful [save_page_analysis] leaves behind. *)
Lemma save_page_analysis_inv c d emails analysis cur nxt d' rid :
  save_page_analysis c d emails analysis cur nxt = Some (d', rid) →
  ∃ counts ps,
    mapM (page_email_params analysis) emails = Some ps ∧
    (d', rid) = commit_run c d counts cur nxt ps.
Proof.
  unfold save_page_analysis. intros H. simplify_option_eq. eauto.
Qed.

Lemma save_analysis_run_inv c d emails analysis d' rid :
  save_analysis_run c d emails analysis = Some (d', rid) →
  ∃ counts ps,
    mapM (page_email_params analysis) emails = Some ps ∧
    (d', rid) = commit_run c d counts None None ps.
Proof.
  unfold save_analysis_run. intros H. simplify_option_eq. eauto.
Qed.

Lemma commit_run_inv c d counts cur nxt ps d' rid :
  (d', rid) = commit_run c d counts cur nxt ps →
  rid = seq_analysis_runs d + 1 ∧
  (∃ run, analysis_runs d' = analysis_runs d ++ [run] ∧ run_id run = rid ∧
          status run = pending ∧ current_page_token run = cur ∧
          next_page_token run = nxt ∧ created_at run = current_timestamp c) ∧
  email_analysis d' = email_analysis d ++ insert_emails rid (seq_email_analysis d) ps ∧
  deleted_emails d' = deleted_emails d.
Proof.
  destruct counts as [[[t dl] rv] kp]. unfold commit_run. intros [= -> ->].
  simpl. split; [done|]. split; [|done]. eexists. split; [done|]. done.
Qed.

Lemma insert_emails_row_of analysis rid seq emails ps :
  mapM (page_email_params analysis) emails = Some ps →
  Forall2 (row_of analysis rid) emails (insert_emails rid seq ps).
Proof.
  rewrite mapM_Some. intros H. revert seq.
  induction H as [|e p emails ps Hp _ IH]; intros seq; simpl; constructor; [|apply IH].
  pose proof (page_email_params_email _ _ _ Hp) as ->.
  unfold row_of; simpl. repeat (split; [done|]). exists p. done.
Qed.

(** A saved page is one new pending run carrying the two tokens, and one
    new undecided row per email, in order; nothing else changes. *)
Lemma save_page_analysis_spec c d emails analysis cur nxt d' rid :
  save_page_analysis c d emails analysis cur nxt = Some (d', rid) →
  ∃ run rows,
    analysis_runs d' = analysis_runs d ++ [run] ∧
    run_id run = rid ∧ status run = pending ∧
    current_page_token run = cur ∧ next_page_token run = nxt ∧
    email_analysis d' = email_analysis d ++ rows ∧
    Forall2 (row_of analysis rid) emails rows ∧
    deleted_emails d' = deleted_emails d.
Proof.
  intros (counts & ps & HmapM & Hc)%save_page_analysis_inv.
  apply commit_run_inv in Hc as (_ & (run & Hruns & Hid & Hst & Hcur & Hnxt & _) & Hrows & Hdel).
  exists run, (insert_emails rid (seq_email_analysis d) ps).
  repeat (split; [done|]). split; [|done]. by apply insert_emails_row_of.
Qed.

Lemma save_analysis_run_spec c d emails analysis d' rid :
  save_analysis_run c d emails analysis = Some (d', rid) →
  ∃ run rows,
    analysis_runs d' = analysis_runs d ++ [run] ∧
    run_id run = rid ∧ status run = pending ∧
    current_page_token run = None ∧ next_page_token run = None ∧
    email_analysis d' = email_analysis d ++ rows ∧
    Forall2 (row_of analysis rid) emails rows ∧
    deleted_emails d' = deleted_emails d.
Proof.
  intros (counts & ps & HmapM & Hc)%save_analysis_run_inv.
  apply commit_run_inv in Hc as (_ & (run & Hruns & Hid & Hst & Hcur & Hnxt & _) & Hrows & Hdel).
  exists run, (insert_emails rid (seq_email_analysis d) ps).
  repeat (split; [done|]). split; [|done]. by apply insert_emails_row_of.
Qed.

(** ** The controller *)

(** Every way out of [run_paginated_analysis]: nothing was written and
    [None] is returned, or the filtered page was analysed and saved as one
    new run. *)
Lemma run_paginated_analysis_inv w cfg c d tok r d' :
  run_paginated_analysis w cfg c d tok = (r, d') →
  (r = None ∧ d' = d) ∨
  ∃ days rules analysis rid,
    gmail_days_to_analyze cfg = Some days ∧
    config_deletion_rules cfg = Some rules ∧
    filtered_page w cfg tok days ≠ [] ∧
    analyze_emails w (filtered_page w cfg tok days) rules = Some analysis ∧
    save_page_analysis c d (filtered_page w cfg tok days) analysis tok
      (page_next_page_token
         (get_email_page w tok (default 50 (pagination_page_size cfg)) days))
      = Some (d', rid) ∧
    (∀ res, r = Some res →
            res_run_id res = rid ∧ res_emails res = filtered_page w cfg tok days ∧
            res_analysis res = analysis).
Proof.
  unfold run_paginated_analysis, filtered_page.
  destruct (gmail_days_to_analyze cfg) as [days|]; [|intros [= <- <-]; by left].
  destruct (page_emails _) as [|e0 es] eqn:Hpage; [intros [= <- <-]; by left|].
  destruct (_apply_preprocessing_filters cfg (e0 :: es)) as [|f0 fs] eqn:Hfilt;
    [intros [= <- <-]; by left|].
  destruct (config_deletion_rules cfg) as [rules|]; [|intros [= <- <-]; by left].
  destruct (analyze_emails w (f0 :: fs) rules) as [analysis|] eqn:Han;
    [|intros [= <- <-]; by left].
  destruct (truthy analysis); simpl; [|intros [= <- <-]; by left].
  destruct (save_page_analysis _ _ _ _ _ _) as [[d1 rid]|] eqn:Hsave;
    [|intros [= <- <-]; by left].
  intros Hres. right. exists days, rules, analysis, rid.
  rewrite Hpage, Hfilt.
  split; [done|]. split; [done|]. split; [done|]. split; [done|].
  destruct (generate_daily_summary _ _); injection Hres as <- <-; (split; [done|]).
  - by intros res [= <-].
  - by intros res [=].
Qed.

(** When the analyzer returns [None] for the filtered page, nothing is
    saved. *)
Lemma run_paginated_analysis_no_analysis w cfg c d tok days rules :
  gmail_days_to_analyze cfg = Some days →
  config_deletion_rules cfg = Some rules →
  analyze_emails w (filtered_page w cfg tok days) rules = None →
  run_paginated_analysis w cfg c d tok = (None, d).
Proof.
  intros Hdays Hrules Han.
  destruct (run_paginated_analysis w cfg c d tok) as [r d'] eqn:Hrun.
  apply run_paginated_analysis_inv in Hrun
    as [[-> ->]|(days' & rules' & a & rid & Hd & Hr & _ & Ha & _)]; [done|].
  congruence.
Qed.

(** When the filter leaves nothing of the page (an empty page included),
    nothing is saved. *)
Lemma run_paginated_analysis_nothing_left w cfg c d tok :
  (∀ days, gmail_days_to_analyze cfg = Some days → filtered_page w cfg tok days = []) →
  run_paginated_analysis w cfg c d tok = (None, d).
Proof.
  intros Hempty.
  destruct (run_paginated_analysis w cfg c d tok) as [r d'] eqn:Hrun.
  apply run_paginated_analysis_inv in Hrun
    as [[-> ->]|(days & rules & a & rid & Hd & _ & Hne & _)]; [done|].
  by rewrite (Hempty _ Hd) in Hne.
Qed.

(** ** Resuming after an incomplete run *)

Lemma latest_None rs : latest rs = None → rs = [].
Proof.
  destruct rs as [|x rs]; simpl; [done|].
  destruct (latest rs); [destruct (Z.ltb _ _)|]; done.
Qed.

Lemma latest_In rs r : latest rs = Some r → r ∈ rs.
Proof.
  revert r; induction rs as [|x rs IH]; intros r; simpl; [done|].
  destruct (latest rs) as [r'|].
  - destruct (Z.ltb _ _); intros [= <-]; [right; by apply IH | left].
  - intros [= <-]. left.
Qed.

Lemma latest_max rs r y :
  latest rs = Some r → y ∈ rs → created_at y <= created_at r.
Proof.
  revert r; induction rs as [|x rs IH]; intros r; simpl; [done|].
  intros Hl Hy. destruct (latest rs) as [r'|] eqn:Hr'.
  - destruct (Z.ltb_spec (created_at x) (created_at r')); injection Hl as <-;
      apply elem_of_cons in Hy as [->|Hy]; try lia; specialize (IH _ eq_refl Hy); lia.
  - injection Hl as <-. apply latest_None in Hr' as ->.
    apply elem_of_cons in Hy as [->|Hy]; [lia|]. by apply elem_of_nil in Hy.
Qed.

(** The latest row keeps its rank in any selection that retains it. *)
Lemma latest_filter (P : run_row → bool) rs r :
  latest rs = Some r → P r = true → latest (List.filter P rs) = Some r.
Proof.
  revert r; induction rs as [|x rs IH]; intros r; simpl; [done|].
  destruct (latest rs) as [r'|] eqn:Hr'.
  - destruct (Z.ltb_spec (created_at x) (created_at r')); intros [= <-] HP.
    + specialize (IH _ eq_refl HP). destruct (P x); simpl; rewrite IH; [|done].
      by destruct (Z.ltb_spec (created_at x) (created_at r')); [|lia].
    + rewrite HP. simpl.
      destruct (latest (List.filter P rs)) as [r''|] eqn:Hr''; [|done].
      apply latest_In in Hr''. apply list_elem_of_In, filter_In in Hr'' as [Hin _].
      apply list_elem_of_In in Hin. pose proof (latest_max _ _ _ Hr' Hin).
      by destruct (Z.ltb_spec (created_at x) (created_at r'')); [lia|].
  - intros [= <-] HP. apply latest_None in Hr' as ->.
    simpl. by rewrite HP.
Qed.

Lemma filter_filter_andb {A} (P Q : A → bool) l :
  List.filter (fun x => P x && Q x) l = List.filter Q (List.filter P l).
Proof.
  induction l as [|x l IH]; simpl; [done|].
  destruct (P x); simpl; [destruct (Q x)|]; by rewrite ?IH.
Qed.

Lemma get_pending_run_inv d run rows :
  get_pending_run d = Some (run, rows) →
  latest (List.filter is_pending (analysis_runs d)) = Some run ∧
  run ∈ analysis_runs d ∧ status run = pending ∧ rows = emails_of_run (run_id run) d.
Proof.
  unfold get_pending_run. destruct (latest _) as [r|] eqn:Hl; [|done].
  intros [= -> <-]. split; [done|].
  apply latest_In, list_elem_of_In, filter_In in Hl as [Hin Hp].
  split; [by apply list_elem_of_In|]. split; [|done].
  unfold is_pending in Hp. by destruct (status run).
Qed.

(** When the most recent pending run stores a next-page token, that token
    is the resume point. *)
Lemma get_last_page_token_pending d run rows T :
  get_pending_run d = Some (run, rows) →
  next_page_token run = Some T →
  get_last_page_token d = Some T.
Proof.
  intros [Hl _]%get_pending_run_inv HT. unfold get_last_page_token.
  rewrite filter_filter_andb.
  rewrite (latest_filter _ _ _ Hl); [done|]. by rewrite HT.
Qed.

Lemma Forall2_row_of_ids analysis rid emails rows :
  Forall2 (row_of analysis rid) emails rows →
  ea_email_id <$> rows = em_id <$> emails.
Proof.
  induction 1 as [|e r emails rows Hr _ IH]; csimpl; [done|].
  rewrite IH. by destruct Hr as (_ & -> & _).
Qed.

(** C1 (as the code has it).  Take a store whose most recent pending run
    still has undecided emails, and either entry of "process next page":
    [run_paginated_analysis] at the token [tok] it is given, or
    [continue_from_last_page], which is [run_paginated_analysis] at the
    token [get_last_page_token] answers (none when that is empty), and that
    is the run's own next-page token whenever it stores a non-empty one.
    The operation never merges and never supersedes: whatever the outcome,
    the old run is still there and pending, and the runs, rows and deletion
    log already stored stay as they are.  Either nothing is written and
    [None] is returned, or exactly one run is appended: it is pending,
    carries [tok], and its rows are one undecided row per email of the
    filtered page fetched at [tok], in order, under the engine's answer for
    that filtered page alone; the new rows carry the email ids of the
    filtered page and no others, and a returned result names that run, those
    emails and that answer. *)
Theorem continue_from_last_page_saves_new_page_only
    w cfg c d run rows tok r d' :
  get_pending_run d = Some (run, rows) →
  get_unprocessed_emails_for_run d (run_id run) ≠ [] →
  run_paginated_analysis w cfg c d tok = (r, d') ∨
  (tok = token_given (get_last_page_token d) ∧
   continue_from_last_page w cfg c d = (r, d')) →
  continue_from_last_page w cfg c d
  = run_paginated_analysis w cfg c d (token_given (get_last_page_token d)) ∧
  (∀ T, next_page_token run = Some T → T ≠ "" →
        token_given (get_last_page_token d) = Some T) ∧
  run ∈ analysis_runs d' ∧ status run = pending ∧
  deleted_emails d' = deleted_emails d ∧
  ((r = None ∧ d' = d) ∨
   ∃ days rules analysis new_run new_rows,
     gmail_days_to_analyze cfg = Some days ∧
     config_deletion_rules cfg = Some rules ∧
     analyze_emails w (filtered_page w cfg tok days) rules = Some analysis ∧
     analysis_runs d' = analysis_runs d ++ [new_run] ∧
     status new_run = pending ∧ current_page_token new_run = tok ∧
     email_analysis d' = email_analysis d ++ new_rows ∧
     Forall2 (row_of analysis (run_id new_run)) (filtered_page w cfg tok days) new_rows ∧
     ea_email_id <$> new_rows = em_id <$> filtered_page w cfg tok days ∧
     length new_rows = length (filtered_page w cfg tok days) ∧
     (∀ res, r = Some res →
        res_run_id res = run_id new_run ∧
        res_emails res = filtered_page w cfg tok days ∧
        res_analysis res = analysis)).
Proof.
  intros Hpend _ Hop.
  assert (continue_from_last_page w cfg c d
          = run_paginated_analysis w cfg c d (token_given (get_last_page_token d)))
    as Hcont.
  { unfold continue_from_last_page. by destruct (token_given _). }
  split; [exact Hcont|]. split.
  { intros T HT Hne. rewrite (get_last_page_token_pending _ _ _ _ Hpend HT). simpl.
    by destruct (String.eqb_spec T ""). }
  assert (run_paginated_analysis w cfg c d tok = (r, d')) as Hrun.
  { destruct Hop as [H|[Htok H]]; [exact H|]. rewrite Htok. by rewrite <- Hcont. }
  clear Hop Hcont.
  destruct (get_pending_run_inv _ _ _ Hpend) as (_ & Hin & Hst & _).
  apply run_paginated_analysis_inv in Hrun
    as [[-> ->]|(days & rules & a & rid & Hd & Hr & _ & Ha & Hsave & Hres)].
  - split; [exact Hin|]. split; [exact Hst|]. split; [reflexivity|]. by left.
  - apply save_page_analysis_spec in Hsave
      as (nr & nrows & Hruns & Hid & Hnst & Hcur & _ & Hrows & Hrel & Hdel).
    split; [rewrite Hruns, elem_of_app; by left|].
    split; [exact Hst|]. split; [exact Hdel|].
    right. exists days, rules, a, nr, nrows. rewrite Hid.
    split; [exact Hd|]. split; [exact Hr|]. split; [exact Ha|].
    split; [exact Hruns|]. split; [exact Hnst|]. split; [exact Hcur|].
    split; [exact Hrows|]. split; [exact Hrel|].
    split; [exact (Forall2_row_of_ids _ _ _ _ Hrel)|].
    split; [symmetry; exact (Forall2_length _ _ _ Hrel)|].
    exact Hres.
Qed.

(** C1 counterexample.  Run 1 is pending with one undecided email and
    next-page token [abc]; the page at [abc] holds one email and its
    classification succeeds.  The new run holds 1 row, not 1 + 1, and run 1
    is still pending. *)
Lemma continue_from_last_page_no_merge :
  let w := sample_world ["b"] (ChatContent (Some "ok")) true in
  let d := one_pending_run in
  ∃ res d',
    continue_from_last_page w sample_config sample_clock d = (Some res, d') ∧
    get_last_page_token d = Some "abc" ∧
    length (get_unprocessed_emails_for_run d 1) = 1%nat ∧
    length (page_emails (get_email_page w (Some "abc") 50 30)) = 1%nat ∧
    length (emails_of_run (res_run_id res) d')
      ≠ (length (get_unprocessed_emails_for_run d 1)
         + length (page_emails (get_email_page w (Some "abc") 50 30)))%nat ∧
    status_of d' 1 = [pending] ∧
    status_of d' 1 ≠ [superseded].
Proof.
  simpl. eexists _, _. split; [vm_compute; reflexivity|].
  vm_compute. repeat split; congruence.
Qed.

(** The page fetched at the stored token may list an email of the old run
    again: it is then stored a second time, under the new run. *)
Lemma continue_from_last_page_may_store_again :
  let w := sample_world ["a"] (ChatContent (Some "ok")) true in
  ∃ res d',
    continue_from_last_page w sample_config sample_clock one_pending_run = (Some res, d') ∧
    (fun r => (ea_run_id r, ea_email_id r)) <$> email_analysis d' = [(1, "a"); (2, "a")].
Proof.
  simpl. eexists _, _. split; vm_compute; reflexivity.
Qed.

Lemma continue_from_last_page_saves_new_page_only_witness :
  let w := sample_world ["b"] (ChatContent (Some "ok")) true in
  let d := one_pending_run in
  let run := RunRow 1 "2024-01-01" (SInt 1) (SInt 1) (SInt 0) (SInt 0) pending None
                    (Some "abc") 900 in
  let tok := token_given (get_last_page_token d) in
  let out := continue_from_last_page w sample_config sample_clock d in
  tok = Some "abc" ∧
  length (analysis_runs out.2) = 2%nat ∧
  run ∈ analysis_runs out.2 ∧
  deleted_emails out.2 = deleted_emails d ∧
  ((out.1 = None ∧ out.2 = d) ∨
   ∃ days rules analysis new_run new_rows,
     gmail_days_to_analyze sample_config = Some days ∧
     config_deletion_rules sample_config = Some rules ∧
     analyze_emails w (filtered_page w sample_config tok days) rules = Some analysis ∧
     analysis_runs out.2 = analysis_runs d ++ [new_run] ∧
     status new_run = pending ∧ current_page_token new_run = tok ∧
     email_analysis out.2 = email_analysis d ++ new_rows ∧
     Forall2 (row_of analysis (run_id new_run))
             (filtered_page w sample_config tok days) new_rows ∧
     ea_email_id <$> new_rows = em_id <$> filtered_page w sample_config tok days ∧
     length new_rows = length (filtered_page w sample_config tok days) ∧
     (∀ res, out.1 = Some res →
        res_run_id res = run_id new_run ∧
        res_emails res = filtered_page w sample_config tok days ∧
        res_analysis res = analysis)).
Proof.
  intros w d run tok out.
  split; [vm_compute; reflexivity|].
  split; [vm_compute; reflexivity|].
  assert (get_pending_run d = Some (run, email_analysis d)) as Hpend
    by (vm_compute; reflexivity).
  assert (get_unprocessed_emails_for_run d (run_id run) ≠ []) as Hun
    by (vm_compute; discriminate).
  assert (continue_from_last_page w sample_config sample_clock d = (out.1, out.2)) as Hout
    by (vm_compute; reflexivity).
  destruct (continue_from_last_page_saves_new_page_only w sample_config sample_clock d run
              (email_analysis d) tok out.1 out.2 Hpend Hun (or_intror (conj eq_refl Hout)))
    as (_ & _ & Hin & _ & Hdel & Hnew).
  split; [exact Hin|]. split; [exact Hdel|]. exact Hnew.
Defined.

(** ** Classification failures *)

Lemma parse_malformed w content :
  malformed_response w content ↔ _parse_analysis_response w content = None.
Proof.
  unfold malformed_response, _parse_analysis_response.
  destruct content as [text|]; [|done].
  destruct (json_loads w (clean_response text)) as [j|]; [|done].
  destruct (py_contains "analysis" j) as [[]|]; try (split; [auto|intros _; left]; done).
  destruct (py_contains "summary" j) as [[]|]; try (split; [auto|intros _; right]; done).
  split; [intros [?|?]|]; done.
Qed.

Lemma analyze_emails_malformed w emails rules content :
  chat_completion w (prompt_for emails rules) = ChatContent content →
  malformed_response w content →
  analyze_emails w emails rules = None.
Proof.
  unfold analyze_emails, prompt_for. intros -> Hm. by apply parse_malformed.
Qed.

Lemma analyze_emails_raised w emails rules :
  chat_completion w (prompt_for emails rules) = ChatRaised →
  analyze_emails w emails rules = Some (_create_fallback_analysis emails).
Proof. unfold analyze_emails, prompt_for. by intros ->. Qed.

(** C2 (as the code has it).  When the engine answers the batch with a
    malformed response (no content, unparseable text, or a value without
    the top-level fields [analysis] and [summary]), [run_paginated_analysis]
    returns [None] and the store is exactly what it was: no run row, no
    email row, the same resume token, so the next invocation fetches the
    same page again. *)
Theorem malformed_response_aborts_without_persisting
    w cfg c d tok days rules content :
  gmail_days_to_analyze cfg = Some days →
  config_deletion_rules cfg = Some rules →
  chat_completion w (prompt_for (filtered_page w cfg tok days) rules) = ChatContent content →
  malformed_response w content →
  run_paginated_analysis w cfg c d tok = (None, d) ∧
  (∀ c', continue_from_last_page w cfg c' (run_paginated_analysis w cfg c d tok).2
         = continue_from_last_page w cfg c' d).
Proof.
  intros Hd Hr Hchat Hm.
  rewrite (run_paginated_analysis_no_analysis w cfg c d tok days rules Hd Hr
             (analyze_emails_malformed _ _ _ _ Hchat Hm)).
  done.
Qed.

Lemma malformed_response_aborts_without_persisting_witness :
  let w := sample_world ["b"] (ChatContent (Some "```json{oops}```")) true in
  run_paginated_analysis w sample_config sample_clock one_pending_run (Some "abc")
  = (None, one_pending_run).
Proof.
  intros w.
  refine (proj1 (malformed_response_aborts_without_persisting w sample_config sample_clock
            one_pending_run (Some "abc") 30 (DeletionRules (Some ["boss@corp.com"]) None)
            (Some "```json{oops}```") _ _ _ _)).
  - reflexivity.
  - reflexivity.
  - reflexivity.
  - vm_compute. exact I.
Defined.

(** C2 counterexample.  The engine call fails (it raises): the operation
    does not abort; a run and an email row are persisted and the resume
    token moves on. *)
Lemma failed_engine_call_is_persisted :
  let w := sample_world ["b"] ChatRaised true in
  ∃ res d',
    run_paginated_analysis w sample_config sample_clock empty_db None = (Some res, d') ∧
    length (analysis_runs d') = 1%nat ∧
    length (email_analysis d') = 1%nat ∧
    get_last_page_token empty_db = None ∧
    get_last_page_token d' = Some "next".
Proof.
  simpl. eexists _, _. split; [vm_compute; reflexivity|].
  vm_compute. repeat split; congruence.
Qed.

(** A returned [None] does not always mean that nothing was saved: the
    report is generated after the commit, and an entry without an action
    makes it raise.  The page is then stored (with the default action) and
    reported as failed. *)
Lemma saved_then_reported_failed :
  ∃ d',
    run_paginated_analysis (sample_world ["b"] (ChatContent (Some "partial")) true)
                           sample_config sample_clock empty_db None = (None, d') ∧
    status <$> analysis_runs d' = [pending] ∧
    ea_recommended_action <$> email_analysis d' = [SText "review"].
Proof. eexists. split; [vm_compute; reflexivity|]. by vm_compute. Qed.

(** ** The fallback analysis *)

Lemma fallback_entries_lookup (emails : list email) (acc : gmap string json) (e : email) :
  e ∈ emails ∨ acc !! em_id e = Some fallback_entry →
  fold_left (fun acc e => <[em_id e := fallback_entry]> acc) emails acc !! em_id e
  = Some fallback_entry.
Proof.
  revert acc; induction emails as [|x emails IH]; intros acc; simpl.
  - intros [H|H]; [by apply elem_of_nil in H|done].
  - intros [H|H]; apply IH.
    + apply elem_of_cons in H as [->|H]; [right; by rewrite lookup_insert_eq|by left].
    + right. destruct (decide (em_id x = em_id e)) as [->|Hne];
        [by rewrite lookup_insert_eq|by rewrite lookup_insert_ne].
Qed.

Lemma fallback_analysis_entries emails :
  py_getitem (_create_fallback_analysis emails) "analysis"
  = Some (JObj (fold_left (fun acc e => <[em_id e := fallback_entry]> acc) emails ∅)).
Proof. unfold _create_fallback_analysis, py_getitem. by rewrite lookup_insert_eq. Qed.


Lemma mapM_pointwise {A B} (f : A → option B) (g : A → B) (l : list A) :
  (∀ x, x ∈ l → f x = Some (g x)) → mapM f l = Some (g <$> l).
Proof.
  intros H. apply mapM_Some. induction l as [|x l IH]; simpl; constructor.
  - apply H. left.
  - apply IH. intros y Hy. apply H. by right.
Qed.

Lemma page_email_params_fallback emails e :
  e ∈ emails →
  page_email_params (_create_fallback_analysis emails) e = Some (fallback_params e).
Proof.
  intros He. unfold page_email_params.
  rewrite fallback_analysis_entries. simpl.
  rewrite fallback_entries_lookup by (by left). reflexivity.
Qed.

Lemma categorize_fallback emails e :
  e ∈ emails →
  categorize (_create_fallback_analysis emails) e
  = Some (Some (to_review, (e, fallback_entry))).
Proof.
  intros He. unfold categorize.
  rewrite fallback_analysis_entries. simpl.
  rewrite fallback_entries_lookup by (by left). reflexivity.
Qed.

Lemma fallback_truthy emails : truthy (_create_fallback_analysis emails) = true.
Proof.
  unfold _create_fallback_analysis, truthy.
  rewrite bool_decide_eq_false_2; [done|]. apply insert_non_empty.
Qed.

Lemma fallback_analysis_summary emails :
  py_get (_create_fallback_analysis emails) "summary" (JObj ∅)
  = Some (JObj (<["total_emails" := JInt (Z.of_nat (length emails))]>
               (<["recommended_deletions" := JInt 0]>
               (<["needs_review" := JInt (Z.of_nat (length emails))]>
               (<["keep" := JInt 0]> ∅))))).
Proof.
  unfold _create_fallback_analysis, py_get.
  rewrite lookup_insert_ne by done. by rewrite lookup_insert_eq.
Qed.

Lemma fallback_summary_params emails :
  Z.of_nat (length emails) < 2 ^ 63 →
  (summary ← py_get (_create_fallback_analysis emails) "summary" (JObj ∅);
   summary_params summary)
  = Some (SInt (Z.of_nat (length emails)), SInt 0, SInt (Z.of_nat (length emails)), SInt 0).
Proof.
  intros Hlen. rewrite fallback_analysis_summary. simpl.
  unfold summary_params, py_get.
  rewrite lookup_insert_eq.
  rewrite (lookup_insert_ne _ "total_emails" "recommended_deletions") by done.
  rewrite lookup_insert_eq.
  do 2 rewrite (lookup_insert_ne _ _ "needs_review") by done.
  rewrite lookup_insert_eq.
  do 3 rewrite (lookup_insert_ne _ _ "keep") by done.
  rewrite lookup_insert_eq. simpl.
  assert ((Z.leb (- 2 ^ 63) (Z.of_nat (length emails))
           && Z.ltb (Z.of_nat (length emails)) (2 ^ 63))%bool = true) as ->; [|done].
  apply andb_true_iff. split; [apply Z.leb_le|apply Z.ltb_lt]; lia.
Qed.

Lemma of_class_review (l : list email) :
  of_class to_review ((fun e => Some (to_review, (e, fallback_entry))) <$> l)
  = (fun e => (e, fallback_entry)) <$> l ∧
  of_class to_delete ((fun e => Some (to_review, (e, fallback_entry))) <$> l) = [] ∧
  of_class to_keep ((fun e => Some (to_review, (e, fallback_entry))) <$> l) = [].
Proof.
  unfold of_class. induction l as [|e l (IH1 & IH2 & IH3)]; csimpl; [done|].
  rewrite IH1, IH2, IH3. done.
Qed.

(** The report on a fallback analysis never fails. *)
Lemma generate_daily_summary_fallback emails :
  generate_daily_summary emails (_create_fallback_analysis emails)
  = Some (DailySummary [] ((fun e => (e, fallback_entry)) <$> emails) []).
Proof.
  unfold generate_daily_summary.
  rewrite (mapM_pointwise _ (fun e => Some (to_review, (e, fallback_entry))))
    by apply categorize_fallback.
  rewrite fallback_analysis_summary. simpl.
  destruct (of_class_review emails) as (-> & -> & ->). simpl.
  rewrite (mapM_pointwise _ (fun _ => JStr "Fallback - requires manual review")); [done|].
  intros p [e [-> _]]%subseteq_take%list_elem_of_fmap.
  reflexivity.
Qed.

(** A failed engine call does not fail the page: the fallback analysis is
    saved as a run in which every email is up for review at 0.5. *)
Lemma run_paginated_analysis_fallback w cfg c d tok days rules :
  gmail_days_to_analyze cfg = Some days →
  config_deletion_rules cfg = Some rules →
  filtered_page w cfg tok days ≠ [] →
  Z.of_nat (length (filtered_page w cfg tok days)) < 2 ^ 63 →
  chat_completion w (prompt_for (filtered_page w cfg tok days) rules) = ChatRaised →
  ∃ res d' rows,
    run_paginated_analysis w cfg c d tok = (Some res, d') ∧
    res_emails res = filtered_page w cfg tok days ∧
    res_analysis res = _create_fallback_analysis (filtered_page w cfg tok days) ∧
    email_analysis d' = email_analysis d ++ rows ∧
    length rows = length (filtered_page w cfg tok days) ∧
    Forall (fun r => ea_run_id r = res_run_id res ∧
                     ea_recommended_action r = SText "review" ∧
                     ea_confidence r = SReal 0.5%float) rows.
Proof.
  intros Hdays Hrules Hne Hlen Hchat.
  pose proof (analyze_emails_raised _ _ _ Hchat) as Han.
  unfold run_paginated_analysis. rewrite Hdays.
  unfold filtered_page in *.
  destruct (page_emails _) as [|e0 es] eqn:Hpage; [done|].
  destruct (_apply_preprocessing_filters cfg (e0 :: es)) as [|f0 fs] eqn:Hfilt; [done|].
  remember (f0 :: fs) as batch eqn:Hbatch.
  rewrite Hrules, Han, fallback_truthy. simpl negb. cbv iota.
  unfold save_page_analysis.
  pose proof (fallback_summary_params batch Hlen) as Hsum.
  rewrite fallback_analysis_summary in Hsum |- *.
  simpl in Hsum. simpl. rewrite Hsum. simpl.
  rewrite (mapM_pointwise _ fallback_params) by apply page_email_params_fallback.
  simpl. rewrite generate_daily_summary_fallback.
  eexists _, _, _. split; [reflexivity|]. simpl.
  split; [done|]. split; [done|]. split; [done|].
  split; [by rewrite insert_emails_length, length_fmap|].
  generalize (seq_email_analysis d). clear.
  induction batch as [|f fs IH]; intros seq; simpl; constructor; [done|apply IH].
Qed.

(** C3 (as the code has it).  The fallback analysis answers a failed
    engine call, not a malformed output.  When the chat completion call
    raises, [analyze_emails] returns the fallback, whose map gives every
    email of the batch the entry review / other / 0.5, and
    [run_paginated_analysis] does not fail: it saves the page (of fewer
    than 2^63 emails, so that the counts bind) as a run whose rows are all
    review at 0.5.  When the call returns a malformed response,
    [analyze_emails] returns [None] and no fallback is built. *)
Theorem fallback_only_when_call_raises w :
  (∀ emails rules,
     chat_completion w (prompt_for emails rules) = ChatRaised →
     ∃ entries,
       analyze_emails w emails rules = Some (_create_fallback_analysis emails) ∧
       py_getitem (_create_fallback_analysis emails) "analysis" = Some (JObj entries) ∧
       (∀ e, e ∈ emails → entries !! em_id e = Some fallback_entry) ∧
       py_getitem fallback_entry "action" = Some (JStr "review") ∧
       py_getitem fallback_entry "category" = Some (JStr "other") ∧
       py_getitem fallback_entry "confidence" = Some (JFloat 0.5%float)) ∧
  (∀ cfg c d tok days rules,
     gmail_days_to_analyze cfg = Some days →
     config_deletion_rules cfg = Some rules →
     filtered_page w cfg tok days ≠ [] →
     Z.of_nat (length (filtered_page w cfg tok days)) < 2 ^ 63 →
     chat_completion w (prompt_for (filtered_page w cfg tok days) rules) = ChatRaised →
     ∃ res d' rows,
       run_paginated_analysis w cfg c d tok = (Some res, d') ∧
       res_emails res = filtered_page w cfg tok days ∧
       res_analysis res = _create_fallback_analysis (filtered_page w cfg tok days) ∧
       email_analysis d' = email_analysis d ++ rows ∧
       length rows = length (filtered_page w cfg tok days) ∧
       Forall (fun r => ea_run_id r = res_run_id res ∧
                        ea_recommended_action r = SText "review" ∧
                        ea_confidence r = SReal 0.5%float) rows) ∧
  (∀ emails rules content,
     chat_completion w (prompt_for emails rules) = ChatContent content →
     malformed_response w content →
     analyze_emails w emails rules = None).
Proof.
  split; [|split].
  - intros emails rules Hraised. eexists. split; [by apply analyze_emails_raised|].
    split; [apply fallback_analysis_entries|].
    split; [intros e He; apply fallback_entries_lookup; by left|].
    by vm_compute.
  - intros cfg c d tok days rules. apply run_paginated_analysis_fallback.
  - intros emails rules content. apply analyze_emails_malformed.
Qed.

Lemma fallback_only_when_call_raises_witness :
  let b := Email "b" "Weekly" "news@list.org" "" "hello" true ["UNREAD"] in
  (∃ res d' rows,
     run_paginated_analysis (sample_world ["b"] ChatRaised true) sample_config sample_clock
                            empty_db None = (Some res, d') ∧
     res_emails res = filtered_page (sample_world ["b"] ChatRaised true) sample_config None 30 ∧
     res_analysis res
     = _create_fallback_analysis
         (filtered_page (sample_world ["b"] ChatRaised true) sample_config None 30) ∧
     email_analysis d' = email_analysis empty_db ++ rows ∧
     length rows
     = length (filtered_page (sample_world ["b"] ChatRaised true) sample_config None 30) ∧
     Forall (fun r => ea_run_id r = res_run_id res ∧
                      ea_recommended_action r = SText "review" ∧
                      ea_confidence r = SReal 0.5%float) rows) ∧
  analyze_emails (sample_world ["b"] (ChatContent (Some "oops")) true) [b]
                 (DeletionRules None None) = None.
Proof.
  intros b. split.
  - apply (proj1 (proj2 (fallback_only_when_call_raises
                           (sample_world ["b"] ChatRaised true)))
             sample_config sample_clock empty_db None 30
             (DeletionRules (Some ["boss@corp.com"]) None)).
    + reflexivity.
    + reflexivity.
    + vm_compute; discriminate.
    + vm_compute; reflexivity.
    + reflexivity.
  - apply (proj2 (proj2 (fallback_only_when_call_raises
                           (sample_world ["b"] (ChatContent (Some "oops")) true)))
             [b] (DeletionRules None None) (Some "oops")).
    + reflexivity.
    + vm_compute. exact I.
Defined.

(** C3 counterexample.  The engine returns text that is not JSON: the
    analyzer returns [None] instead of the fallback analysis, and the page
    operation fails without saving anything. *)
Lemma unparseable_output_gets_no_fallback :
  let w := sample_world ["b"] (ChatContent (Some "oops")) true in
  let b := Email "b" "Weekly" "news@list.org" "" "hello" true ["UNREAD"] in
  json_loads w (clean_response "oops") = None ∧
  filtered_page w sample_config None 30 = [b] ∧
  analyze_emails w [b] (DeletionRules (Some ["boss@corp.com"]) None) = None ∧
  analyze_emails w [b] (DeletionRules (Some ["boss@corp.com"]) None)
    ≠ Some (_create_fallback_analysis [b]) ∧
  run_paginated_analysis w sample_config sample_clock empty_db None = (None, empty_db).
Proof. vm_compute. repeat split; congruence. Qed.

(** ** Recording decisions *)

Lemma update_decision_fold now rid (items : list (string * string)) rows :
  NoDup items.*1 →
  fold_left (update_decision now rid) items rows
  = List.map (decided now rid (list_to_map items)) rows.
Proof.
  revert rows; induction items as [|[k v] items IH]; intros rows Hnd; simpl.
  - unfold decided. induction rows as [|r rows IHr]; simpl; [done|].
    rewrite <- IHr. rewrite lookup_empty. by destruct (Z.eqb _ _).
  - apply NoDup_cons in Hnd as [Hk Hnd]. rewrite (IH _ Hnd).
    unfold update_decision. rewrite List.map_map. apply List.map_ext. intros r.
    unfold decided; simpl.
    destruct (Z.eqb (ea_run_id r) rid) eqn:Hrun; simpl; [|by rewrite Hrun].
    destruct (String.eqb_spec (ea_email_id r) k) as [Heq|Hne]; simpl.
    + rewrite Hrun, Heq, lookup_insert_eq.
      by rewrite (not_elem_of_list_to_map_1 _ _ Hk).
    + rewrite Hrun. by rewrite lookup_insert_ne.
Qed.

(** [update_user_decisions] row by row. *)
Lemma update_user_decisions_rows c d rid decisions :
  email_analysis (update_user_decisions c d rid decisions)
  = List.map (decided (current_timestamp c) rid decisions) (email_analysis d).
Proof.
  unfold update_user_decisions; simpl.
  rewrite update_decision_fold by apply NoDup_fst_map_to_list.
  by rewrite list_to_map_to_list.
Qed.

Lemma update_status_status_of s rid d :
  Forall (fun st => st = s) (status_of (update_status s rid d) rid) ∧
  length (status_of (update_status s rid d) rid) = length (status_of d rid).
Proof.
  unfold status_of, update_status; simpl.
  induction (analysis_runs d) as [|r rs [IH1 IH2]]; simpl; [done|].
  destruct (Z.eqb (run_id r) rid) eqn:Hr; simpl; rewrite Hr; simpl; [|done].
  split; [by constructor|by rewrite IH2].
Qed.

(** Every way out of [execute_user_decisions]. *)
Lemma execute_user_decisions_inv w c d rid decisions ok d' calls :
  execute_user_decisions w c d rid decisions = (ok, d', calls) →
  (ok = false ∧ d' = d ∧
   ((pending_run_id d ≠ Some rid ∧ calls = []) ∨
    (pending_run_id d = Some rid ∧
     emails_to_delete d decisions ≠ [] ∧
     delete_emails w (emails_to_delete d decisions) = false ∧
     calls = [(emails_to_delete d decisions, false)]))) ∨
  (ok = true ∧ ∃ run rows,
     get_pending_run d = Some (run, rows) ∧ run_id run = rid ∧
     ((emails_to_delete d decisions = [] ∧ calls = [] ∧
       d' = mark_run_completed (update_user_decisions c d rid decisions) rid) ∨
      (emails_to_delete d decisions ≠ [] ∧
       delete_emails w (emails_to_delete d decisions) = true ∧
       calls = [(emails_to_delete d decisions, true)] ∧
       d' = mark_run_completed
              (update_user_decisions c
                 (log_deleted_emails c d (deleted_email_info decisions rows))
                 rid decisions) rid))).
Proof.
  unfold execute_user_decisions, emails_to_delete, pending_run_id.
  destruct (get_pending_run d) as [[run rows]|]; simpl;
    [|intros [= <- <- <-]; left; by auto].
  destruct (Z.eqb_spec (run_id run) rid) as [Hid|Hid]; simpl;
    [|intros [= <- <- <-]; left; split; [done|]; split; [done|]; left;
      split; [congruence|done]].
  destruct (List.map _ (deleted_email_info decisions rows)) as [|x l] eqn:Hbatch.
  - intros [= <- <- <-]. right. split; [done|]. exists run, rows.
    split; [done|]. split; [done|]. left. done.
  - destruct (delete_emails w (x :: l)) eqn:Hdel; intros [= <- <- <-].
    + right. split; [done|]. exists run, rows. split; [done|]. split; [done|].
      right. done.
    + left. split; [done|]. split; [done|]. right. rewrite Hid. done.
Qed.

(** ** Applying decisions *)

(** C4 (as the code has it).  In [execute_user_decisions], with [batch] the
    ids the decisions map to delete: the deletion log is written only after
    a call of [delete_emails] on the batch that reported success; the run
    is marked completed (the operation succeeds, the store changes) only
    after such a call or when the batch is empty, in which case no call is
    made at all; and when the call reports failure the operation returns
    [False] with the store untouched: no decision recorded, the run still
    pending. *)
Theorem no_ghost_deletions w c d rid decisions ok d' calls :
  execute_user_decisions w c d rid decisions = (ok, d', calls) →
  (deleted_emails d' ≠ deleted_emails d →
   calls = [(emails_to_delete d decisions, true)] ∧
   delete_emails w (emails_to_delete d decisions) = true) ∧
  (ok = true ∨ d' ≠ d →
   (emails_to_delete d decisions = [] ∧ calls = []) ∨
   (calls = [(emails_to_delete d decisions, true)] ∧
    delete_emails w (emails_to_delete d decisions) = true)) ∧
  (∀ ids, (ids, false) ∈ calls → ok = false ∧ d' = d) ∧
  (emails_to_delete d decisions ≠ [] →
   delete_emails w (emails_to_delete d decisions) = false →
   pending_run_id d = Some rid →
   ok = false ∧ d' = d ∧ calls = [(emails_to_delete d decisions, false)]).
Proof.
  intros [(-> & -> & Hcase)|(-> & run & rows & Hpend & Hid & Hcase)]%execute_user_decisions_inv.
  - split; [done|]. split; [by intros [?|?]|]. split; [done|].
    intros Hne Hdel Hp. destruct Hcase as [[? _]|(_ & _ & _ & ->)]; done.
  - destruct Hcase as [(Hnil & -> & ->)|(Hne & Hdel & -> & ->)].
    + split; [done|]. split; [by left|]. split; [|done].
      intros ids H. by apply elem_of_nil in H.
    + split; [done|]. split; [by right|]. split; [|by rewrite Hdel].
      intros ids [= _ ?]%list_elem_of_singleton.
Qed.

Lemma no_ghost_deletions_witness :
  let w := sample_world ["b"] ChatRaised false in
  let out := execute_user_decisions w sample_clock two_undecided 1 {["a" := "delete"]} in
  out.1.1 = false ∧ out.1.2 = two_undecided ∧ out.2 = [(["a"], false)].
Proof.
  intros w out.
  refine (proj2 (proj2 (proj2 (no_ghost_deletions w sample_clock two_undecided 1
                                 {["a" := "delete"]} out.1.1 out.1.2 out.2 _))) _ _ _).
  - vm_compute; reflexivity.
  - vm_compute; discriminate.
  - vm_compute; reflexivity.
  - vm_compute; reflexivity.
Defined.

(** C4 counterexample.  Every email of the pending run is kept: no call of
    [delete_emails] is made, so none reported success (the mailbox here
    would refuse any), and yet the run is marked completed. *)
Lemma completed_without_delete_call :
  let w := sample_world ["b"] ChatRaised false in
  ∃ d',
    execute_user_decisions w sample_clock two_undecided 1
                           (<["a" := "keep"]> {["b" := "keep"]})
    = (true, d', []) ∧
    (∀ msg_id, messages_trash w msg_id = false) ∧
    status_of two_undecided 1 = [pending] ∧
    status_of d' 1 = [completed].
Proof. eexists. split; [vm_compute; reflexivity|]. by vm_compute. Qed.

(** C5.  Called with a run id that is not the id of the current pending
    run (or when no run is pending), [execute_user_decisions] returns
    [False], makes no mailbox call and leaves the store exactly as it
    was. *)
Theorem run_id_mismatch_guard w c d rid decisions :
  pending_run_id d ≠ Some rid →
  execute_user_decisions w c d rid decisions = (false, d, []).
Proof.
  unfold pending_run_id, execute_user_decisions.
  destruct (get_pending_run d) as [[run rows]|]; simpl; [|done].
  destruct (Z.eqb_spec (run_id run) rid) as [->|Hne]; simpl; [|done].
  by intros [].
Qed.

Lemma run_id_mismatch_guard_witness :
  execute_user_decisions (sample_world ["b"] ChatRaised true) sample_clock two_undecided 2
                         {["a" := "delete"]}
  = (false, two_undecided, []).
Proof.
  apply run_id_mismatch_guard. vm_compute. discriminate.
Defined.

(** C10.  Whenever [execute_user_decisions] succeeds, the run is marked
    completed whatever the decision map covers, and every row whose email
    id is not a key of the map is left exactly as it was; so a run reaches
    [completed] with rows whose decision is still null, as run 1 of
    [two_undecided] does under the map that only decides email [a]. *)
Theorem completed_with_undecided_rows :
  (∀ w c d rid decisions d' calls,
     execute_user_decisions w c d rid decisions = (true, d', calls) →
     status_of d' rid ≠ [] ∧
     Forall (fun st => st = completed) (status_of d' rid) ∧
     ∀ i r, email_analysis d !! i = Some r →
            decisions !! ea_email_id r = None →
            email_analysis d' !! i = Some r) ∧
  (∃ d' calls,
     execute_user_decisions (sample_world ["b"] ChatRaised true) sample_clock two_undecided 1
                            {["a" := "keep"]} = (true, d', calls) ∧
     status_of d' 1 = [completed] ∧
     ea_user_decision <$> email_analysis d' = [Some "keep"; None]).
Proof.
  split.
  - intros w c d rid decisions d' calls
      [(? & _)|(_ & run & rows & Hpend & Hid & Hcase)]%execute_user_decisions_inv; [done|].
    apply get_pending_run_inv in Hpend as (_ & Hin & _).
    assert (status_of d rid ≠ []) as Hex.
    { unfold status_of. intros Hnil.
      apply list_elem_of_In in Hin.
      assert (In run (List.filter (fun r => Z.eqb (run_id r) rid) (analysis_runs d))) as Hf
        by (apply filter_In; split; [done|by apply Z.eqb_eq]).
      destruct (List.filter _ _); [done|discriminate]. }
    assert (∀ d1, status_of d1 rid = status_of d rid →
                  email_analysis d1 = email_analysis d →
                  d' = mark_run_completed (update_user_decisions c d1 rid decisions) rid →
                  status_of d' rid ≠ [] ∧
                  Forall (fun st => st = completed) (status_of d' rid) ∧
                  ∀ i r, email_analysis d !! i = Some r →
                         decisions !! ea_email_id r = None →
                         email_analysis d' !! i = Some r) as Hgen.
    { intros d1 Hst Hrows ->. unfold mark_run_completed.
      destruct (update_status_status_of completed rid
                  (update_user_decisions c d1 rid decisions)) as [Hall Hlen].
      split; [|split; [done|]].
      - intros Hnil. rewrite Hnil in Hlen. simpl in Hlen.
        change (status_of (update_user_decisions c d1 rid decisions) rid)
          with (status_of d1 rid) in Hlen.
        rewrite Hst in Hlen. by destruct (status_of d rid).
      - intros i r Hi Hnone.
        change (email_analysis (update_status completed rid
                                  (update_user_decisions c d1 rid decisions)))
          with (email_analysis (update_user_decisions c d1 rid decisions)).
        rewrite update_user_decisions_rows, Hrows.
        change (List.map ?f ?l) with (f <$> l). rewrite list_lookup_fmap, Hi. simpl.
        unfold decided. rewrite Hnone. by destruct (Z.eqb _ _). }
    destruct Hcase as [(_ & _ & Hd')|(_ & _ & _ & Hd')];
      [apply (Hgen d)
      |apply (Hgen (log_deleted_emails c d (deleted_email_info decisions rows)))]; done.
  - eexists _, _. split; [vm_compute; reflexivity|]. by vm_compute.
Qed.

Lemma completed_with_undecided_rows_witness :
  let out := execute_user_decisions (sample_world ["b"] ChatRaised true) sample_clock
                                    two_undecided 1 ∅ in
  status_of out.1.2 1 ≠ [] ∧
  Forall (fun st => st = completed) (status_of out.1.2 1) ∧
  ∀ i r, email_analysis two_undecided !! i = Some r →
         (∅ : gmap string string) !! ea_email_id r = None →
         email_analysis out.1.2 !! i = Some r.
Proof.
  intros out.
  apply (proj1 completed_with_undecided_rows (sample_world ["b"] ChatRaised true)
               sample_clock two_undecided 1 ∅ out.1.2 out.2).
  vm_compute; reflexivity.
Defined.

(** ** Are decisions final? *)

Lemma merge_reanalysis_with_new_page_inv c d reanalyzed analysis emails cur nxt d' rid :
  merge_reanalysis_with_new_page c d reanalyzed analysis emails cur nxt = Some (d', rid) →
  ∃ counts ps new_ps,
    length ps = length reanalyzed ∧
    mapM (page_email_params analysis) emails = Some new_ps ∧
    (d', rid) = commit_run c d counts cur nxt (ps ++ new_ps).
Proof.
  unfold merge_reanalysis_with_new_page. intros H. simplify_option_eq.
  match goal with
  | Hm : mapM _ reanalyzed = Some ?ps |- _ =>
      assert (length ps = length reanalyzed) as Hlen
        by (symmetry; eapply Forall2_length; by apply mapM_Some);
      eexists (_, _, _, _), ps, _
  end.
  split; [exact Hlen|]. split; [done|].
  reflexivity.
Qed.

Lemma other_write_keeps_rows d d' :
  other_write d d' → ∃ new_rows, email_analysis d' = email_analysis d ++ new_rows.
Proof.
  destruct 1 as [c emails a d' rid H|c emails a cur nxt d' rid H
                |c re a emails cur nxt d' rid H|rid|rid|c l].
  - apply save_analysis_run_spec in H as (_ & rows & _ & _ & _ & _ & _ & -> & _). eauto.
  - apply save_page_analysis_spec in H as (_ & rows & _ & _ & _ & _ & _ & -> & _). eauto.
  - apply merge_reanalysis_with_new_page_inv in H as (counts & ps & nps & _ & _ & H).
    apply commit_run_inv in H as (_ & _ & -> & _). eauto.
  - exists []. by rewrite app_nil_r.
  - exists []. by rewrite app_nil_r.
  - exists []. by rewrite app_nil_r.
Qed.

(** C9 (as the code has it).  A stored decision is kept by every write of
    the store except [update_user_decisions]: saving a run or a page, the
    merge, the two status updates and the deletion log leave every existing
    row as it is.  [update_user_decisions] rewrites, set or not, the
    decision and timestamp of every row of the run whose email id is a key
    of the dict, and leaves alone the rows of other runs and the rows whose
    id is not a key. *)
Theorem decisions_change_only_by_update :
  (∀ d d' i r,
     other_write d d' →
     email_analysis d !! i = Some r →
     email_analysis d' !! i = Some r) ∧
  (∀ c d rid (decisions : gmap string string) i r,
     email_analysis d !! i = Some r →
     email_analysis (update_user_decisions c d rid decisions) !! i
     = Some (decided (current_timestamp c) rid decisions r) ∧
     (ea_run_id r ≠ rid ∨ decisions !! ea_email_id r = None →
      decided (current_timestamp c) rid decisions r = r) ∧
     (∀ dec, ea_run_id r = rid → decisions !! ea_email_id r = Some dec →
             ea_user_decision (decided (current_timestamp c) rid decisions r) = Some dec)).
Proof.
  split.
  - intros d d' i r [new ->]%other_write_keeps_rows Hi.
    by apply lookup_app_l_Some.
  - intros c d rid decisions i r Hi. split; [|split].
    + rewrite update_user_decisions_rows.
      change (List.map ?f ?l) with (f <$> l). by rewrite list_lookup_fmap, Hi.
    + unfold decided. intros [Hne| ->]; [|by destruct (Z.eqb _ _)].
      by destruct (Z.eqb_spec (ea_run_id r) rid).
    + intros dec <- Hdec. unfold decided. by rewrite Z.eqb_refl, Hdec.
Qed.

Lemma decisions_change_only_by_update_witness :
  email_analysis (mark_run_completed half_decided_run 1) !! 0%nat
  = email_analysis half_decided_run !! 0%nat ∧
  ea_user_decision <$> (email_analysis (update_user_decisions sample_clock half_decided_run 1
                                                               {["b" := "keep"]}) !! 1%nat)
  = Some (Some "keep").
Proof.
  split.
  - refine (proj1 decisions_change_only_by_update half_decided_run _ 0%nat _
                  (write_completed _ 1) _). reflexivity.
  - rewrite (proj1 (proj2 decisions_change_only_by_update sample_clock half_decided_run 1
                      {["b" := "keep"]} 1%nat _ eq_refl)).
    vm_compute. reflexivity.
Defined.

(** C9 counterexample.  Email [a] of run 1 already carries the decision
    [delete]; [update_user_decisions] with the same email id replaces it by
    [keep]. *)
Lemma update_user_decisions_overwrites :
  let d := half_decided_run in
  let d' := update_user_decisions sample_clock d 1 {["a" := "keep"]} in
  ea_user_decision <$> email_analysis d !! 0%nat = Some (Some "delete") ∧
  ea_user_decision <$> email_analysis d' !! 0%nat = Some (Some "keep") ∧
  ea_user_decision <$> email_analysis d' !! 0%nat
    ≠ ea_user_decision <$> email_analysis d !! 0%nat.
Proof. vm_compute. repeat split; congruence. Qed.

(** ** What a saved page stores *)

Lemma page_email_params_missing analysis (entries : gmap string json) e p :
  py_getitem analysis "analysis" = Some (JObj entries) →
  entries !! em_id e = None →
  page_email_params analysis e = Some p →
  p = EmailParams e (SText "review") (SText "other") (SReal 0.5%float)
                  (SText "No analysis available").
Proof.
  unfold page_email_params. intros -> Hnone. simpl. rewrite Hnone. simpl.
  by intros [= <-].
Qed.

Lemma Forall2_elem_of_r {A B} (R : A → B → Prop) l k y :
  Forall2 R l k → y ∈ k → ∃ x, x ∈ l ∧ R x y.
Proof.
  induction 1 as [|a b l k Hab _ IH]; intros Hy; [by apply elem_of_nil in Hy|].
  apply elem_of_cons in Hy as [->|Hy].
  - exists a. split; [left|done].
  - destruct (IH Hy) as (x & Hx & HR). exists x. split; [by right|done].
Qed.

(** C6.  Whenever [save_page_analysis] or [save_analysis_run] saves a run,
    it appends one row per email, and every such row whose email id is not
    a key of the analysis map holds the recommendation review / other /
    0.5 / "No analysis available"; its action is not delete. *)
Theorem missing_analysis_defaults_to_review
    c d emails analysis (entries : gmap string json) cur nxt d' rid :
  save_page_analysis c d emails analysis cur nxt = Some (d', rid) ∨
  save_analysis_run c d emails analysis = Some (d', rid) →
  py_getitem analysis "analysis" = Some (JObj entries) →
  ∃ rows,
    email_analysis d' = email_analysis d ++ rows ∧
    Forall2 (fun e r => ea_run_id r = rid ∧ ea_email_id r = em_id e) emails rows ∧
    ∀ r, r ∈ rows → entries !! ea_email_id r = None →
         ea_recommended_action r = SText "review" ∧
         ea_category r = SText "other" ∧
         ea_confidence r = SReal 0.5%float ∧
         ea_reason r = SText "No analysis available" ∧
         ea_recommended_action r ≠ SText "delete".
Proof.
  intros Hsave Hentries.
  assert (∃ rows, email_analysis d' = email_analysis d ++ rows ∧
                  Forall2 (row_of analysis rid) emails rows) as (rows & Hrows & Hrel).
  { destruct Hsave as [H|H];
      [apply save_page_analysis_spec in H|apply save_analysis_run_spec in H];
      destruct H as (_ & rows & _ & _ & _ & _ & _ & Hrows & Hrel & _); eauto. }
  exists rows. split; [done|]. split.
  - eapply Forall2_impl; [exact Hrel|]. by intros e r (? & ? & _).
  - intros r Hr Hnone.
    destruct (Forall2_elem_of_r _ _ _ _ Hrel Hr)
      as (e & _ & _ & Hid & _ & _ & _ & _ & _ & _ & _ & p & Hp & Ha & Hc & Hf & Hre).
    rewrite Hid in Hnone.
    rewrite (page_email_params_missing _ _ _ _ Hentries Hnone Hp) in Ha, Hc, Hf, Hre.
    simpl in *. rewrite Ha. done.
Qed.

Lemma missing_analysis_defaults_to_review_witness :
  let b := Email "b" "Weekly" "news@list.org" "" "hello" true [] in
  let z := Email "z" "Invoice" "billing@shop.com" "" "due" true [] in
  ∃ d' rid rows,
    save_page_analysis sample_clock empty_db [b; z] sample_analysis None None
    = Some (d', rid) ∧
    email_analysis d' = email_analysis empty_db ++ rows ∧
    Forall2 (fun e r => ea_run_id r = rid ∧ ea_email_id r = em_id e) [b; z] rows ∧
    ∀ r, r ∈ rows →
         sample_entries !! ea_email_id r = None →
         ea_recommended_action r = SText "review" ∧
         ea_category r = SText "other" ∧
         ea_confidence r = SReal 0.5%float ∧
         ea_reason r = SText "No analysis available" ∧
         ea_recommended_action r ≠ SText "delete".
Proof.
  intros b z.
  destruct (save_page_analysis sample_clock empty_db [b; z] sample_analysis None None)
    as [[d' rid]|] eqn:Hsave; [|by vm_compute in Hsave].
  exists d', rid.
  destruct (missing_analysis_defaults_to_review sample_clock empty_db [b; z]
              sample_analysis sample_entries None None d' rid (or_introl Hsave))
    as (rows & H); [reflexivity|by exists rows].
Defined.

(** ** Protected senders *)

Lemma filtered_page_unprotected w cfg tok days e :
  e ∈ filtered_page w cfg tok days →
  sender_is_protected (configured_protected_senders cfg) e = false.
Proof.
  unfold filtered_page, _apply_preprocessing_filters, configured_protected_senders.
  intros [_ H]%list_elem_of_In%filter_In. by apply negb_true_iff in H.
Qed.

Lemma prompt_for_unprotected protected emails rules :
  Forall (fun e => sender_is_protected protected e = false) emails →
  prompt_unprotected protected (prompt_for emails rules).
Proof.
  unfold prompt_unprotected, prompt_for; simpl. intros H.
  apply Forall_forall. intros s [e [-> He%subseteq_take]]%list_elem_of_fmap.
  by apply (proj1 (Forall_forall _ emails) H).
Qed.

(** C7.  Whatever [run_paginated_analysis] does, the rows it adds to the
    store all carry a sender that contains no protected substring, so an
    email of the fetched page whose sender is protected gets no row (and no
    delete recommendation); and the filter runs before classification: the
    outcome does not depend on what the engine would answer to a prompt
    that shows an email of a protected sender. *)
Theorem protected_senders_never_stored w cfg c d tok r d' :
  run_paginated_analysis w cfg c d tok = (r, d') →
  (∃ new_rows,
     email_analysis d' = email_analysis d ++ new_rows ∧
     (∀ row, row ∈ new_rows →
             existsb (fun p => is_substring p (ea_sender row))
                     (configured_protected_senders cfg) = false) ∧
     (∀ e row, sender_is_protected (configured_protected_senders cfg) e = true →
               row ∈ new_rows → ea_sender row ≠ em_sender e)) ∧
  (∀ chat',
     (∀ p, prompt_unprotected (configured_protected_senders cfg) p →
           chat' p = chat_completion w p) →
     run_paginated_analysis
       (World (messages_list w) (messages_get w) (messages_trash w) chat' (json_loads w))
       cfg c d tok
     = (r, d')).
Proof.
  intros Hrun. split.
  - assert (∃ new_rows,
              email_analysis d' = email_analysis d ++ new_rows ∧
              ∀ row, row ∈ new_rows →
                     existsb (fun p => is_substring p (ea_sender row))
                             (configured_protected_senders cfg) = false)
      as (new_rows & Hrows & Hun).
    { apply run_paginated_analysis_inv in Hrun
        as [[-> ->]|(days & rules & a & rid & _ & _ & _ & _ & Hsave & _)].
      - exists []. split; [by rewrite app_nil_r|]. intros row H. by apply elem_of_nil in H.
      - apply save_page_analysis_spec in Hsave
          as (_ & rows & _ & _ & _ & _ & _ & Hrows & Hrel & _).
        exists rows. split; [done|]. intros row Hrow.
        destruct (Forall2_elem_of_r _ _ _ _ Hrel Hrow) as (e & He & _ & _ & _ & Hs & _).
        rewrite Hs. by apply (filtered_page_unprotected w cfg tok days). }
    exists new_rows. split; [done|]. split; [done|].
    intros e row He Hrow Heq. specialize (Hun row Hrow).
    unfold sender_is_protected in He. rewrite Heq in Hun. congruence.
  - intros chat' Hchat. rewrite <- Hrun.
    unfold run_paginated_analysis.
    destruct (gmail_days_to_analyze cfg) as [days|]; [|done].
    change (get_email_page (World _ _ _ _ _) tok ?n days)
      with (get_email_page w tok n days).
    destruct (page_emails _) as [|e0 es] eqn:Hpage; [done|].
    destruct (_apply_preprocessing_filters cfg (e0 :: es)) as [|f0 fs] eqn:Hfilt; [done|].
    destruct (config_deletion_rules cfg) as [rules|] eqn:Hrules; [|done].
    assert (analyze_emails
              (World (messages_list w) (messages_get w) (messages_trash w) chat'
                     (json_loads w)) (f0 :: fs) rules
            = analyze_emails w (f0 :: fs) rules) as ->; [|done].
    unfold analyze_emails; simpl chat_completion.
    rewrite Hchat; [done|].
    apply (prompt_for_unprotected _ (f0 :: fs) rules).
    apply Forall_forall. intros e He.
    apply (filtered_page_unprotected w cfg tok days).
    unfold filtered_page. by rewrite Hpage, Hfilt.
Qed.

Lemma protected_senders_never_stored_witness :
  let w := sample_world ["p"; "b"] (ChatContent (Some "ok")) true in
  let out := run_paginated_analysis w sample_config sample_clock empty_db None in
  ea_sender <$> email_analysis out.2 = ["news@list.org"] ∧
  ∃ new_rows,
    email_analysis out.2 = email_analysis empty_db ++ new_rows ∧
    (∀ row, row ∈ new_rows →
            existsb (fun p => is_substring p (ea_sender row))
                    (configured_protected_senders sample_config) = false) ∧
    (∀ e row, sender_is_protected (configured_protected_senders sample_config) e = true →
              row ∈ new_rows → ea_sender row ≠ em_sender e).
Proof.
  intros w out. split; [vm_compute; reflexivity|].
  refine (proj1 (protected_senders_never_stored w sample_config sample_clock empty_db None
                   out.1 out.2 _)).
  vm_compute; reflexivity.
Defined.

(** ** Nothing to analyse *)

(** C8 (as the code has it).  When the fetched page is empty, or the filter
    removes every email of it, [run_paginated_analysis] creates no run: it
    returns [None] and the store, hence its run count, is what it was.
    [None] is also what it returns, with the store unchanged as well, when
    the analyzer gives no analysis: the returned value does not tell
    "nothing to do" from a failure. *)
Theorem nothing_to_analyze_returns_none w cfg c d tok :
  ((∀ days, gmail_days_to_analyze cfg = Some days →
            page_emails (get_email_page w tok (default 50 (pagination_page_size cfg)) days)
            = [] ∨
            filtered_page w cfg tok days = []) →
   run_paginated_analysis w cfg c d tok = (None, d) ∧
   length (analysis_runs (run_paginated_analysis w cfg c d tok).2)
   = length (analysis_runs d)) ∧
  (∀ days rules,
     gmail_days_to_analyze cfg = Some days →
     config_deletion_rules cfg = Some rules →
     analyze_emails w (filtered_page w cfg tok days) rules = None →
     run_paginated_analysis w cfg c d tok = (None, d)).
Proof.
  split.
  - intros Hnothing.
    rewrite run_paginated_analysis_nothing_left; [done|].
    intros days Hdays. destruct (Hnothing days Hdays) as [Hpage|Hfilt]; [|done].
    unfold filtered_page. by rewrite Hpage.
  - intros days rules. apply run_paginated_analysis_no_analysis.
Qed.

Lemma nothing_to_analyze_returns_none_witness :
  run_paginated_analysis (sample_world ["p"] (ChatContent (Some "ok")) true)
                         sample_config sample_clock one_pending_run None
  = (None, one_pending_run) ∧
  run_paginated_analysis (sample_world ["b"] (ChatContent (Some "oops")) true)
                         sample_config sample_clock one_pending_run None
  = (None, one_pending_run).
Proof.
  split.
  - refine (proj1 (proj1 (nothing_to_analyze_returns_none _ _ _ _ _) _)).
    intros days [= <-]. right. vm_compute. reflexivity.
  - refine (proj2 (nothing_to_analyze_returns_none _ _ _ _ _) 30
                  (DeletionRules (Some ["boss@corp.com"]) None) _ _ _).
    + reflexivity.
    + reflexivity.
    + vm_compute. reflexivity.
Defined.

(** C8 counterexample.  An empty page, a page emptied by the filter and a
    page whose classification fails all make [run_paginated_analysis]
    return the same value, [None]: the caller cannot tell the first two
    from the failure. *)
Lemma empty_page_indistinguishable_from_failure :
  let empty := sample_world [] (ChatContent (Some "ok")) true in
  let all_protected := sample_world ["p"] (ChatContent (Some "ok")) true in
  let failing := sample_world ["b"] (ChatContent (Some "oops")) true in
  let run w := run_paginated_analysis w sample_config sample_clock empty_db None in
  page_emails (get_email_page empty None 50 30) = [] ∧
  page_emails (get_email_page all_protected None 50 30) ≠ [] ∧
  filtered_page all_protected sample_config None 30 = [] ∧
  filtered_page failing sample_config None 30 ≠ [] ∧
  analyze_emails failing (filtered_page failing sample_config None 30)
                 (DeletionRules (Some ["boss@corp.com"]) None) = None ∧
  (run empty).1 = (run failing).1 ∧
  (run all_protected).1 = (run failing).1 ∧
  (run failing).1 = None.
Proof. vm_compute. repeat split; congruence. Qed.

(** * Further properties *)

(** ** Identifiers and referential integrity *)

Lemma insert_emails_ids rid seq ps :
  Forall (fun r => seq < ea_id r <= seq + Z.of_nat (length ps) ∧ ea_run_id r = rid)
         (insert_emails rid seq ps) ∧
  NoDup (ea_id <$> insert_emails rid seq ps).
Proof.
  revert seq; induction ps as [|p ps IH]; intros seq; simpl.
  - split; constructor.
  - destruct (IH (seq + 1)) as [Hall Hnd]. split.
    + constructor; [simpl; lia|].
      eapply Forall_impl; [exact Hall|]. simpl. intros r. lia.
    + simpl. apply NoDup_cons. split; [|done].
      intros (r & Heq & Hr)%list_elem_of_fmap.
      apply (proj1 (Forall_forall _ _) Hall) in Hr. lia.
Qed.

Lemma insert_deleted_ids now seq l :
  Forall (fun x => seq < del_id x <= seq + Z.of_nat (length l)) (insert_deleted now seq l) ∧
  NoDup (del_id <$> insert_deleted now seq l).
Proof.
  revert seq; induction l as [|[[eid subj] snd] l IH]; intros seq; simpl.
  - split; constructor.
  - destruct (IH (seq + 1)) as [Hall Hnd]. split.
    + constructor; [simpl; lia|].
      eapply Forall_impl; [exact Hall|]. simpl. intros r. lia.
    + simpl. apply NoDup_cons. split; [|done].
      intros (r & Heq & Hr)%list_elem_of_fmap.
      apply (proj1 (Forall_forall _ _) Hall) in Hr. lia.
Qed.

Lemma NoDup_app_bounded {A} (f : A → Z) (l k : list A) (b : Z) :
  Forall (fun x => f x <= b) l → Forall (fun x => b < f x) k →
  NoDup (f <$> l) → NoDup (f <$> k) → NoDup (f <$> (l ++ k)).
Proof.
  intros Hl Hk Hnl Hnk. rewrite fmap_app. apply NoDup_app. split; [done|]. split; [|done].
  intros z (x & -> & Hx)%list_elem_of_fmap (y & Heq & Hy)%list_elem_of_fmap.
  apply (proj1 (Forall_forall _ _) Hl) in Hx.
  apply (proj1 (Forall_forall _ _) Hk) in Hy. lia.
Qed.

Lemma store_ok_empty : store_ok empty_db.
Proof. split; simpl; first [lia | constructor]. Qed.

Lemma commit_run_ok c d counts cur nxt ps d' rid :
  store_ok d → (d', rid) = commit_run c d counts cur nxt ps → store_ok d'.
Proof.
  intros [(H0 & H0' & H0'') H1 H2 H3 H4 H5 H6 H7]. destruct counts as [[[t dl] rv] kp].
  unfold commit_run. intros [= -> ->].
  destruct (insert_emails_ids (seq_analysis_runs d + 1) (seq_email_analysis d) ps)
    as [Hnew Hnd].
  split; simpl.
  - lia.
  - apply Forall_app. split.
    + eapply Forall_impl; [exact H1|]. simpl. intros r. lia.
    + constructor; [simpl; lia|constructor].
  - apply (NoDup_app_bounded run_id _ _ (seq_analysis_runs d)).
    + eapply Forall_impl; [exact H1|]. simpl. intros r. lia.
    + constructor; [simpl; lia|constructor].
    + done.
    + simpl. apply NoDup_singleton.
  - apply Forall_app. split.
    + eapply Forall_impl; [exact H3|]. simpl. intros r. lia.
    + eapply Forall_impl; [exact Hnew|]. simpl. intros r. lia.
  - apply (NoDup_app_bounded ea_id _ _ (seq_email_analysis d)).
    + eapply Forall_impl; [exact H3|]. simpl. intros r. lia.
    + eapply Forall_impl; [exact Hnew|]. simpl. intros r. lia.
    + done.
    + done.
  - apply Forall_app. split.
    + eapply Forall_impl; [exact H5|]. simpl. intros r Hr.
      rewrite fmap_app, elem_of_app. by left.
    + eapply Forall_impl; [exact Hnew|]. simpl. intros r [_ ->].
      rewrite fmap_app, elem_of_app. right. simpl. left.
  - done.
  - done.
Qed.

Lemma other_write_ok d d' : store_ok d → other_write d d' → store_ok d'.
Proof.
  intros Hok. destruct 1 as [c emails a d' rid H|c emails a cur nxt d' rid H
                             |c re a emails cur nxt d' rid H|rid|rid|c l].
  - apply save_analysis_run_inv in H as (counts & ps & _ & H). by eapply commit_run_ok.
  - apply save_page_analysis_inv in H as (counts & ps & _ & H). by eapply commit_run_ok.
  - apply merge_reanalysis_with_new_page_inv in H as (counts & ps & nps & _ & _ & H).
    by eapply commit_run_ok.
  - destruct Hok as [H0 H1 H2 H3 H4 H5 H6 H7].
    assert (run_id <$> analysis_runs (mark_old_run_superseded d rid)
            = run_id <$> analysis_runs d) as Hids.
    { simpl. change (List.map ?f ?l) with (f <$> l). rewrite <- list_fmap_compose.
      apply list_fmap_ext. intros i r _. simpl. by destruct (Z.eqb _ _). }
    split; try done.
    + simpl. change (List.map ?f ?l) with (f <$> l). apply Forall_fmap.
      eapply Forall_impl; [exact H1|]. intros r Hr. simpl. by destruct (Z.eqb _ _).
    + by rewrite Hids.
    + change (email_analysis (mark_old_run_superseded d rid)) with (email_analysis d).
      by rewrite Hids.
  - destruct Hok as [H0 H1 H2 H3 H4 H5 H6 H7].
    assert (run_id <$> analysis_runs (mark_run_completed d rid)
            = run_id <$> analysis_runs d) as Hids.
    { simpl. change (List.map ?f ?l) with (f <$> l). rewrite <- list_fmap_compose.
      apply list_fmap_ext. intros i r _. simpl. by destruct (Z.eqb _ _). }
    split; try done.
    + simpl. change (List.map ?f ?l) with (f <$> l). apply Forall_fmap.
      eapply Forall_impl; [exact H1|]. intros r Hr. simpl. by destruct (Z.eqb _ _).
    + by rewrite Hids.
    + change (email_analysis (mark_run_completed d rid)) with (email_analysis d).
      by rewrite Hids.
  - destruct Hok as [(H0 & H0' & H0'') H1 H2 H3 H4 H5 H6 H7].
    destruct (insert_deleted_ids (current_timestamp c) (seq_deleted_emails d) l)
      as [Hnew Hnd].
    split; simpl; try done.
    + lia.
    + apply Forall_app. split.
      * eapply Forall_impl; [exact H6|]. simpl. intros r. lia.
      * eapply Forall_impl; [exact Hnew|]. simpl. intros r. lia.
    + apply (NoDup_app_bounded del_id _ _ (seq_deleted_emails d)).
      * eapply Forall_impl; [exact H6|]. simpl. intros r. lia.
      * eapply Forall_impl; [exact Hnew|]. simpl. intros r. lia.
      * done.
      * done.
Qed.

Lemma decided_keeps_ids now rid decisions r :
  ea_id (decided now rid decisions r) = ea_id r ∧
  ea_run_id (decided now rid decisions r) = ea_run_id r ∧
  ea_email_id (decided now rid decisions r) = ea_email_id r.
Proof.
  unfold decided. destruct (Z.eqb _ _); [|done]. by destruct (decisions !! _).
Qed.

Lemma update_user_decisions_ok c d rid decisions :
  store_ok d → store_ok (update_user_decisions c d rid decisions).
Proof.
  intros [H0 H1 H2 H3 H4 H5 H6 H7].
  pose proof (update_user_decisions_rows c d rid decisions) as Hrows.
  split; try done; rewrite Hrows; change (List.map ?f ?l) with (f <$> l).
  - apply Forall_fmap. eapply Forall_impl; [exact H3|]. intros r Hr. simpl.
    by rewrite (proj1 (decided_keeps_ids _ _ _ _)).
  - rewrite <- list_fmap_compose.
    erewrite list_fmap_ext; [exact H4|]. intros i r _. simpl.
    apply decided_keeps_ids.
  - apply Forall_fmap. eapply Forall_impl; [exact H5|]. intros r Hr. simpl.
    by rewrite (proj1 (proj2 (decided_keeps_ids _ _ _ _))).
Qed.

(** X1.  Every write of the store keeps it sound: identifiers stay
    positive, unique per table and below the AUTOINCREMENT counters, and
    every email row still belongs to a stored run. *)
Theorem store_write_keeps_store_ok d d' :
  store_ok d → store_write d d' → store_ok d'.
Proof.
  intros Hok Hw. destruct Hw as [d1 Hw|c rid decisions].
  - by eapply other_write_ok.
  - by apply update_user_decisions_ok.
Qed.

Lemma store_write_keeps_store_ok_witness :
  store_ok (log_deleted_emails sample_clock empty_db [("a", "Sale", "shop@example.com")]).
Proof.
  apply (store_write_keeps_store_ok empty_db).
  - split; simpl; first [lia | constructor].
  - apply write_other, write_log.
Defined.

Lemma run_paginated_analysis_ok w cfg c d tok :
  store_ok d → store_ok (run_paginated_analysis w cfg c d tok).2.
Proof.
  intros Hok. destruct (run_paginated_analysis w cfg c d tok) as [r d'] eqn:Hrun.
  apply run_paginated_analysis_inv in Hrun
    as [[-> ->]|(days & rules & a & rid & _ & _ & _ & _ & Hsave & _)]; [done|].
  simpl. eapply other_write_ok; [exact Hok|]. by eapply write_save_page_analysis.
Qed.

(** X2.  The controller's operations keep the store sound as well: a page
    run, a continuation and the application of decisions, whatever the
    outside world answers. *)
Theorem controller_keeps_store_ok w cfg c d tok rid decisions :
  store_ok d →
  store_ok (run_paginated_analysis w cfg c d tok).2 ∧
  store_ok (continue_from_last_page w cfg c d).2 ∧
  store_ok (execute_user_decisions w c d rid decisions).1.2.
Proof.
  intros Hok. split; [by apply run_paginated_analysis_ok|]. split.
  - unfold continue_from_last_page.
    destruct (token_given _); by apply run_paginated_analysis_ok.
  - destruct (execute_user_decisions w c d rid decisions) as [[ok d'] calls] eqn:Hex.
    simpl.
    apply execute_user_decisions_inv in Hex
      as [(_ & -> & _)|(_ & run & rows & _ & _ & [(_ & _ & ->)|(_ & _ & _ & ->)])].
    + done.
    + eapply other_write_ok; [|apply write_completed].
      by apply update_user_decisions_ok.
    + eapply other_write_ok; [|apply write_completed].
      apply update_user_decisions_ok.
      eapply other_write_ok; [exact Hok|apply write_log].
Qed.

Lemma store_ok_one_pending_run : store_ok one_pending_run.
Proof.
  split; simpl.
  - lia.
  - repeat constructor; simpl; lia.
  - apply NoDup_singleton.
  - repeat constructor; simpl; lia.
  - apply NoDup_singleton.
  - repeat constructor.
  - constructor.
  - constructor.
Qed.

Lemma controller_keeps_store_ok_witness :
  let w := sample_world ["b"] (ChatContent (Some "ok")) true in
  let d := one_pending_run in
  let d1 := (run_paginated_analysis w sample_config sample_clock d None).2 in
  let d2 := (continue_from_last_page w sample_config sample_clock d).2 in
  let d3 := (execute_user_decisions w sample_clock d 1 {["a" := "delete"]}).1.2 in
  (length (analysis_runs d1) = 2%nat ∧ length (email_analysis d1) = 2%nat) ∧
  (length (analysis_runs d2) = 2%nat ∧ length (email_analysis d2) = 2%nat) ∧
  (status_of d3 1 = [completed] ∧ length (deleted_emails d3) = 1%nat ∧
   ea_user_decision <$> email_analysis d3 = [Some "delete"]) ∧
  store_ok d1 ∧ store_ok d2 ∧ store_ok d3.
Proof.
  intros w d d1 d2 d3.
  split; [split; vm_compute; reflexivity|].
  split; [split; vm_compute; reflexivity|].
  split; [repeat split; vm_compute; reflexivity|].
  exact (controller_keeps_store_ok w sample_config sample_clock d None 1
           {["a" := "delete"]} store_ok_one_pending_run).
Defined.

Lemma filter_all_false {A} (P : A → bool) (l : list A) :
  Forall (fun x => P x = false) l → List.filter P l = [].
Proof.
  induction 1 as [|x l Hx _ IH]; simpl; [done|]. by rewrite Hx.
Qed.

Lemma filter_all_true {A} (P : A → bool) (l : list A) :
  Forall (fun x => P x = true) l → List.filter P l = l.
Proof.
  induction 1 as [|x l Hx _ IH]; simpl; [done|]. by rewrite Hx, IH.
Qed.

Lemma Forall2_row_of_emails analysis rid emails rows :
  Forall2 (row_of analysis rid) emails rows →
  email_of_row <$> rows = without_labels <$> emails.
Proof.
  induction 1 as [|e r emails rows Hr _ IH]; csimpl; [done|].
  rewrite IH. f_equal.
  destruct Hr as (_ & H1 & H2 & H3 & H4 & H5 & H6 & _).
  unfold email_of_row, without_labels. by rewrite H1, H2, H3, H4, H5, H6.
Qed.

(** X3.  Saving a page and reading it back: in a sound store, right after
    [save_page_analysis] succeeds, the rows of the new run are exactly one
    row per saved email, in order and all undecided, and
    [get_emails_for_reanalysis] on the new run gives the saved emails back
    (without their labels, which the store does not keep). *)
Theorem saved_page_reads_back c d emails analysis cur nxt d' rid :
  store_ok d →
  save_page_analysis c d emails analysis cur nxt = Some (d', rid) →
  Forall2 (row_of analysis rid) emails (emails_of_run rid d') ∧
  get_unprocessed_emails_for_run d' rid = emails_of_run rid d' ∧
  get_emails_for_reanalysis d' rid = without_labels <$> emails.
Proof.
  intros Hok Hsave.
  pose proof Hsave as (counts & ps & _ & Hc)%save_page_analysis_inv.
  apply commit_run_inv in Hc as (Hrid & _).
  apply save_page_analysis_spec in Hsave
    as (_ & rows & _ & _ & _ & _ & _ & Hrows & Hrel & _).
  assert (emails_of_run rid d' = rows) as Hrun.
  { unfold emails_of_run. rewrite Hrows, List.filter_app.
    rewrite filter_all_false, filter_all_true; [done| |].
    - eapply Forall2_Forall_r; [exact Hrel|]. apply Forall_true.
      intros e r (-> & _). apply Z.eqb_refl.
    - destruct Hok as [_ H1 _ _ _ H5 _ _].
      eapply Forall_impl; [exact H5|]. simpl.
      intros r (run & -> & Hin)%list_elem_of_fmap.
      apply (proj1 (Forall_forall _ _) H1) in Hin. apply Z.eqb_neq. lia. }
  assert (get_unprocessed_emails_for_run d' rid = rows) as Hun.
  { unfold get_unprocessed_emails_for_run.
    rewrite filter_filter_andb. fold (emails_of_run rid d'). rewrite Hrun.
    apply filter_all_true.
    eapply Forall2_Forall_r; [exact Hrel|]. apply Forall_true.
    intros e r (_ & _ & _ & _ & _ & _ & _ & -> & _). done. }
  rewrite Hrun. split; [done|]. split; [done|].
  unfold get_emails_for_reanalysis. rewrite Hun.
  change (List.map ?f ?l) with (f <$> l).
  change (fun r => Email _ _ _ _ _ _ _) with email_of_row.
  by eapply Forall2_row_of_emails.
Qed.

Lemma saved_page_reads_back_witness :
  let b := Email "b" "Weekly" "news@list.org" "" "hello" true ["UNREAD"] in
  ∃ d' rid,
    save_page_analysis sample_clock empty_db [b] sample_analysis None None = Some (d', rid) ∧
    get_emails_for_reanalysis d' rid = [without_labels b].
Proof.
  intros b.
  destruct (save_page_analysis sample_clock empty_db [b] sample_analysis None None)
    as [[d' rid]|] eqn:Hsave; [|by vm_compute in Hsave].
  exists d', rid. split; [done|].
  refine (proj2 (proj2 (saved_page_reads_back sample_clock empty_db [b] sample_analysis
                          None None d' rid _ Hsave))).
  split; simpl; first [lia | constructor].
Defined.

(** ** The pending run *)

(** X4.  [get_pending_run] answers [None] exactly when no run is pending;
    otherwise it answers a stored run whose status is pending and that is
    at least as recent as every other pending run, together with exactly
    the email rows of that run. *)
Theorem get_pending_run_most_recent d :
  (get_pending_run d = None ↔ Forall (fun r => status r ≠ pending) (analysis_runs d)) ∧
  (∀ run rows,
     get_pending_run d = Some (run, rows) →
     run ∈ analysis_runs d ∧ status run = pending ∧
     (∀ r, r ∈ analysis_runs d → status r = pending → created_at r <= created_at run) ∧
     rows = emails_of_run (run_id run) d ∧
     Forall (fun e => ea_run_id e = run_id run) rows).
Proof.
  split.
  - unfold get_pending_run. split.
    + destruct (latest _) as [r|] eqn:Hl; [done|]. intros _.
      apply latest_None in Hl. apply Forall_forall. intros r Hr Hst.
      assert (r ∈ List.filter is_pending (analysis_runs d)) as Hin.
      { apply list_elem_of_In, filter_In. split; [by apply list_elem_of_In|].
        unfold is_pending. by rewrite Hst. }
      rewrite Hl in Hin. by apply elem_of_nil in Hin.
    + intros Hall. destruct (latest _) as [r|] eqn:Hl; [|done].
      apply latest_In, list_elem_of_In, filter_In in Hl as [Hin Hp].
      apply list_elem_of_In in Hin.
      apply (proj1 (Forall_forall _ _) Hall) in Hin.
      unfold is_pending in Hp. by destruct (status r).
  - intros run rows Hpend.
    destruct (get_pending_run_inv _ _ _ Hpend) as (Hl & Hin & Hst & ->).
    split; [done|]. split; [done|]. split; [|split; [done|]].
    + intros r Hr Hrst. apply (latest_max _ _ _ Hl).
      apply list_elem_of_In, filter_In. split; [by apply list_elem_of_In|].
      unfold is_pending. by rewrite Hrst.
    + unfold emails_of_run. apply Forall_forall.
      intros e [_ He]%list_elem_of_In%filter_In. by apply Z.eqb_eq.
Qed.

Lemma get_pending_run_most_recent_witness :
  ∃ run rows,
    get_pending_run two_undecided = Some (run, rows) ∧
    status run = pending ∧ rows = emails_of_run (run_id run) two_undecided.
Proof.
  destruct (get_pending_run two_undecided) as [[run rows]|] eqn:Hp;
    [|by vm_compute in Hp].
  exists run, rows. split; [done|].
  destruct (proj2 (get_pending_run_most_recent two_undecided) run rows Hp)
    as (_ & Hst & _ & Hrows & _).
  done.
Defined.

Lemma update_status_not_pending s rid d :
  s ≠ pending → pending_run_id (update_status s rid d) ≠ Some rid.
Proof.
  intros Hs. unfold pending_run_id.
  destruct (get_pending_run (update_status s rid d)) as [[run rows]|] eqn:Hp; [|done].
  destruct (get_pending_run_inv _ _ _ Hp) as (_ & Hin & Hst & _).
  simpl. intros [= Hid]. simpl in Hin.
  apply list_elem_of_In, in_map_iff in Hin as (r0 & Hr0 & _).
  destruct (Z.eqb_spec (run_id r0) rid) as [Heq|Hne]; subst run.
  - simpl in Hst. done.
  - done.
Qed.

(** X5.  A run marked completed or superseded is no longer the pending
    run: [get_pending_run] never returns it again. *)
Theorem closed_run_is_not_pending d rid :
  pending_run_id (mark_run_completed d rid) ≠ Some rid ∧
  pending_run_id (mark_old_run_superseded d rid) ≠ Some rid.
Proof. split; by apply update_status_not_pending. Qed.

Lemma execute_user_decisions_not_pending w c d rid decisions :
  (∀ run rows, get_pending_run d = Some (run, rows) → run_id run ≠ rid) →
  execute_user_decisions w c d rid decisions = (false, d, []).
Proof.
  intros Hne. unfold execute_user_decisions.
  destruct (get_pending_run d) as [[run rows]|]; [|done].
  specialize (Hne run rows eq_refl).
  by destruct (Z.eqb_spec (run_id run) rid).
Qed.

(** X6.  Decisions are applied at most once per run: after
    [execute_user_decisions] has succeeded for a run id, any further call
    with that run id, whatever the decisions and whatever the mailbox,
    returns [False], calls nothing and changes nothing. *)
Theorem execute_user_decisions_once w c d rid decisions d' calls :
  execute_user_decisions w c d rid decisions = (true, d', calls) →
  ∀ w' c' decisions',
    execute_user_decisions w' c' d' rid decisions' = (false, d', []).
Proof.
  intros Hex w' c' decisions'.
  apply execute_user_decisions_inv in Hex
    as [(? & _)|(_ & run & rows & _ & _ & Hcase)]; [done|].
  apply execute_user_decisions_not_pending. intros run' rows' Hp Hid.
  assert (pending_run_id d' = Some rid) as Hpid
    by (unfold pending_run_id; rewrite Hp; simpl; by rewrite Hid).
  destruct Hcase as [(_ & _ & ->)|(_ & _ & _ & ->)];
    by apply (update_status_not_pending completed rid) in Hpid.
Qed.

Lemma execute_user_decisions_once_witness :
  let w := sample_world ["b"] ChatRaised true in
  let out := execute_user_decisions w sample_clock two_undecided 1 {["a" := "delete"]} in
  execute_user_decisions w sample_clock out.1.2 1 {["a" := "delete"]} = (false, out.1.2, []).
Proof.
  intros w out.
  apply (execute_user_decisions_once w sample_clock two_undecided 1 {["a" := "delete"]}
           out.1.2 out.2).
  vm_compute. reflexivity.
Defined.

(** ** What applying decisions sends and records *)

Lemma deleted_email_info_spec decisions emails t :
  t ∈ deleted_email_info decisions emails ↔
  ∃ row, row ∈ emails ∧ decisions !! ea_email_id row = Some "delete" ∧
         t = (ea_email_id row, ea_subject row, ea_sender row).
Proof.
  unfold deleted_email_info. rewrite list_elem_of_omap. split.
  - intros (row & Hrow & H). exists row. split; [done|].
    destruct (decisions !! ea_email_id row) as [dec|]; [|done].
    destruct (String.eqb_spec dec "delete") as [Heq|]; [|done].
    injection H as <-. by rewrite Heq.
  - intros (row & Hrow & Hdec & ->). exists row. split; [done|]. by rewrite Hdec.
Qed.

Lemma insert_deleted_spec now seq l :
  (fun x => (del_email_id x, del_subject x, del_sender x)) <$> insert_deleted now seq l = l ∧
  Forall (fun x => deleted_at x = now ∧ can_restore x = true) (insert_deleted now seq l).
Proof.
  revert seq; induction l as [|[[eid subj] snd] l IH]; intros seq; csimpl; [done|].
  destruct (IH (seq + 1)) as [-> Hall]. split; [done|]. by constructor.
Qed.

(** X7.  [execute_user_decisions] makes at most one call to
    [delete_emails], and every id it sends is the id of an email row of the
    run it was called for, mapped to delete by the decisions: keys of the
    decision map that are not emails of that run never reach the mailbox. *)
Theorem only_run_emails_are_deleted w c d rid decisions ok d' calls :
  execute_user_decisions w c d rid decisions = (ok, d', calls) →
  (length calls <= 1)%nat ∧
  ∀ ids b msg_id,
    (ids, b) ∈ calls → msg_id ∈ ids →
    decisions !! msg_id = Some "delete" ∧
    ∃ row, row ∈ email_analysis d ∧ ea_run_id row = rid ∧ ea_email_id row = msg_id.
Proof.
  intros Hex.
  assert (∀ msg_id, pending_run_id d = Some rid →
                    msg_id ∈ emails_to_delete d decisions →
                    decisions !! msg_id = Some "delete" ∧
                    ∃ row, row ∈ email_analysis d ∧ ea_run_id row = rid ∧
                           ea_email_id row = msg_id) as Hbatch.
  { unfold emails_to_delete, pending_run_id. intros msg_id.
    destruct (get_pending_run d) as [[run rows]|] eqn:Hp; [|done].
    simpl. intros [= Hid] Hin.
    change (List.map ?f ?l) with (f <$> l) in Hin.
    apply list_elem_of_fmap in Hin as (t & -> & Ht).
    apply deleted_email_info_spec in Ht as (row & Hrow & Hdec & ->). simpl.
    split; [done|]. exists row.
    apply get_pending_run_inv in Hp as (_ & _ & _ & ->).
    unfold emails_of_run in Hrow.
    apply list_elem_of_In, filter_In in Hrow as [Hrow Hr].
    split; [by apply list_elem_of_In|]. split; [|done].
    apply Z.eqb_eq in Hr. congruence. }
  apply execute_user_decisions_inv in Hex
    as [(_ & _ & [[_ ->]|(Hp & _ & _ & ->)])
       |(_ & run & rows & Hp & Hid & [(_ & -> & _)|(_ & _ & -> & _)])].
  - split; [simpl; lia|]. intros ids b m H. by apply elem_of_nil in H.
  - split; [simpl; lia|]. intros ids b m [= -> _]%list_elem_of_singleton Hm.
    by apply Hbatch.
  - split; [simpl; lia|]. intros ids b m H. by apply elem_of_nil in H.
  - split; [simpl; lia|]. intros ids b m [= -> _]%list_elem_of_singleton Hm.
    apply Hbatch; [|done]. unfold pending_run_id. rewrite Hp. simpl. by rewrite Hid.
Qed.

Lemma only_run_emails_are_deleted_witness :
  let w := sample_world ["b"] ChatRaised true in
  let out := execute_user_decisions w sample_clock two_undecided 1
               (<["zzz" := "delete"]> {["a" := "delete"]}) in
  out.2 = [(["a"], true)] ∧ (length out.2 <= 1)%nat.
Proof.
  intros w out. split; [vm_compute; reflexivity|].
  refine (proj1 (only_run_emails_are_deleted w sample_clock two_undecided 1
                   (<["zzz" := "delete"]> {["a" := "delete"]}) out.1.1 out.1.2 out.2 _)).
  vm_compute. reflexivity.
Defined.

(** X8.  What a successful [execute_user_decisions] leaves behind: the
    deletion log gains exactly one entry per email sent to the mailbox
    (its id, subject and sender, restorable, stamped now), every email row
    is what [update_user_decisions] makes of it, and exactly the runs with
    the given id have their status set to completed. *)
Theorem successful_decisions_are_recorded w c d rid decisions d' calls :
  execute_user_decisions w c d rid decisions = (true, d', calls) →
  (∃ logged,
     deleted_emails d' = deleted_emails d ++ logged ∧
     del_email_id <$> logged = emails_to_delete d decisions ∧
     Forall (fun x => deleted_at x = current_timestamp c ∧ can_restore x = true) logged) ∧
  email_analysis d' = decided (current_timestamp c) rid decisions <$> email_analysis d ∧
  analysis_runs d'
  = (fun r => if Z.eqb (run_id r) rid then set_status completed r else r)
      <$> analysis_runs d.
Proof.
  intros Hex.
  apply execute_user_decisions_inv in Hex
    as [(? & _)|(_ & run & rows & Hp & Hid & [(Hnil & _ & ->)|(_ & _ & _ & ->)])];
    [done| |].
  - split; [|split].
    + exists []. rewrite Hnil. by rewrite app_nil_r.
    + change (email_analysis (mark_run_completed ?x rid)) with (email_analysis x).
      by rewrite update_user_decisions_rows.
    + done.
  - split; [|split].
    + exists (insert_deleted (current_timestamp c) (seq_deleted_emails d)
                             (deleted_email_info decisions rows)).
      split; [done|].
      destruct (insert_deleted_spec (current_timestamp c) (seq_deleted_emails d)
                  (deleted_email_info decisions rows)) as [Hinfo Hall].
      split; [|done].
      unfold emails_to_delete. rewrite Hp.
      change (List.map ?f ?l) with (f <$> l).
      rewrite <- Hinfo at 2. rewrite <- list_fmap_compose. done.
    + change (email_analysis (mark_run_completed ?x rid)) with (email_analysis x).
      by rewrite update_user_decisions_rows.
    + done.
Qed.

Lemma successful_decisions_are_recorded_witness :
  let w := sample_world ["b"] ChatRaised true in
  let out := execute_user_decisions w sample_clock two_undecided 1
               (<["a" := "delete"]> {["b" := "keep"]}) in
  email_analysis out.1.2
  = decided (current_timestamp sample_clock) 1 (<["a" := "delete"]> {["b" := "keep"]})
      <$> email_analysis two_undecided.
Proof.
  intros w out.
  refine (proj1 (proj2 (successful_decisions_are_recorded w sample_clock two_undecided 1
                          (<["a" := "delete"]> {["b" := "keep"]}) out.1.2 out.2 _))).
  vm_compute. reflexivity.
Defined.

(** X9.  [delete_emails] reports success exactly when every single trash
    call succeeds; in particular it succeeds on the empty list, and one
    failing id fails the whole batch. *)
Theorem delete_emails_all_or_false w message_ids :
  delete_emails w message_ids = true ↔
  ∀ msg_id, msg_id ∈ message_ids → messages_trash w msg_id = true.
Proof.
  induction message_ids as [|m ms IH]; simpl.
  - split; [|done]. intros _ x H. by apply elem_of_nil in H.
  - destruct (messages_trash w m) eqn:Hm.
    + rewrite IH. split.
      * intros H x [->|Hx]%elem_of_cons; [done|by apply H].
      * intros H x Hx. apply H. by right.
    + split; [done|]. intros H. rewrite H in Hm; [done|left].
Qed.

(** ** The web surface *)

Lemma execute_user_decisions_success_rows w c d rid decisions d' calls :
  execute_user_decisions w c d rid decisions = (true, d', calls) →
  email_analysis d' = decided (current_timestamp c) rid decisions <$> email_analysis d ∧
  ∃ run, get_pending_run d = Some (run, emails_of_run rid d) ∧ run_id run = rid.
Proof.
  intros Hex.
  apply execute_user_decisions_inv in Hex
    as [(? & _)|(_ & run & rows & Hp & Hid & Hcase)]; [done|].
  split.
  - destruct Hcase as [(_ & _ & ->)|(_ & _ & _ & ->)];
      change (email_analysis (mark_run_completed ?x rid)) with (email_analysis x);
      by rewrite update_user_decisions_rows.
  - exists run. split; [|done].
    destruct (get_pending_run_inv _ _ _ Hp) as (_ & _ & _ & Hrows).
    by rewrite Hp, Hrows, Hid.
Qed.

Lemma selected_decisions_lookup (selected : list string) emails
    (acc : gmap string string) k :
  fold_left (fun decisions email_data =>
               <[ea_email_id email_data :=
                   if bool_decide (ea_email_id email_data ∈ selected)
                   then "delete" else "keep"]> decisions) emails acc !! k
  = if bool_decide (k ∈ ea_email_id <$> emails)
    then Some (if bool_decide (k ∈ selected) then "delete" else "keep")
    else acc !! k.
Proof.
  revert acc; induction emails as [|r emails IH]; intros acc; csimpl; [done|].
  rewrite IH. destruct (decide (k ∈ ea_email_id <$> emails)) as [Hin|Hnin].
  - rewrite (bool_decide_eq_true_2 _ Hin).
    assert (k ∈ ea_email_id r :: (ea_email_id <$> emails)) as Hc by (by right).
    by rewrite (bool_decide_eq_true_2 _ Hc).
  - rewrite (bool_decide_eq_false_2 _ Hnin).
    destruct (decide (ea_email_id r = k)) as [<-|Hne].
    + rewrite lookup_insert_eq.
      assert (ea_email_id r ∈ ea_email_id r :: (ea_email_id <$> emails)) as Hc by left.
      by rewrite (bool_decide_eq_true_2 _ Hc).
    + rewrite lookup_insert_ne by done.
      assert (k ∉ ea_email_id r :: (ea_email_id <$> emails)) as Hc
        by (intros [?|?]%elem_of_cons; congruence).
      by rewrite (bool_decide_eq_false_2 _ Hc).
Qed.

(** X10.  When the delete route answers with success, every email of the
    run carries a decision: delete if its id was ticked, keep otherwise;
    nothing of the run is left undecided, and only ticked ids were sent to
    the mailbox. *)
Theorem execute_deletions_decides_every_email w c d rid selected n d' calls :
  execute_deletions w c d rid selected = (successfully_deleted n, d', calls) →
  n = length selected ∧
  get_unprocessed_emails_for_run d' rid = [] ∧
  (∀ r, r ∈ emails_of_run rid d' →
        ea_user_decision r
        = Some (if bool_decide (ea_email_id r ∈ selected) then "delete" else "keep")) ∧
  (∀ ids b msg_id, (ids, b) ∈ calls → msg_id ∈ ids → msg_id ∈ selected).
Proof.
  unfold execute_deletions, get_pending_review.
  destruct selected as [|s0 sel]; [done|]. set (selected := s0 :: sel).
  destruct (get_pending_run d) as [[run emails]|] eqn:Hp; [|done].
  destruct (Z.eqb_spec (run_id run) rid) as [Hid|]; [|done]. simpl.
  destruct (execute_user_decisions w c d rid (selected_decisions selected emails))
    as [[[] d1] calls1] eqn:Hex; [|done].
  intros [= <- <- <-]. split; [done|].
  pose proof (get_pending_run_inv _ _ _ Hp) as (_ & _ & _ & Hemails).
  rewrite Hid in Hemails.
  destruct (execute_user_decisions_success_rows _ _ _ _ _ _ _ Hex) as [Hrows _].
  assert (∀ r0, r0 ∈ email_analysis d → ea_run_id r0 = rid →
                ea_user_decision
                  (decided (current_timestamp c) rid (selected_decisions selected emails) r0)
                = Some (if bool_decide (ea_email_id r0 ∈ selected)
                        then "delete" else "keep")) as Hdec.
  { intros r0 Hr0 Hrun. unfold decided. rewrite Hrun, Z.eqb_refl.
    unfold selected_decisions. rewrite selected_decisions_lookup.
    rewrite bool_decide_eq_true_2; [done|].
    apply list_elem_of_fmap. exists r0. split; [done|].
    rewrite Hemails. unfold emails_of_run.
    apply list_elem_of_In, filter_In. split; [by apply list_elem_of_In|].
    by apply Z.eqb_eq. }
  split; [|split].
  - unfold get_unprocessed_emails_for_run. rewrite Hrows.
    apply filter_all_false. apply Forall_fmap, Forall_forall. intros r0 Hr0. simpl.
    destruct (decided_keeps_ids (current_timestamp c) rid
                (selected_decisions selected emails) r0) as (_ & -> & _).
    destruct (Z.eqb_spec (ea_run_id r0) rid) as [Hrun|]; [|done]. simpl.
    by rewrite (Hdec r0 Hr0 Hrun).
  - intros r Hr. unfold emails_of_run in Hr.
    apply list_elem_of_In, filter_In in Hr as [Hr Hrun].
    rewrite Hrows in Hr. apply list_elem_of_In, list_elem_of_fmap in Hr as (r0 & -> & Hr0).
    destruct (decided_keeps_ids (current_timestamp c) rid
                (selected_decisions selected emails) r0) as (_ & Hk & Hk').
    rewrite Hk in Hrun. apply Z.eqb_eq in Hrun.
    rewrite Hk'. by apply Hdec.
  - intros ids b m Hcall Hm.
    apply execute_user_decisions_inv in Hex
      as [(? & _)|(_ & run' & rows' & Hp' & _ & [(_ & -> & _)|(_ & _ & -> & _)])];
      [done|by apply elem_of_nil in Hcall|].
    apply list_elem_of_singleton in Hcall as [= -> _].
    unfold emails_to_delete in Hm. rewrite Hp in Hm.
    change (List.map ?f ?l) with (f <$> l) in Hm.
    apply list_elem_of_fmap in Hm as (t & -> & Ht).
    apply deleted_email_info_spec in Ht as (row & Hrow & Hdel & ->). simpl.
    unfold selected_decisions in Hdel. rewrite selected_decisions_lookup in Hdel.
    rewrite bool_decide_eq_true_2 in Hdel
      by (apply list_elem_of_fmap; by exists row).
    destruct (decide (ea_email_id row ∈ selected)) as [Hin|Hnin]; [done|].
    by rewrite (bool_decide_eq_false_2 _ Hnin) in Hdel.
Qed.

Lemma execute_deletions_decides_every_email_witness :
  let out := execute_deletions (sample_world ["b"] ChatRaised true) sample_clock
                               two_undecided 1 ["a"] in
  out.1.1 = successfully_deleted 1 ∧
  get_unprocessed_emails_for_run out.1.2 1 = [].
Proof.
  intros out. split; [vm_compute; reflexivity|].
  refine (proj1 (proj2 (execute_deletions_decides_every_email
                          (sample_world ["b"] ChatRaised true) sample_clock
                          two_undecided 1 ["a"] 1 out.1.2 out.2 _))).
  vm_compute. reflexivity.
Defined.

(** X11.  The analyze route is [continue_from_last_page] in every store:
    its own test of [can_continue] changes nothing; without a resume token
    it starts from the first page. *)
Theorem start_analysis_is_continue w cfg c d :
  start_analysis w cfg c d = continue_from_last_page w cfg c d ∧
  (get_last_page_token d = None →
   start_analysis w cfg c d = run_paginated_analysis w cfg c d None).
Proof.
  unfold start_analysis, get_pagination_status, continue_from_last_page. simpl.
  destruct (get_last_page_token d) as [t|]; simpl; [|done].
  split; [done|]. done.
Qed.

(** ** Progress and statistics *)

Lemma filter_split_length {A} (P Q : A → bool) (l : list A) :
  (length (List.filter (fun x => P x && Q x) l)
   + length (List.filter (fun x => P x && negb (Q x)) l)
   = length (List.filter P l))%nat.
Proof.
  induction l as [|x l IH]; simpl; [done|].
  destruct (P x), (Q x); simpl; lia.
Qed.

Lemma filter_disjoint_length {A} (P Q1 Q2 Q : A → bool) (l : list A) :
  (∀ x, Q1 x = true → Q x = true) → (∀ x, Q2 x = true → Q x = true) →
  (∀ x, Q1 x = true → Q2 x = false) →
  (length (List.filter (fun x => P x && Q1 x) l)
   + length (List.filter (fun x => P x && Q2 x) l)
   <= length (List.filter (fun x => P x && Q x) l))%nat.
Proof.
  intros H1 H2 H12. induction l as [|x l IH]; simpl; [done|].
  destruct (P x); simpl; [|done].
  specialize (H1 x). specialize (H2 x). specialize (H12 x).
  destruct (Q1 x), (Q2 x), (Q x); simpl; try lia;
    try (by specialize (H1 eq_refl)); try (by specialize (H2 eq_refl));
    by specialize (H12 eq_refl).
Qed.

Lemma unprocessed_is_negation d rid :
  get_unprocessed_emails_for_run d rid
  = List.filter (fun e => Z.eqb (ea_run_id e) rid && negb (has_decision e)) (email_analysis d).
Proof. done. Qed.

(** X12.  [get_run_progress] answers [None] exactly for an unknown run id;
    otherwise its counts are consistent: processed and remaining add up to
    the total, delete and keep decisions together are at most the processed
    ones, and the run is reported complete exactly when no email of it is
    left undecided (a run without emails is complete). *)
Theorem get_run_progress_counts d rid :
  (get_run_progress d rid = None ↔ rid ∉ run_id <$> analysis_runs d) ∧
  (∀ p, get_run_progress d rid = Some p →
        rp_run_id p = rid ∧
        0 <= rp_processed_count p <= rp_total_emails p ∧
        rp_processed_count p + rp_remaining_count p = rp_total_emails p ∧
        rp_remaining_count p = Z.of_nat (length (get_unprocessed_emails_for_run d rid)) ∧
        0 <= rp_delete_decisions p ∧ 0 <= rp_keep_decisions p ∧
        rp_delete_decisions p + rp_keep_decisions p <= rp_processed_count p ∧
        (rp_is_complete p = true ↔ get_unprocessed_emails_for_run d rid = [])).
Proof.
  unfold get_run_progress. split.
  - destruct (List.find _ _) as [run|] eqn:Hf.
    + split; [done|]. intros Hn. exfalso. apply Hn.
      apply find_some in Hf as [Hin Hid]. apply list_elem_of_fmap.
      exists run. split; [by apply Z.eqb_eq in Hid|by apply list_elem_of_In].
    + split; [|done]. intros _ (r & -> & Hr)%list_elem_of_fmap.
      apply list_elem_of_In in Hr.
      pose proof (find_none _ _ Hf r Hr) as H. simpl in H.
      by rewrite Z.eqb_refl in H.
  - intros p. destruct (List.find _ _) as [run|]; [|done]. intros [= <-]. simpl.
    unfold count_rows.
    pose proof (filter_split_length (fun e => Z.eqb (ea_run_id e) rid) has_decision
                  (email_analysis d)) as Hsplit.
    pose proof (filter_disjoint_length (fun e => Z.eqb (ea_run_id e) rid)
                  (decision_is "delete") (decision_is "keep") has_decision
                  (email_analysis d)) as Hdk.
    cbv beta in Hsplit, Hdk.
    rewrite unprocessed_is_negation.
    split; [done|]. split; [lia|]. split; [lia|]. split; [lia|].
    split; [lia|]. split; [lia|]. split.
    + assert (length (List.filter (fun e => Z.eqb (ea_run_id e) rid && decision_is "delete" e)
                                  (email_analysis d))
              + length (List.filter (fun e => Z.eqb (ea_run_id e) rid && decision_is "keep" e)
                                    (email_analysis d))
              <= length (List.filter (fun e => Z.eqb (ea_run_id e) rid && has_decision e)
                                     (email_analysis d)))%nat; [|lia].
      apply Hdk.
      * intros x. unfold decision_is, has_decision. by destruct (ea_user_decision x).
      * intros x. unfold decision_is, has_decision. by destruct (ea_user_decision x).
      * intros x. unfold decision_is. destruct (ea_user_decision x) as [s|]; [|done].
        destruct (String.eqb_spec s "delete") as [->|]; done.
    + rewrite Z.eqb_eq. split.
      * intros Heq.
        destruct (List.filter (fun e => Z.eqb (ea_run_id e) rid && negb (has_decision e))
                              (email_analysis d)); [done|simpl in Hsplit; lia].
      * intros Hnil. rewrite Hnil in Hsplit. simpl in Hsplit. lia.
Qed.

Lemma get_run_progress_counts_witness :
  ∃ p, get_run_progress half_decided_run 1 = Some p ∧
       rp_processed_count p + rp_remaining_count p = rp_total_emails p ∧
       rp_remaining_count p = 1.
Proof.
  destruct (get_run_progress half_decided_run 1) as [p|] eqn:Hp; [|by vm_compute in Hp].
  exists p. split; [done|].
  destruct (proj2 (get_run_progress_counts half_decided_run 1) p Hp)
    as (_ & _ & Hsum & Hrem & _).
  split; [done|]. rewrite Hrem. vm_compute. reflexivity.
Defined.

(** X13.  [get_incomplete_run_info] reports on the very run that
    [get_pending_run] returns (and answers [None] when that does): its
    tokens and status are the run's, the unprocessed emails are the run's
    undecided rows, the counts add up, and it asks for a re-analysis
    exactly when an undecided row is left. *)
Theorem get_incomplete_run_info_matches_pending d :
  (get_incomplete_run_info d = None ↔ get_pending_run d = None) ∧
  (∀ i, get_incomplete_run_info d = Some i →
        get_pending_run d = Some (ir_run i, emails_of_run (ir_run_id i) d) ∧
        ir_run_id i = run_id (ir_run i) ∧
        status (ir_run i) = pending ∧
        ir_current_page_token i = current_page_token (ir_run i) ∧
        ir_next_page_token i = next_page_token (ir_run i) ∧
        ir_unprocessed_emails i = get_unprocessed_emails_for_run d (ir_run_id i) ∧
        ir_processed_count i + ir_remaining_count i = ir_total_emails_in_run i ∧
        ir_total_emails_in_run i = Z.of_nat (length (emails_of_run (ir_run_id i) d)) ∧
        (ir_needs_reanalysis i = true ↔ ir_unprocessed_emails i ≠ [])).
Proof.
  unfold get_incomplete_run_info, get_pending_run. split.
  - by destruct (latest _).
  - intros i. destruct (latest _) as [run|] eqn:Hl; [|done]. intros [= <-]. simpl.
    split; [done|]. split; [done|]. split.
    { apply latest_In, list_elem_of_In, filter_In in Hl as [_ Hp].
      unfold is_pending in Hp. by destruct (status run). }
    split; [done|]. split; [done|]. split; [done|]. split; [|split; [done|]].
    + unfold count_rows. rewrite unprocessed_is_negation.
      pose proof (filter_split_length (fun e => Z.eqb (ea_run_id e) (run_id run))
                    has_decision (email_analysis d)) as Hsplit.
      cbv beta in Hsplit. unfold emails_of_run. lia.
    + rewrite Z.ltb_lt. destruct (get_unprocessed_emails_for_run d (run_id run));
        simpl; split; (done || lia).
Qed.

Lemma get_incomplete_run_info_matches_pending_witness :
  ∃ i, get_incomplete_run_info half_decided_run = Some i ∧
       ir_needs_reanalysis i = true ∧
       ir_processed_count i + ir_remaining_count i = ir_total_emails_in_run i.
Proof.
  destruct (get_incomplete_run_info half_decided_run) as [i|] eqn:Hi;
    [|by vm_compute in Hi].
  exists i. split; [done|].
  destruct (proj2 (get_incomplete_run_info_matches_pending half_decided_run) i Hi)
    as (_ & _ & _ & _ & _ & Hun & Hsum & _ & Hneed).
  split; [|done]. apply Hneed. rewrite Hun.
  injection Hi as <-. vm_compute. discriminate.
Defined.

Lemma status_counts (rs : list run_row) :
  (length (List.filter (fun r => run_status_eqb (status r) completed) rs)
   + length (List.filter (fun r => run_status_eqb (status r) pending) rs)
   <= length rs)%nat.
Proof.
  induction rs as [|r rs IH]; simpl; [done|]. destruct (status r); simpl; lia.
Qed.

(** X14.  The pagination statistics are consistent: completed and pending
    pages together never exceed the total (superseded runs make up the
    rest), the emails pending review are exactly the rows without a
    decision, and there are no pending pages exactly when
    [get_pending_run] has nothing to return. *)
Theorem get_pagination_stats_counts d :
  let s := get_pagination_stats d in
  0 <= ps_completed_pages s ∧ 0 <= ps_pending_pages s ∧
  ps_completed_pages s + ps_pending_pages s <= ps_total_pages s ∧
  0 <= ps_total_processed_emails s <= ps_total_emails_all_runs s ∧
  ps_emails_pending_review s
  = Z.of_nat (length (List.filter (fun e => negb (has_decision e)) (email_analysis d))) ∧
  (ps_pending_pages s = 0 ↔ get_pending_run d = None).
Proof.
  simpl. unfold count_rows.
  pose proof (status_counts (analysis_runs d)) as Hst.
  pose proof (filter_split_length (fun _ : email_row => true) has_decision
                (email_analysis d)) as Hsplit.
  simpl in Hsplit.
  change (fun x : email_row => has_decision x) with has_decision in Hsplit.
  assert (List.filter (fun _ : email_row => true) (email_analysis d) = email_analysis d)
    as Hall by (apply filter_all_true, Forall_forall; done).
  rewrite Hall in *.
  split; [lia|]. split; [lia|]. split; [lia|]. split; [lia|]. split; [lia|].
  unfold get_pending_run.
  change (fun r => run_status_eqb (status r) pending) with is_pending.
  destruct (List.filter is_pending (analysis_runs d)) as [|r rs] eqn:Hf; simpl.
  - done.
  - split; [lia|]. destruct (latest rs); [destruct (Z.ltb _ _)|]; done.
Qed.

(** ** Fetching pages *)

Lemma _get_email_details_id w i e :
  _get_email_details w i = Some e → em_id e = i ∧ is_Some (messages_get w i).
Proof.
  unfold _get_email_details. destruct (messages_get w i); [|done].
  intros [= <-]. simpl. eauto.
Qed.

Lemma details_sublist w (ids : list string) :
  em_id <$> omap (_get_email_details w) ids `sublist_of` ids ∧
  Forall (fun e => is_Some (messages_get w (em_id e))) (omap (_get_email_details w) ids).
Proof.
  induction ids as [|i ids [IH1 IH2]]; csimpl; [split; [done|constructor]|].
  destruct (_get_email_details w i) as [e|] eqn:He; csimpl.
  - apply _get_email_details_id in He as [Hid Hm].
    split; [rewrite Hid; by apply sublist_skip|].
    constructor; [by rewrite Hid|done].
  - split; [by apply sublist_cons|done].
Qed.

(** X15.  A fetched page never invents emails: when the listing succeeds,
    the emails are those listed ids whose details could be fetched, in
    listing order, and the next-page token is the listing's; when the
    listing fails the page is empty with no token; [has_more] says exactly
    whether a token is there; an empty token asks for the first page; and
    [get_emails] is the email list of the first page. *)
Theorem get_email_page_lists w tok n days :
  let p := get_email_page w tok n days in
  page_has_more p = bool_decide (is_Some (page_next_page_token p)) ∧
  (messages_list w (token_given tok) n days = None → p = PageResult [] None false) ∧
  (∀ ids next,
     messages_list w (token_given tok) n days = Some (ids, next) →
     page_next_page_token p = next ∧
     em_id <$> page_emails p `sublist_of` ids ∧
     Forall (fun e => is_Some (messages_get w (em_id e))) (page_emails p)) ∧
  get_email_page w (Some "") n days = get_email_page w None n days ∧
  get_emails w n days = page_emails (get_email_page w None n days).
Proof.
  simpl. unfold get_email_page, get_emails. simpl.
  split; [|split; [|split; [|split; [done|]]]].
  - by destruct (messages_list w (token_given tok) n days) as [[ids next]|].
  - by intros ->.
  - intros ids next ->. simpl. split; [done|]. apply details_sublist.
  - by destruct (messages_list w None n days) as [[ids next]|].
Qed.

Lemma get_email_page_lists_witness :
  let w := sample_world ["p"; "b"] ChatRaised true in
  page_next_page_token (get_email_page w None 50 30) = Some "next" ∧
  em_id <$> page_emails (get_email_page w None 50 30) `sublist_of` ["p"; "b"].
Proof.
  intros w.
  destruct (proj1 (proj2 (proj2 (get_email_page_lists w None 50 30)))
              ["p"; "b"] (Some "next") eq_refl) as (H1 & H2 & _).
  done.
Defined.

(** ** Reading the engine's answer *)

Lemma string_length_append (a b : string) :
  String.length (String.append a b) = (String.length a + String.length b)%nat.
Proof. induction a as [|c a IH]; simpl; [done|]. by rewrite IH. Qed.

Lemma str_take_append (a b : string) :
  str_take (String.length a) (String.append a b) = a.
Proof. induction a as [|c a IH]; simpl; [by destruct b|]. by rewrite IH. Qed.

Lemma str_take_length n s : (String.length (str_take n s) <= n)%nat.
Proof.
  revert s; induction n as [|n IH]; intros [|c s]; simpl; try lia.
  specialize (IH s). lia.
Qed.

Lemma prefix_append (a b s : string) :
  String.prefix (String.append a b) s = true → String.prefix a s = true.
Proof.
  revert s; induction a as [|c a IH]; intros s; [by destruct s|].
  destruct s as [|c' s]; [done|].
  change (String.append (String c a) b) with (String c (String.append a b)).
  change (String.prefix (String c ?x) (String c' s))
    with (if ascii_dec c c' then String.prefix x s else false).
  destruct (ascii_dec c c'); [apply IH|done].
Qed.

(** X16.  The clean-up before parsing removes a Markdown fence: a stripped
    answer [```json BODY ```] is cleaned to BODY.  It does so without
    looking at the end of the text: after an opening [```json] the last
    three characters are dropped whatever they are.  An answer that does
    not open with a fence is only stripped. *)
Theorem clean_response_unwraps_fence text body :
  (str_strip text = String.append "```json" (String.append body "```") →
   clean_response text = body) ∧
  (str_strip text = String.append "```json" body →
   clean_response text = str_take (String.length body - 3) body) ∧
  (String.prefix "```" (str_strip text) = false → clean_response text = str_strip text).
Proof.
  assert (∀ b, str_strip text = String.append "```json" b →
               clean_response text = str_take (String.length b - 3) b) as Hgen.
  { intros b Hs. unfold clean_response. rewrite Hs.
    change (String.prefix "```json" (String.append "```json" b))
      with (String.prefix "" b).
    assert (String.prefix "" b = true) as -> by (by destruct b).
    unfold str_slice. rewrite string_length_append.
    change (str_drop 7 (String.append "```json" b)) with b.
    simpl String.length. done. }
  split; [|split; [apply Hgen|]].
  - intros Hs. rewrite (Hgen _ Hs), string_length_append. simpl String.length.
    replace (String.length body + 3 - 3)%nat with (String.length body) by lia.
    apply str_take_append.
  - intros Hp. unfold clean_response.
    assert (String.prefix "```json" (str_strip text) = false) as ->; [|by rewrite Hp].
    destruct (String.prefix "```json" (str_strip text)) eqn:Hj; [|done].
    apply (prefix_append "```" "json") in Hj. congruence.
Qed.

Lemma clean_response_unwraps_fence_witness :
  clean_response "  ```json{}```  " = "{}" ∧
  clean_response "```json{}" = "" ∧
  clean_response " {} " = "{}".
Proof.
  split; [|split].
  - apply (proj1 (clean_response_unwraps_fence "  ```json{}```  " "{}")). reflexivity.
  - apply (proj1 (proj2 (clean_response_unwraps_fence "```json{}" "{}"))). reflexivity.
  - apply (proj2 (proj2 (clean_response_unwraps_fence " {} " ""))). reflexivity.
Defined.

Lemma existsb_elem (l : list json) (k : string) :
  JStr k ∈ l → existsb (fun e => py_eq_str e k) l = true.
Proof.
  intros H. apply existsb_exists. exists (JStr k).
  split; [by apply list_elem_of_In|]. simpl. apply String.eqb_refl.
Qed.

(** X17.  The validation of the engine's answer accepts more than dicts: a
    JSON list that contains the two words passes.  No such analysis is ever
    stored: [save_page_analysis] and [save_analysis_run] raise on anything
    that is not a dict, and [run_paginated_analysis] then returns [None]
    with the store untouched. *)
Theorem non_dict_analysis_stores_nothing :
  (∀ w text l,
     json_loads w (clean_response text) = Some (JArr l) →
     JStr "analysis" ∈ l → JStr "summary" ∈ l →
     _parse_analysis_response w (Some text) = Some (JArr l)) ∧
  (∀ c d emails analysis cur nxt,
     (∀ kv, analysis ≠ JObj kv) →
     save_page_analysis c d emails analysis cur nxt = None ∧
     save_analysis_run c d emails analysis = None) ∧
  (∀ w cfg c d tok days rules analysis,
     gmail_days_to_analyze cfg = Some days →
     config_deletion_rules cfg = Some rules →
     analyze_emails w (filtered_page w cfg tok days) rules = Some analysis →
     (∀ kv, analysis ≠ JObj kv) →
     run_paginated_analysis w cfg c d tok = (None, d)).
Proof.
  assert (∀ c d emails analysis cur nxt,
            (∀ kv, analysis ≠ JObj kv) →
            save_page_analysis c d emails analysis cur nxt = None ∧
            save_analysis_run c d emails analysis = None) as Hsave.
  { intros c d emails analysis cur nxt Hn.
    unfold save_page_analysis, save_analysis_run.
    destruct analysis; try done. by destruct (Hn kv). }
  split; [|split; [exact Hsave|]].
  - intros w text l Hl Ha Hs. unfold _parse_analysis_response. rewrite Hl. simpl.
    by rewrite !existsb_elem.
  - intros w cfg c d tok days rules analysis Hd Hr Han Hn.
    destruct (run_paginated_analysis w cfg c d tok) as [r d'] eqn:Hrun.
    apply run_paginated_analysis_inv in Hrun
      as [[-> ->]|(days' & rules' & a & rid & Hd' & Hr' & _ & Ha & Hs & _)]; [done|].
    assert (days' = days) as -> by congruence.
    assert (rules' = rules) as -> by congruence.
    assert (a = analysis) as -> by congruence.
    destruct (Hsave c d (filtered_page w cfg tok days) analysis tok
                (page_next_page_token
                   (get_email_page w tok (default 50 (pagination_page_size cfg)) days)) Hn)
      as [Hnone _].
    congruence.
Qed.

Lemma non_dict_analysis_stores_nothing_witness :
  _parse_analysis_response list_answer_world (Some "[]")
  = Some (JArr [JStr "analysis"; JStr "summary"]) ∧
  run_paginated_analysis list_answer_world sample_config sample_clock one_pending_run None
  = (None, one_pending_run).
Proof.
  split.
  - apply (proj1 non_dict_analysis_stores_nothing list_answer_world "[]").
    + reflexivity.
    + left.
    + right. left.
  - apply (proj2 (proj2 non_dict_analysis_stores_nothing) list_answer_world sample_config
             sample_clock one_pending_run None 30
             (DeletionRules (Some ["boss@corp.com"]) None)
             (JArr [JStr "analysis"; JStr "summary"])).
    + reflexivity.
    + reflexivity.
    + vm_compute. reflexivity.
    + discriminate.
Defined.

(** ** The fallback and the prompt *)

Lemma fallback_entries_exact (emails : list email) (acc : gmap string json) k :
  fold_left (fun acc e => <[em_id e := fallback_entry]> acc) emails acc !! k
  = if bool_decide (k ∈ em_id <$> emails) then Some fallback_entry else acc !! k.
Proof.
  revert acc; induction emails as [|x emails IH]; intros acc; csimpl; [done|].
  rewrite IH. destruct (decide (k ∈ em_id <$> emails)) as [Hin|Hnin].
  - rewrite (bool_decide_eq_true_2 _ Hin).
    assert (k ∈ em_id x :: (em_id <$> emails)) as Hc by (by right).
    by rewrite (bool_decide_eq_true_2 _ Hc).
  - rewrite (bool_decide_eq_false_2 _ Hnin).
    destruct (decide (em_id x = k)) as [<-|Hne].
    + rewrite lookup_insert_eq.
      assert (em_id x ∈ em_id x :: (em_id <$> emails)) as Hc by left.
      by rewrite (bool_decide_eq_true_2 _ Hc).
    + rewrite lookup_insert_ne by done.
      assert (k ∉ em_id x :: (em_id <$> emails)) as Hc
        by (intros [?|?]%elem_of_cons; congruence).
      by rewrite (bool_decide_eq_false_2 _ Hc).
Qed.

(** X18.  The fallback analysis is exactly this: a map whose keys are the
    ids of the given emails and nothing else, every value the review /
    other / 0.5 entry, and a summary that counts every email as needing
    review and none as deletion or keep. *)
Theorem fallback_analysis_exact emails :
  ∃ entries summary,
    _create_fallback_analysis emails
    = JObj (<["analysis" := JObj entries]> (<["summary" := JObj summary]> ∅)) ∧
    (∀ k, is_Some (entries !! k) ↔ k ∈ em_id <$> emails) ∧
    (∀ k v, entries !! k = Some v → v = fallback_entry) ∧
    summary !! "total_emails" = Some (JInt (Z.of_nat (length emails))) ∧
    summary !! "needs_review" = Some (JInt (Z.of_nat (length emails))) ∧
    summary !! "recommended_deletions" = Some (JInt 0) ∧
    summary !! "keep" = Some (JInt 0).
Proof.
  eexists _, _. split; [reflexivity|].
  split; [|split].
  - intros k. rewrite fallback_entries_exact, lookup_empty.
    case_bool_decide as Hk.
    + split; [done|]. intros _. by eexists.
    + split; [|done]. by intros [x Hx].
  - intros k v. rewrite fallback_entries_exact, lookup_empty.
    case_bool_decide; [by intros [= <-]|done].
  - rewrite lookup_insert_eq.
    do 2 rewrite (lookup_insert_ne _ _ "needs_review") by done.
    rewrite lookup_insert_eq.
    rewrite (lookup_insert_ne _ _ "recommended_deletions") by done.
    rewrite lookup_insert_eq.
    do 3 rewrite (lookup_insert_ne _ _ "keep") by done.
    by rewrite lookup_insert_eq.
Qed.

(** X19.  The engine sees at most the first 30 emails of a batch, each
    with at most 150 characters of snippet; unless the call raises, the
    analysis returned does not depend on any email after the thirtieth. *)
Theorem analyze_emails_reads_first_30 w emails rules :
  (length (prompt_emails (prompt_for emails rules)) <= 30)%nat ∧
  Forall (fun s => (String.length (es_snippet s) <= 150)%nat)
         (prompt_emails (prompt_for emails rules)) ∧
  (∀ emails',
     firstn 30 emails' = firstn 30 emails →
     chat_completion w (prompt_for emails rules) ≠ ChatRaised →
     analyze_emails w emails' rules = analyze_emails w emails rules).
Proof.
  unfold prompt_for, _create_analysis_prompt; cbn [prompt_emails]. split; [|split].
  - rewrite length_map. apply firstn_le_length.
  - change (List.map ?f ?l) with (f <$> l). apply Forall_fmap, Forall_forall.
    intros e _. unfold summarize. cbn [es_snippet]. apply str_take_length.
  - intros emails' Heq Hchat. unfold analyze_emails. rewrite Heq.
    by destruct (chat_completion w _).
Qed.

Lemma analyze_emails_reads_first_30_witness :
  let b := Email "b" "Weekly" "news@list.org" "" "hello" true [] in
  let w := sample_world ["b"] (ChatContent (Some "ok")) true in
  analyze_emails w (replicate 30 b ++ [b]) (DeletionRules None None)
  = analyze_emails w (replicate 30 b) (DeletionRules None None).
Proof.
  intros b w.
  apply (proj2 (proj2 (analyze_emails_reads_first_30 w (replicate 30 b)
                         (DeletionRules None None)))).
  - vm_compute. reflexivity.
  - discriminate.
Defined.

(** ** The daily summary *)

Lemma Forall2_elem_of_l {A B} (R : A → B → Prop) l k x :
  Forall2 R l k → x ∈ l → ∃ y, y ∈ k ∧ R x y.
Proof.
  induction 1 as [|a b l k Hab _ IH]; intros Hx; [by apply elem_of_nil in Hx|].
  apply elem_of_cons in Hx as [->|Hx].
  - exists b. split; [left|done].
  - destruct (IH Hx) as (y & Hy & HR). exists y. split; [by right|done].
Qed.

Lemma categorize_inv analysis e x :
  categorize analysis e = Some x →
  ∃ a, entry_of analysis e = Some a ∧
       ((truthy a = false ∧ x = None) ∨
        (truthy a = true ∧ ∃ act,
           py_getitem a "action" = Some act ∧
           x = Some (if py_eq_str act "delete" then to_delete
                     else if py_eq_str act "review" then to_review else to_keep, (e, a)))).
Proof.
  unfold categorize, entry_of.
  destruct (py_getitem analysis "analysis") as [entries|]; [|done]. simpl.
  destruct (py_get entries (em_id e) JNull) as [a|]; [|done]. simpl.
  intros H. exists a. split; [done|].
  destruct (truthy a); [right|left; by injection H as <-].
  split; [done|]. destruct (py_getitem a "action") as [act|]; [|done].
  exists act. split; [done|]. by injection H as <-.
Qed.

Lemma of_class_elem k cats p :
  p ∈ of_class k cats ↔
  ∃ k', Some (k', p) ∈ cats ∧
        match k, k' with
        | to_delete, to_delete | to_review, to_review | to_keep, to_keep => True
        | _, _ => False
        end.
Proof.
  unfold of_class. rewrite list_elem_of_omap. split.
  - intros ([[k' p']|] & Hin & H); [|done].
    exists k'. destruct k, k'; try done; injection H as <-; done.
  - intros (k' & Hin & H). exists (Some (k', p)). split; [done|].
    destruct k, k'; done.
Qed.

(** X20.  When the daily summary is produced, its three lists sort the
    emails that have a non-empty entry by the entry's action: delete,
    review, and everything else under keep; an email without an entry is in
    none of them. *)
Theorem generate_daily_summary_partition emails analysis s :
  generate_daily_summary emails analysis = Some s →
  ∀ e a,
    ((e, a) ∈ summary_delete_emails s ↔
     e ∈ emails ∧ entry_of analysis e = Some a ∧ truthy a = true ∧
     ∃ act, py_getitem a "action" = Some act ∧ py_eq_str act "delete" = true) ∧
    ((e, a) ∈ summary_review_emails s ↔
     e ∈ emails ∧ entry_of analysis e = Some a ∧ truthy a = true ∧
     ∃ act, py_getitem a "action" = Some act ∧
            py_eq_str act "delete" = false ∧ py_eq_str act "review" = true) ∧
    ((e, a) ∈ summary_keep_emails s ↔
     e ∈ emails ∧ entry_of analysis e = Some a ∧ truthy a = true ∧
     ∃ act, py_getitem a "action" = Some act ∧
            py_eq_str act "delete" = false ∧ py_eq_str act "review" = false).
Proof.
  unfold generate_daily_summary. intros H.
  destruct (py_get analysis "summary" (JObj ∅)) as [summary|]; [|done]. simpl in H.
  destruct (mapM (categorize analysis) emails) as [cats|] eqn:Hcats; [|done].
  simpl in H.
  destruct (py_get summary "total_emails" (JInt 0)); [|done]. simpl in H.
  destruct (mapM _ (take 10 _)); [|done]. simpl in H.
  destruct (mapM _ (take 5 _)); [|done]. simpl in H.
  injection H as <-. simpl.
  apply mapM_Some in Hcats.
  assert (∀ k e a,
            Some (k, (e, a)) ∈ cats ↔
            e ∈ emails ∧ entry_of analysis e = Some a ∧ truthy a = true ∧
            ∃ act, py_getitem a "action" = Some act ∧
                   k = (if py_eq_str act "delete" then to_delete
                        else if py_eq_str act "review" then to_review else to_keep))
    as Hcat.
  { intros k e a. split.
    - intros Hin.
      destruct (Forall2_elem_of_r _ _ _ _ Hcats Hin) as (e' & He' & Hc).
      apply categorize_inv in Hc as (a' & Hent & [[_ ?]|(Ht & act & Hact & Heq)]);
        [done|].
      injection Heq as -> -> ->. eauto 10.
    - intros (He & Hent & Ht & act & Hact & ->).
      destruct (Forall2_elem_of_l _ _ _ _ Hcats He) as (x & Hx & Hc).
      apply categorize_inv in Hc as (a' & Hent' & [[Ht' _]|(_ & act' & Hact' & ->)]).
      + congruence.
      + assert (a' = a) as -> by congruence.
        assert (act' = act) as -> by congruence. done. }
  intros e a. split; [|split]; rewrite of_class_elem; split.
  - intros (k & Hin & Hk). destruct k; try done.
    apply Hcat in Hin as (He & Hent & Ht & act & Hact & Heq).
    repeat (split; [done|]). exists act. split; [done|].
    destruct (py_eq_str act "delete"); [done|]. by destruct (py_eq_str act "review").
  - intros (He & Hent & Ht & act & Hact & Hd). exists to_delete. split; [|done].
    apply Hcat. repeat (split; [done|]). exists act. by rewrite Hd.
  - intros (k & Hin & Hk). destruct k; try done.
    apply Hcat in Hin as (He & Hent & Ht & act & Hact & Heq).
    repeat (split; [done|]). exists act. split; [done|].
    destruct (py_eq_str act "delete"); [done|]. by destruct (py_eq_str act "review").
  - intros (He & Hent & Ht & act & Hact & Hd & Hr). exists to_review. split; [|done].
    apply Hcat. repeat (split; [done|]). exists act. by rewrite Hd, Hr.
  - intros (k & Hin & Hk). destruct k; try done.
    apply Hcat in Hin as (He & Hent & Ht & act & Hact & Heq).
    repeat (split; [done|]). exists act. split; [done|].
    destruct (py_eq_str act "delete"); [done|]. by destruct (py_eq_str act "review").
  - intros (He & Hent & Ht & act & Hact & Hd & Hr). exists to_keep. split; [|done].
    apply Hcat. repeat (split; [done|]). exists act. by rewrite Hd, Hr.
Qed.

Lemma generate_daily_summary_partition_witness :
  let b := Email "b" "Weekly" "news@list.org" "" "hello" true [] in
  ∃ s, generate_daily_summary [b] sample_analysis = Some s ∧
       ∀ a, (b, a) ∈ summary_delete_emails s →
            entry_of sample_analysis b = Some a.
Proof.
  intros b.
  destruct (generate_daily_summary [b] sample_analysis) as [s|] eqn:Hs;
    [|by vm_compute in Hs].
  exists s. split; [done|]. intros a Ha.
  destruct (proj1 (proj1 (generate_daily_summary_partition [b] sample_analysis s Hs b a)) Ha)
    as (_ & Hent & _).
  exact Hent.
Defined.

(** ** The resume point after a page *)

Lemma latest_snoc rs r :
  Forall (fun x => created_at x < created_at r) rs → latest (rs ++ [r]) = Some r.
Proof.
  induction 1 as [|x rs Hx _ IH]; simpl; [done|].
  rewrite IH. by destruct (Z.ltb_spec (created_at x) (created_at r)); [|lia].
Qed.

Lemma latest_filter_snoc (P : run_row → bool) rs r :
  Forall (fun x => created_at x < created_at r) rs →
  latest (List.filter P (rs ++ [r]))
  = if P r then Some r else latest (List.filter P rs).
Proof.
  intros Hall. rewrite List.filter_app. simpl. destruct (P r).
  - apply latest_snoc. apply Forall_forall.
    intros x [Hx _]%list_elem_of_In%filter_In.
    by apply (proj1 (Forall_forall _ _) Hall), list_elem_of_In.
  - by rewrite app_nil_r.
Qed.

Lemma save_page_analysis_rows_of_run c d emails analysis cur nxt d' rid :
  store_ok d →
  save_page_analysis c d emails analysis cur nxt = Some (d', rid) →
  Forall2 (row_of analysis rid) emails (emails_of_run rid d').
Proof.
  intros Hok Hsave.
  pose proof Hsave as (counts & ps & _ & Hc)%save_page_analysis_inv.
  apply commit_run_inv in Hc as (Hrid & _).
  apply save_page_analysis_spec in Hsave
    as (_ & rows & _ & _ & _ & _ & _ & Hrows & Hrel & _).
  assert (emails_of_run rid d' = rows) as ->; [|done].
  unfold emails_of_run. rewrite Hrows, List.filter_app.
  rewrite filter_all_false, filter_all_true; [done| |].
  - eapply Forall2_Forall_r; [exact Hrel|]. apply Forall_true.
    intros e r (-> & _). apply Z.eqb_refl.
  - destruct Hok as [_ H1 _ _ _ H5 _ _].
    eapply Forall_impl; [exact H5|]. simpl.
    intros r (run & -> & Hin)%list_elem_of_fmap.
    apply (proj1 (Forall_forall _ _) H1) in Hin. apply Z.eqb_neq. lia.
Qed.

Lemma run_paginated_analysis_success w cfg c d tok res d' :
  run_paginated_analysis w cfg c d tok = (Some res, d') →
  ∃ days,
    gmail_days_to_analyze cfg = Some days ∧
    res_emails res = filtered_page w cfg tok days ∧
    res_next_page_token res
    = page_next_page_token
        (get_email_page w tok (default 50 (pagination_page_size cfg)) days) ∧
    res_has_more_pages res
    = page_has_more (get_email_page w tok (default 50 (pagination_page_size cfg)) days) ∧
    save_page_analysis c d (res_emails res) (res_analysis res) tok (res_next_page_token res)
    = Some (d', res_run_id res).
Proof.
  unfold run_paginated_analysis, filtered_page.
  destruct (gmail_days_to_analyze cfg) as [days|]; [|done].
  destruct (page_emails _) as [|e0 es] eqn:Hpage; [done|].
  destruct (_apply_preprocessing_filters cfg (e0 :: es)) as [|f0 fs] eqn:Hfilt; [done|].
  destruct (config_deletion_rules cfg) as [rules|]; [|done].
  destruct (analyze_emails w (f0 :: fs) rules) as [analysis|]; [|done].
  destruct (truthy analysis); simpl; [|done].
  destruct (save_page_analysis _ _ _ _ _ _) as [[d1 rid]|] eqn:Hsave; [|done].
  destruct (generate_daily_summary _ _); [|done].
  intros [= <- <-]. exists days. simpl. rewrite Hpage, Hfilt. done.
Qed.

(** X21.  In a sound store whose runs are all older than the clock, a
    successful page run becomes the pending run: [get_pending_run] returns
    the new run with exactly one row per returned email, in order; the run
    records the token it was fetched with and the next one.  The resume
    point moves to the page's next token when there is one, and stays where
    it was when the page was the last (the new run stores no token). *)
Theorem page_run_becomes_pending w cfg c d tok res d' :
  store_ok d →
  Forall (fun r => created_at r < current_timestamp c) (analysis_runs d) →
  run_paginated_analysis w cfg c d tok = (Some res, d') →
  (∃ run,
     get_pending_run d' = Some (run, emails_of_run (res_run_id res) d') ∧
     run_id run = res_run_id res ∧
     current_page_token run = tok ∧
     next_page_token run = res_next_page_token res) ∧
  ea_email_id <$> emails_of_run (res_run_id res) d' = em_id <$> res_emails res ∧
  Forall (fun r => ea_user_decision r = None) (emails_of_run (res_run_id res) d') ∧
  get_last_page_token d'
  = (match res_next_page_token res with
     | Some t => Some t
     | None => get_last_page_token d
     end) ∧
  res_has_more_pages res = bool_decide (is_Some (res_next_page_token res)).
Proof.
  intros Hok Hold Hrun.
  apply run_paginated_analysis_success in Hrun as (days & _ & _ & Hnext & Hmore & Hsave).
  pose proof (save_page_analysis_rows_of_run _ _ _ _ _ _ _ _ Hok Hsave) as Hrows.
  apply save_page_analysis_inv in Hsave as (counts & ps & _ & Hc).
  apply commit_run_inv in Hc
    as (_ & (run & Hruns & Hid & Hst & Hcur & Hnxt & Hat) & _ & _).
  assert (Forall (fun x => created_at x < created_at run) (analysis_runs d)) as Hnew
    by (by rewrite Hat).
  split; [|split; [|split; [|split]]].
  - exists run. unfold get_pending_run. rewrite Hruns.
    rewrite (latest_filter_snoc is_pending _ _ Hnew).
    unfold is_pending at 1. rewrite Hst. simpl. by rewrite Hid.
  - clear -Hrows. induction Hrows as [|e r es rs (_ & Hr & _) _ IH]; csimpl; [done|].
    by rewrite Hr, IH.
  - eapply Forall2_Forall_r; [exact Hrows|]. apply Forall_true.
    by intros e r (_ & _ & _ & _ & _ & _ & _ & ? & _).
  - unfold get_last_page_token. rewrite Hruns.
    rewrite (latest_filter_snoc _ _ _ Hnew).
    unfold is_pending at 1. rewrite Hst, Hnxt. simpl.
    by destruct (res_next_page_token res).
  - rewrite Hmore, Hnext. unfold get_email_page.
    by destruct (messages_list w _ _ _) as [[ids next]|].
Qed.

Lemma one_pending_run_is_older :
  Forall (fun r => created_at r < current_timestamp sample_clock)
         (analysis_runs one_pending_run).
Proof. repeat constructor. Qed.

Lemma page_run_becomes_pending_witness :
  ∃ res d',
    run_paginated_analysis (sample_world ["b"] (ChatContent (Some "ok")) true) sample_config
                           sample_clock one_pending_run (Some "abc") = (Some res, d') ∧
    get_last_page_token d' = Some "next" ∧
    pending_run_id d' = Some 2.
Proof.
  destruct (run_paginated_analysis (sample_world ["b"] (ChatContent (Some "ok")) true)
              sample_config sample_clock one_pending_run (Some "abc"))
    as [[res|] d'] eqn:Hrun; [|by vm_compute in Hrun].
  exists res, d'. split; [done|].
  destruct (page_run_becomes_pending _ _ _ _ _ _ _ store_ok_one_pending_run
              one_pending_run_is_older Hrun)
    as ((run & Hp & Hid & _) & _ & _ & Hlast & _).
  vm_compute in Hrun. injection Hrun as <- <-.
  split.
  - rewrite Hlast. reflexivity.
  - unfold pending_run_id. rewrite Hp. simpl. by rewrite Hid.
Defined.


(** ** The merge *)

Lemma bind_small_int z v :
  bind (JInt z) = Some v → v = SInt z.
Proof. simpl. destruct (_ && _)%bool; [by intros [= <-]|done]. Qed.

Lemma insert_emails_email_ids rid seq ps :
  ea_email_id <$> insert_emails rid seq ps = (fun p => em_id (p_email p)) <$> ps ∧
  Forall (fun r => ea_run_id r = rid ∧ ea_user_decision r = None ∧ ea_processed_at r = None)
         (insert_emails rid seq ps).
Proof.
  revert seq; induction ps as [|p ps IH]; intros seq; csimpl; [done|].
  destruct (IH (seq + 1)) as [-> Hall]. split; [done|]. by constructor.
Qed.

(** X22.  A successful merge is one new pending run and nothing else: the
    run carries the two tokens and, as its total, the number of re-analysed
    plus new emails; its rows are the re-analysed emails followed by the
    new ones, in order, all undecided; the runs, rows and deletion log
    already stored are left as they are (the old run is not superseded by
    the merge itself). *)
Theorem merge_creates_one_run c d reanalyzed analysis emails cur nxt d' rid :
  merge_reanalysis_with_new_page c d reanalyzed analysis emails cur nxt = Some (d', rid) →
  ∃ run rows,
    analysis_runs d' = analysis_runs d ++ [run] ∧
    run_id run = rid ∧ status run = pending ∧
    current_page_token run = cur ∧ next_page_token run = nxt ∧
    total_emails run = SInt (Z.of_nat (length reanalyzed + length emails)) ∧
    email_analysis d' = email_analysis d ++ rows ∧
    ea_email_id <$> rows
    = ((fun e => em_id (re_email e)) <$> reanalyzed) ++ (em_id <$> emails) ∧
    Forall (fun r => ea_run_id r = rid ∧ ea_user_decision r = None ∧
                     ea_processed_at r = None) rows ∧
    deleted_emails d' = deleted_emails d.
Proof.
  unfold merge_reanalysis_with_new_page. intros H.
  repeat match type of H with
         | mbind _ ?m = Some _ => destruct m eqn:?; cbn [mbind option_bind] in H; [|done]
         end.
  injection H as H.
  match goal with
  | Ht : bind (JInt _) = Some _ |- _ => apply bind_small_int in Ht; subst
  end.
  match goal with
  | Hr : mapM _ reanalyzed = Some ?ps, Hn : mapM _ emails = Some ?nps |- _ =>
      apply mapM_Some in Hr; apply mapM_Some in Hn;
      destruct (insert_emails_email_ids (seq_analysis_runs d + 1) (seq_email_analysis d)
                  (ps ++ nps)) as [Hids Hall];
      assert ((fun p => em_id (p_email p)) <$> ps
              = (fun e => em_id (re_email e)) <$> reanalyzed) as Hps;
      [clear -Hr; induction Hr as [|e p es ps' Hp _ IH]; csimpl; [done|];
       rewrite IH; f_equal;
       destruct (recommendation _ _) as [t|]; cbn [mbind option_bind] in Hp; [|done];
       by rewrite (bind_params_email _ _ _ Hp)
      |assert ((fun p => em_id (p_email p)) <$> nps = em_id <$> emails) as Hnps;
       [clear -Hn; induction Hn as [|e p es ps' Hp _ IH]; csimpl; [done|];
        rewrite IH; by rewrite (page_email_params_email _ _ _ Hp)|]]
  end.
  eexists _, _. split; [reflexivity|]. simpl.
  repeat (split; [done|]). split; [by rewrite Nat2Z.inj_add|].
  split; [done|]. split; [|done].
  by rewrite Hids, fmap_app, Hps, Hnps.
Qed.

Lemma merge_creates_one_run_witness :
  let a := Email "a" "Sale" "shop@example.com" "Mon" "50% off" true [] in
  let b := Email "b" "Weekly" "news@list.org" "" "hello" true [] in
  ∃ d' rid rows,
    merge_reanalysis_with_new_page sample_clock one_pending_run [Reanalyzed a ∅]
      sample_analysis [b] (Some "abc") None = Some (d', rid) ∧
    email_analysis d' = email_analysis one_pending_run ++ rows ∧
    ea_email_id <$> rows = ["a"; "b"].
Proof.
  intros a b.
  destruct (merge_reanalysis_with_new_page sample_clock one_pending_run [Reanalyzed a ∅]
              sample_analysis [b] (Some "abc") None) as [[d' rid]|] eqn:Hm;
    [|by vm_compute in Hm].
  destruct (merge_creates_one_run _ _ _ _ _ _ _ _ _ Hm)
    as (run & rows & _ & _ & _ & _ & _ & _ & Hrows & Hids & _).
  by exists d', rid, rows.
Defined.

(** ** The protected-sender filter *)

Lemma is_substring_empty s : is_substring "" s = true.
Proof. by destruct s. Qed.

(** X23.  The protected-sender filter keeps, in order, exactly the emails
    whose sender contains none of the configured substrings; filtering
    twice changes nothing; without configured senders every email passes;
    and an empty string among the configured senders protects everybody:
    nothing passes. *)
Theorem preprocessing_filter_keeps_unprotected cfg emails :
  _apply_preprocessing_filters cfg emails `sublist_of` emails ∧
  (∀ e, e ∈ _apply_preprocessing_filters cfg emails ↔
        e ∈ emails ∧ sender_is_protected (configured_protected_senders cfg) e = false) ∧
  _apply_preprocessing_filters cfg (_apply_preprocessing_filters cfg emails)
  = _apply_preprocessing_filters cfg emails ∧
  (configured_protected_senders cfg = [] → _apply_preprocessing_filters cfg emails = emails) ∧
  ("" ∈ configured_protected_senders cfg → _apply_preprocessing_filters cfg emails = []).
Proof.
  unfold _apply_preprocessing_filters.
  fold (configured_protected_senders cfg).
  split; [|split; [|split; [|split]]].
  - induction emails as [|e emails IH]; simpl; [done|].
    destruct (negb _); [by apply sublist_skip|by apply sublist_cons].
  - intros e. rewrite list_elem_of_In, filter_In, negb_true_iff.
    by rewrite <- list_elem_of_In.
  - apply filter_all_true, Forall_forall.
    intros e [_ He]%list_elem_of_In%filter_In. done.
  - intros ->. apply filter_all_true, Forall_forall. done.
  - intros Hin. apply filter_all_false, Forall_forall. intros e _.
    apply negb_false_iff. unfold sender_is_protected.
    apply existsb_exists. exists "". split; [by apply list_elem_of_In|].
    apply is_substring_empty.
Qed.

Lemma preprocessing_filter_keeps_unprotected_witness :
  let b := Email "b" "Weekly" "news@list.org" "" "hello" true [] in
  _apply_preprocessing_filters (Config None None (Some (DeletionRules (Some [""]) None))) [b]
  = [].
Proof.
  intros b.
  apply (proj2 (proj2 (proj2 (proj2 (preprocessing_filter_keeps_unprotected
                                       (Config None None
                                          (Some (DeletionRules (Some [""]) None))) [b]))))).
  left.
Defined.

(** ** Decisions leave the recommendation alone *)

Lemma decided_fields now rid decisions r :
  let r' := decided now rid decisions r in
  ea_id r' = ea_id r ∧ ea_run_id r' = ea_run_id r ∧ ea_email_id r' = ea_email_id r ∧
  ea_subject r' = ea_subject r ∧ ea_sender r' = ea_sender r ∧ ea_date r' = ea_date r ∧
  ea_snippet r' = ea_snippet r ∧ ea_is_unread r' = ea_is_unread r ∧
  ea_recommended_action r' = ea_recommended_action r ∧ ea_category r' = ea_category r ∧
  ea_confidence r' = ea_confidence r ∧ ea_reason r' = ea_reason r.
Proof.
  simpl. unfold decided. destruct (Z.eqb _ _); [|done]. by destruct (decisions !! _).
Qed.

Lemma decided_idempotent now rid decisions r :
  decided now rid decisions (decided now rid decisions r) = decided now rid decisions r.
Proof.
  unfold decided. destruct (Z.eqb (ea_run_id r) rid) eqn:Hr; [|by rewrite Hr].
  destruct (decisions !! ea_email_id r) as [dec|] eqn:Hd; simpl.
  - by rewrite Hr, Hd.
  - by rewrite Hr, Hd.
Qed.

(** X24.  [update_user_decisions] neither adds nor removes rows and
    touches nothing but the decision and its timestamp: the recommendation,
    the email fields and the identifiers of every row stay; runs, deletion
    log and counters stay; and applying the same decisions again at the
    same time changes nothing more. *)
Theorem update_user_decisions_touches_decisions_only c d rid decisions :
  let d' := update_user_decisions c d rid decisions in
  analysis_runs d' = analysis_runs d ∧ deleted_emails d' = deleted_emails d ∧
  (seq_analysis_runs d' = seq_analysis_runs d ∧
   seq_email_analysis d' = seq_email_analysis d ∧
   seq_deleted_emails d' = seq_deleted_emails d) ∧
  length (email_analysis d') = length (email_analysis d) ∧
  (∀ i r', email_analysis d' !! i = Some r' →
           ∃ r, email_analysis d !! i = Some r ∧
                ea_id r' = ea_id r ∧ ea_run_id r' = ea_run_id r ∧
                ea_email_id r' = ea_email_id r ∧ ea_subject r' = ea_subject r ∧
                ea_sender r' = ea_sender r ∧ ea_date r' = ea_date r ∧
                ea_snippet r' = ea_snippet r ∧ ea_is_unread r' = ea_is_unread r ∧
                ea_recommended_action r' = ea_recommended_action r ∧
                ea_category r' = ea_category r ∧ ea_confidence r' = ea_confidence r ∧
                ea_reason r' = ea_reason r) ∧
  update_user_decisions c d' rid decisions = d'.
Proof.
  cbv zeta.
  pose proof (update_user_decisions_rows c d rid decisions) as Hrows.
  change (List.map ?f ?l) with (f <$> l) in Hrows.
  split; [done|]. split; [done|]. split; [done|].
  split; [by rewrite Hrows, length_fmap|]. split.
  - intros i r'. rewrite Hrows, list_lookup_fmap.
    destruct (email_analysis d !! i) as [r|]; [|done]. intros [= <-].
    exists r. split; [done|].
    pose proof (decided_fields (current_timestamp c) rid decisions r) as H.
    cbv zeta in H. tauto.
  - set (d1 := update_user_decisions c d rid decisions) in *. clearbody d1.
    assert (email_analysis (update_user_decisions c d1 rid decisions) = email_analysis d1)
      as Heq.
    { rewrite update_user_decisions_rows. change (List.map ?f ?l) with (f <$> l).
      rewrite Hrows, <- list_fmap_compose.
      apply list_fmap_ext. intros i r _. simpl. apply decided_idempotent. }
    transitivity (Db (analysis_runs d1) (email_analysis d1) (deleted_emails d1)
                     (seq_analysis_runs d1) (seq_email_analysis d1) (seq_deleted_emails d1));
      [|by destruct d1].
    unfold update_user_decisions. f_equal. exact Heq.
Qed.

(** ** The resume token *)

(** X25.  [get_last_page_token] answers [None] exactly when no pending run
    stores a next-page token; a token it answers is the one stored by a
    pending run that is at least as recent as every other pending run with
    a token.  Completed and superseded runs never provide the resume
    point. *)
Theorem get_last_page_token_source d :
  (get_last_page_token d = None ↔
   Forall (fun r => status r = pending → next_page_token r = None) (analysis_runs d)) ∧
  (∀ t, get_last_page_token d = Some t →
        ∃ run, run ∈ analysis_runs d ∧ status run = pending ∧
               next_page_token run = Some t ∧
               ∀ r, r ∈ analysis_runs d → status r = pending →
                    is_Some (next_page_token r) → created_at r <= created_at run).
Proof.
  unfold get_last_page_token.
  set (P := fun r => is_pending r && bool_decide (is_Some (next_page_token r))).
  assert (∀ r, P r = true ↔ status r = pending ∧ is_Some (next_page_token r)) as HP.
  { intros r. unfold P, is_pending. rewrite andb_true_iff, bool_decide_eq_true.
    destruct (status r); simpl; intuition congruence. }
  split.
  - destruct (latest (List.filter P (analysis_runs d))) as [run|] eqn:Hl.
    + apply latest_In, list_elem_of_In, filter_In in Hl as [Hin [Hst Htok]%HP].
      split.
      * intros Hnone. rewrite Hnone in Htok. by destruct Htok.
      * intros Hall. apply list_elem_of_In in Hin.
        pose proof (proj1 (Forall_forall _ _) Hall _ Hin Hst) as Hnone.
        rewrite Hnone in Htok. by destruct Htok.
    + split; [|done]. intros _. apply latest_None in Hl.
      apply Forall_forall. intros r Hr Hst.
      destruct (next_page_token r) as [t|] eqn:Ht; [|done].
      assert (r ∈ List.filter P (analysis_runs d)) as Hin.
      { apply list_elem_of_In, filter_In. split; [by apply list_elem_of_In|].
        apply HP. rewrite Ht. eauto. }
      rewrite Hl in Hin. by apply elem_of_nil in Hin.
  - intros t. destruct (latest (List.filter P (analysis_runs d))) as [run|] eqn:Hl; [|done].
    intros Ht. exists run.
    pose proof Hl as [Hin [Hst _]%HP]%latest_In%list_elem_of_In%filter_In.
    split; [by apply list_elem_of_In|]. split; [done|]. split; [done|].
    intros r Hr Hrst Hrtok. apply (latest_max _ _ _ Hl).
    apply list_elem_of_In, filter_In. split; [by apply list_elem_of_In|]. by apply HP.
Qed.

Lemma get_last_page_token_source_witness :
  ∃ run, run ∈ analysis_runs one_pending_run ∧ status run = pending ∧
         next_page_token run = Some "abc".
Proof.
  destruct (proj2 (get_last_page_token_source one_pending_run) "abc" eq_refl)
    as (run & Hin & Hst & Htok & _).
  by exists run.
Defined.

(** ** A failure reported after the commit *)

(** X26.  When [run_paginated_analysis] returns [None], either nothing was
    written, or the page was analysed and saved and only the report that
    follows the commit raised: the store then holds the new run although
    the caller is told to retry. *)
Theorem failed_page_run_may_have_saved w cfg c d tok d' :
  run_paginated_analysis w cfg c d tok = (None, d') →
  d' = d ∨
  ∃ days rules analysis rid,
    gmail_days_to_analyze cfg = Some days ∧
    config_deletion_rules cfg = Some rules ∧
    analyze_emails w (filtered_page w cfg tok days) rules = Some analysis ∧
    save_page_analysis c d (filtered_page w cfg tok days) analysis tok
      (page_next_page_token
         (get_email_page w tok (default 50 (pagination_page_size cfg)) days))
    = Some (d', rid) ∧
    generate_daily_summary (filtered_page w cfg tok days) analysis = None.
Proof.
  unfold run_paginated_analysis, filtered_page.
  destruct (gmail_days_to_analyze cfg) as [days|]; [|intros [= <-]; by left].
  destruct (page_emails _) as [|e0 es] eqn:Hpage; [intros [= <-]; by left|].
  destruct (_apply_preprocessing_filters cfg (e0 :: es)) as [|f0 fs] eqn:Hfilt;
    [intros [= <-]; by left|].
  destruct (config_deletion_rules cfg) as [rules|]; [|intros [= <-]; by left].
  destruct (analyze_emails w (f0 :: fs) rules) as [analysis|] eqn:Han;
    [|intros [= <-]; by left].
  destruct (truthy analysis); simpl; [|intros [= <-]; by left].
  destruct (save_page_analysis _ _ _ _ _ _) as [[d1 rid]|] eqn:Hsave;
    [|intros [= <-]; by left].
  destruct (generate_daily_summary _ _) eqn:Hsum; [done|].
  intros [= <-]. right. exists days, rules, analysis, rid.
  rewrite Hpage, Hfilt. done.
Qed.

Lemma failed_page_run_may_have_saved_witness :
  let w := sample_world ["b"] (ChatContent (Some "partial")) true in
  ∃ d',
    run_paginated_analysis w sample_config sample_clock empty_db None = (None, d') ∧
    d' ≠ empty_db ∧
    ∃ days rules analysis rid,
      gmail_days_to_analyze sample_config = Some days ∧
      config_deletion_rules sample_config = Some rules ∧
      analyze_emails w (filtered_page w sample_config None days) rules = Some analysis ∧
      save_page_analysis sample_clock empty_db (filtered_page w sample_config None days)
        analysis None
        (page_next_page_token
           (get_email_page w None (default 50 (pagination_page_size sample_config)) days))
      = Some (d', rid) ∧
      generate_daily_summary (filtered_page w sample_config None days) analysis = None.
Proof.
  intros w.
  destruct (run_paginated_analysis w sample_config sample_clock empty_db None)
    as [[res|] d'] eqn:Hrun; [by vm_compute in Hrun|].
  exists d'. split; [exact eq_refl|].
  pose proof (failed_page_run_may_have_saved _ _ _ _ _ _ Hrun) as H.
  assert (d' ≠ empty_db) as Hne.
  { vm_compute in Hrun. injection Hrun as <-. discriminate. }
  split; [exact Hne|].
  destruct H as [Heq|H]; [exact (False_ind _ (Hne Heq))|exact H].
Defined.
